(** * Kettlebell VBT: the Gemini analysis function, embedded and verified

    The development follows [api/analyze.js] (module [Analyze]) and the
    other revision of the same file in the repository (module [Part000]):
    the prompt
    compiler ([buildPrompt], [getArmContext]), the response normaliser
    ([parseGeminiResponse]), the metrics ([calculateAvg],
    [calculateDropoff]) and the request handler.
    Module [App] follows the front end, [app.js], as far as its
    methods compute: the protocol form, the choice of a video and what
    is made of the response.

    JavaScript data is modelled as it is at run time: strings are sequences
    of UTF-16 code units, numbers are IEEE 754 binary64 values (Rocq's
    primitive floats), parsed JSON is a tree of values, and an operation
    that can raise returns a completion. *)

From Stdlib Require Import Ascii String.
From Stdlib Require Import List NArith ZArith Bool Floats Lia.
Import ListNotations.

Set Warnings "-inexact-float,-register-all".

(** ** Strings *)

(** A string is its sequence of UTF-16 code units. *)
Definition jstr := list N.

(** String literals of the source, written as Rocq strings. *)
Definition lit (s : string) : jstr := map N_of_ascii (list_ascii_of_string s).

Fixpoint jstr_eqb (s t : jstr) : bool :=
  match s, t with
  | [], [] => true
  | c :: s', d :: t' => N.eqb c d && jstr_eqb s' t'
  | _, _ => false
  end.

(** WhiteSpace and LineTerminator code units, as [String.prototype.trim]
    and the string-to-number conversion read them. *)
Definition isWhiteSpace (c : N) : bool :=
  existsb (N.eqb c)
    [9; 10; 11; 12; 13; 32; 160; 5760; 8192; 8193; 8194; 8195; 8196; 8197;
     8198; 8199; 8200; 8201; 8202; 8232; 8233; 8239; 8287; 12288; 65279]%N.

Fixpoint dropWhile {A} (p : A -> bool) (l : list A) : list A :=
  match l with
  | [] => []
  | x :: l' => if p x then dropWhile p l' else l
  end.

(** [dropWhileEnd p l] removes the longest suffix of [l] whose elements
    all satisfy [p]. *)
Definition dropWhileEnd {A} (p : A -> bool) (l : list A) : list A :=
  rev (dropWhile p (rev l)).

(** [s.trim()] *)
Definition trim (s : jstr) : jstr :=
  dropWhileEnd isWhiteSpace (dropWhile isWhiteSpace s).

(** [s.startsWith(p)] *)
Fixpoint startsWith (s p : jstr) : bool :=
  match p, s with
  | [], _ => true
  | d :: p', c :: s' => N.eqb c d && startsWith s' p'
  | _ :: _, [] => false
  end.

(** [s.endsWith(p)] *)
Definition endsWith (s p : jstr) : bool := startsWith (rev s) (rev p).

(** [s.slice(n)] for a literal [n >= 0]. *)
Definition slice_from (n : nat) (s : jstr) : jstr := skipn n s.

(** [s.slice(0, -n)]: everything but the last [n] code units (the empty
    string when [s] is shorter). *)
Definition slice_drop_last (n : nat) (s : jstr) : jstr :=
  firstn (length s - n) s.

(** [s.substring(0, n)] *)
Definition substring0 (n : nat) (s : jstr) : jstr := firstn n s.

(** ** Numbers *)

(** The binary64 value nearest to [n / d] (ties to even), signed by
    [neg]; [n >= 0] and [d > 0]. The quotient is rounded once, by the
    division of the IEEE specification run on the exact integers. *)
Definition float_of_ratio (neg : bool) (n d : Z) : float :=
  match n, d with
  | Zpos pn, Zpos pd =>
      SF2Prim (SFdiv prec emax (S754_finite neg pn 0) (S754_finite false pd 0))
  | _, _ => if neg then (-0)%float else 0%float
  end.

(** The number a decimal literal denotes: [digits * 10 ^ e10]. *)
Definition float_of_decimal (neg : bool) (digits e10 : Z) : float :=
  if (0 <=? e10)%Z then float_of_ratio neg (digits * 10 ^ e10) 1
  else float_of_ratio neg digits (10 ^ (- e10)).

(** The number of a count (an array or string length): the integer
    itself, rounded if it does not fit the 53-bit significand. *)
Definition num_of_nat (n : nat) : float :=
  SF2Prim (binary_normalize prec emax (Z.of_nat n) 0 false).

(** The binary64 form of a positive integer below [2 ^ 53]: the
    significand padded with zeros to 53 bits, and its exponent. *)
Definition mant (p : positive) : positive :=
  fst (shl_align p 0 (Zpos (digits2_pos p) - prec)).

Definition expo (p : positive) : Z := (Zpos (digits2_pos p) - prec)%Z.

(** [x] is the number a JSON text can denote other than [-0]: not NaN,
    not the negative zero. *)
Definition plain (x : float) : bool :=
  negb (PrimFloat.is_nan x)
  && match PrimFloat.classify x with NZero => false | _ => true end.

Definition isDigit (c : N) : bool := (48 <=? c)%N && (c <=? 57)%N.

Definition digit_val (c : N) : Z := Z.of_N (c - 48).

(** The value of a run of decimal digits, most significant first. *)
Definition digits_val (ds : jstr) : Z :=
  fold_left (fun acc c => (acc * 10 + digit_val c)%Z) ds 0%Z.

Fixpoint span {A} (p : A -> bool) (l : list A) : list A * list A :=
  match l with
  | [] => ([], [])
  | x :: l' =>
      if p x then let (a, b) := span p l' in (x :: a, b) else ([], l)
  end.

(** The decimal digits of [n >= 0], most significant first. *)
Fixpoint digits_of_fuel (fuel : nat) (n : Z) (acc : jstr) : jstr :=
  match fuel with
  | O => acc
  | S fuel' =>
      let acc' := Z.to_N (48 + n mod 10) :: acc in
      if (n <? 10)%Z then acc' else digits_of_fuel fuel' (n / 10) acc'
  end.

Definition digits_of (n : Z) : jstr :=
  digits_of_fuel (S (Z.to_nat (Z.log2 n))) n [].

(** Exponents far outside the binary64 range are settled without
    computing the power of ten: a nonzero literal above [10 ^ 400] is
    infinite and one below [10 ^ -400] rounds to zero. *)
Definition number_of_literal (neg : bool) (digits e10 : Z) : float :=
  if (digits =? 0)%Z then float_of_ratio neg 0 1
  else if (400 <? e10)%Z then (if neg then neg_infinity else infinity)
  else if (e10 + Z.log2 digits + 1 <? -400)%Z then float_of_ratio neg 0 1
  else float_of_decimal neg digits e10.

(** *** Number::toString (radix 10)

    The shortest decimal that reads back as the same number, the closest
    one when several have that length, laid out as ECMA-262 6.1.6.1.20
    prescribes. *)

(** [xn / xd < 10 ^ n], for positive [xn] and [xd]. *)
Definition below_pow10 (xn xd n : Z) : bool :=
  if (0 <=? n)%Z then (xn <? 10 ^ n * xd)%Z else (xn * 10 ^ (- n) <? xd)%Z.

Fixpoint raise_exp (fuel : nat) (xn xd n : Z) : Z :=
  match fuel with
  | O => n
  | S fuel' =>
      if below_pow10 xn xd n then n else raise_exp fuel' xn xd (n + 1)
  end.

Fixpoint lower_exp (fuel : nat) (xn xd n : Z) : Z :=
  match fuel with
  | O => n
  | S fuel' =>
      if below_pow10 xn xd (n - 1) then lower_exp fuel' xn xd (n - 1) else n
  end.

(** The [n] with [10 ^ (n - 1) <= xn / xd < 10 ^ n]: an estimate from
    the binary logarithms, off by two at most, then corrected. *)
Definition decimal_exponent (xn xd : Z) : Z :=
  let n0 := ((Z.log2 xn - Z.log2 xd) * 30103 / 100000)%Z in
  lower_exp 4 xn xd (raise_exp 4 xn xd n0).

(** The [k]-digit candidates around [x = xn / xd]: the integers just below
    and just above [x * 10 ^ (k - n)]; one that reads back as [x] is kept,
    the closer of the two (the even one on a tie) when both do. *)
Definition shortest_try (x : float) (xn xd n k : Z) : option Z :=
  let t := (k - n)%Z in
  let num := if (0 <=? t)%Z then (xn * 10 ^ t)%Z else xn in
  let den := if (0 <=? t)%Z then xd else (xd * 10 ^ (- t))%Z in
  let lo := (num / den)%Z in
  let r := (num mod den)%Z in
  let hi := (lo + 1)%Z in
  let reads_back s := PrimFloat.eqb (float_of_decimal false s (n - k)) x in
  match reads_back lo, reads_back hi with
  | true, true =>
      Some (if (2 * r <? den)%Z then lo
            else if (den <? 2 * r)%Z then hi
            else if Z.even lo then lo else hi)
  | true, false => Some lo
  | false, true => Some hi
  | false, false => None
  end.

Fixpoint shortest (fuel : nat) (x : float) (xn xd n k : Z) : Z * Z :=
  match fuel with
  | O => ((if (0 <=? k - n)%Z then xn * 10 ^ (k - n) / xd
           else xn / (xd * 10 ^ (n - k)))%Z, k)
  | S fuel' =>
      match shortest_try x xn xd n k with
      | Some s => (s, k)
      | None => shortest fuel' x xn xd n (k + 1)
      end
  end.

Definition zeros (n : Z) : jstr := repeat 48%N (Z.to_nat n).

(** The layout of the digits [ds] (no trailing zero) of a number whose
    decimal point stands after [n] digits. *)
Definition layout (ds : jstr) (n : Z) : jstr :=
  let k := Z.of_nat (length ds) in
  if ((k <=? n) && (n <=? 21))%Z then ds ++ zeros (n - k)
  else if ((0 <? n) && (n <=? 21))%Z then
    firstn (Z.to_nat n) ds ++ lit "." ++ skipn (Z.to_nat n) ds
  else if ((-6 <? n) && (n <=? 0))%Z then lit "0." ++ zeros (- n) ++ ds
  else
    let e := (n - 1)%Z in
    let exponent :=
      lit "e" ++ (if (e <? 0)%Z then lit "-" else lit "+")
        ++ digits_of (Z.abs e) in
    match ds with
    | [d] => [d] ++ exponent
    | d :: more => [d] ++ lit "." ++ more ++ exponent
    | [] => exponent
    end.

Definition NumberToString_pos (x : float) : jstr :=
  match Prim2SF x with
  | S754_finite _ m e =>
      let xn := if (0 <=? e)%Z then (Zpos m * 2 ^ e)%Z else Zpos m in
      let xd := if (0 <=? e)%Z then 1%Z else (2 ^ (- e))%Z in
      let n := decimal_exponent xn xd in
      let '(s, k) := shortest 17 x xn xd n 1 in
      let all := digits_of s in
      let ds := dropWhileEnd (N.eqb 48) all in
      layout ds (n + (Z.of_nat (length all) - k))
  | S754_infinity _ => lit "Infinity"
  | S754_zero _ => lit "0"
  | S754_nan => lit "NaN"
  end.

Definition NumberToString (x : float) : jstr :=
  if PrimFloat.is_nan x then lit "NaN"
  else if PrimFloat.eqb x 0 then lit "0"
  else if PrimFloat.ltb x 0 then lit "-" ++ NumberToString_pos (- x)
  else NumberToString_pos x.

(** *** StringToNumber (ECMA-262 7.1.4.1.1) *)

Definition hex_val (c : N) : option Z :=
  if isDigit c then Some (digit_val c)
  else if ((97 <=? c) && (c <=? 102))%N then Some (Z.of_N (c - 87))
  else if ((65 <=? c) && (c <=? 70))%N then Some (Z.of_N (c - 55))
  else None.

(** A non-decimal integer literal's digits in base [b]; [None] when the
    run is empty or holds a code unit that is no digit of the base. *)
Fixpoint radix_val (b : Z) (ds : jstr) (acc : Z) : option Z :=
  match ds with
  | [] => Some acc
  | c :: ds' =>
      match hex_val c with
      | Some d => if (d <? b)%Z then radix_val b ds' (acc * b + d) else None
      | None => None
      end
  end.

Definition nan : float := PrimFloat.nan.

Definition radix_literal (b : Z) (ds : jstr) : float :=
  match ds with
  | [] => nan
  | _ => match radix_val b ds 0 with
         | Some n => float_of_ratio false n 1
         | None => nan
         end
  end.

(** ExponentPart, optional: the exponent read and what follows it. *)
Definition exponent_part (s : jstr) : option (Z * jstr) :=
  match s with
  | c :: s1 =>
      if (N.eqb c 101 || N.eqb c 69)%bool then
        let '(neg, s2) :=
          match s1 with
          | sign :: s2 =>
              if N.eqb sign 43 then (false, s2)
              else if N.eqb sign 45 then (true, s2)
              else (false, s1)
          | [] => (false, s1)
          end in
        match span isDigit s2 with
        | ([], _) => None
        | (ds, rest) =>
            Some (if neg then (- digits_val ds)%Z else digits_val ds, rest)
        end
      else Some (0%Z, s)
  | [] => Some (0%Z, [])
  end.

(** StrUnsignedDecimalLiteral, other than [Infinity], up to the end of
    the string. *)
Definition unsigned_decimal (neg : bool) (s : jstr) : float :=
  let '(ip, s1) := span isDigit s in
  let '(fp, s2) :=
    match s1 with
    | c :: s1' => if N.eqb c 46 then span isDigit s1' else ([], s1)
    | [] => ([], s1)
    end in
  match ip, fp with
  | [], [] => nan
  | _, _ =>
      match exponent_part s2 with
      | Some (e, []) =>
          number_of_literal neg (digits_val (ip ++ fp))
            (e - Z.of_nat (length fp))
      | _ => nan
      end
  end.

Definition signed_decimal (neg : bool) (s : jstr) : float :=
  if jstr_eqb s (lit "Infinity") then (if neg then neg_infinity else infinity)
  else unsigned_decimal neg s.

Definition StringToNumber (s : jstr) : float :=
  let t := trim s in
  match t with
  | [] => 0%float
  | c :: t1 =>
      if N.eqb c 43 then signed_decimal false t1
      else if N.eqb c 45 then signed_decimal true t1
      else
        match t1 with
        | r :: ds =>
            if N.eqb c 48 && (N.eqb r 120 || N.eqb r 88) then
              radix_literal 16 ds
            else if N.eqb c 48 && (N.eqb r 111 || N.eqb r 79) then
              radix_literal 8 ds
            else if N.eqb c 48 && (N.eqb r 98 || N.eqb r 66) then
              radix_literal 2 ds
            else signed_decimal false t
        | [] => signed_decimal false t
        end
  end.

(** ** Values and completions *)

(** The values the program handles: what [JSON.parse] builds, and
    [undefined] for what is absent. An object is the list of its own
    properties. *)
Inductive value : Type :=
  | VUndefined
  | VNull
  | VBool (b : bool)
  | VNum (x : float)
  | VStr (s : jstr)
  | VArr (items : list value)
  | VObj (props : list (jstr * value)).

Inductive error : Type :=
  | TypeError
  | SyntaxError
  | UpstreamError (message : jstr).

(** The outcome of evaluating an expression or a call: a value, or an
    exception on its way to the nearest [catch]. *)
Inductive completion (A : Type) : Type :=
  | Normal (a : A)
  | Throw (e : error).

Arguments Normal {A} a.
Arguments Throw {A} e.

Definition bind {A B} (c : completion A) (k : A -> completion B) : completion B :=
  match c with
  | Normal a => k a
  | Throw e => Throw e
  end.

Notation "x <- c ;; k" := (bind c (fun x => k))
  (at level 61, c at next level, right associativity).

Definition str (s : string) : value := VStr (lit s).

(** *** Type conversion *)

(** ToBoolean: [undefined], [null], [false], [0], [-0], [NaN] and the empty
    string are falsy. *)
Definition ToBoolean (v : value) : bool :=
  match v with
  | VUndefined | VNull => false
  | VBool b => b
  | VNum x => negb (PrimFloat.eqb x 0 || PrimFloat.is_nan x)
  | VStr s => match s with [] => false | _ => true end
  | VArr _ | VObj _ => true
  end.

Fixpoint lookup (k : jstr) (props : list (jstr * value)) : option value :=
  match props with
  | [] => None
  | (k', v) :: props' => if jstr_eqb k k' then Some v else lookup k props'
  end.

(** [Array.prototype.join]: the texts of the elements, a comma between
    two neighbours. *)
Definition join (element : value -> completion jstr) :
    list value -> completion jstr :=
  fix join (l : list value) : completion jstr :=
    match l with
    | [] => Normal []
    | [x] => element x
    | x :: rest =>
        a <- element x ;; b <- join rest ;; Normal (a ++ lit "," ++ b)
    end.

(** ToString. An array is the comma-joined text of its elements, where
    [undefined] and [null] count as empty; a plain object is
    ["[object Object]"] unless an own [toString] property, which JSON can
    only make a non-callable, shadows the inherited method: then no
    conversion is left and the operation raises. *)
Fixpoint ToString (v : value) : completion jstr :=
  match v with
  | VUndefined => Normal (lit "undefined")
  | VNull => Normal (lit "null")
  | VBool true => Normal (lit "true")
  | VBool false => Normal (lit "false")
  | VNum x => Normal (NumberToString x)
  | VStr s => Normal s
  | VArr items =>
      join (fun x => match x with
                     | VUndefined | VNull => Normal []
                     | _ => ToString x
                     end) items
  | VObj props =>
      match lookup (lit "toString") props with
      | Some _ => Throw TypeError
      | None => Normal (lit "[object Object]")
      end
  end.

(** ToPrimitive: arrays and objects convert through their text. *)
Definition ToPrimitive (v : value) : completion value :=
  match v with
  | VArr _ | VObj _ => s <- ToString v ;; Normal (VStr s)
  | _ => Normal v
  end.

Definition ToNumber (v : value) : completion float :=
  p <- ToPrimitive v ;;
  Normal match p with
         | VNull => 0%float
         | VBool true => 1%float
         | VBool false => 0%float
         | VNum x => x
         | VStr s => StringToNumber s
         | _ => nan
         end.

(** *** Operators *)

(** [a + b]: concatenation as soon as one operand is a string once made
    primitive, addition of numbers otherwise. *)
Definition js_add (a b : value) : completion value :=
  pa <- ToPrimitive a ;;
  pb <- ToPrimitive b ;;
  match pa, pb with
  | VStr _, _ | _, VStr _ =>
      sa <- ToString pa ;; sb <- ToString pb ;; Normal (VStr (sa ++ sb))
  | _, _ => x <- ToNumber pa ;; y <- ToNumber pb ;; Normal (VNum (x + y))
  end.

Definition arith (op : float -> float -> float) (a b : value) : completion value :=
  x <- ToNumber a ;; y <- ToNumber b ;; Normal (VNum (op x y)).

Definition js_sub := arith PrimFloat.sub.
Definition js_mul := arith PrimFloat.mul.
Definition js_div := arith PrimFloat.div.

Fixpoint jstr_ltb (s t : jstr) : bool :=
  match s, t with
  | _, [] => false
  | [], _ :: _ => true
  | c :: s', d :: t' => (c <? d)%N || (N.eqb c d && jstr_ltb s' t')
  end.

(** [a < b] *)
Definition js_lt (a b : value) : completion bool :=
  pa <- ToPrimitive a ;;
  pb <- ToPrimitive b ;;
  match pa, pb with
  | VStr s, VStr t => Normal (jstr_ltb s t)
  | _, _ => x <- ToNumber pa ;; y <- ToNumber pb ;; Normal (PrimFloat.ltb x y)
  end.

(** [a === b] where [b] is a primitive (every use in the program compares
    with a literal): an array or an object equals no primitive. *)
Definition strict_eq (a b : value) : bool :=
  match a, b with
  | VUndefined, VUndefined | VNull, VNull => true
  | VBool x, VBool y => Bool.eqb x y
  | VNum x, VNum y => PrimFloat.eqb x y
  | VStr s, VStr t => jstr_eqb s t
  | _, _ => false
  end.

(** [a || b], the right operand evaluated only when the left is falsy. *)
Definition js_or (a : value) (b : completion value) : completion value :=
  if ToBoolean a then Normal a else b.

(** *** Property reads *)

(** The array index a property key denotes: a canonical decimal numeral
    (no leading zero). *)
Definition index_of_key (k : jstr) : option Z :=
  match k with
  | [] => None
  | [_] => if forallb isDigit k then Some (digits_val k) else None
  | d :: _ :: _ =>
      if forallb isDigit k && negb (N.eqb d 48) then Some (digits_val k)
      else None
  end.

(** The element at index [z >= 0], if the list is that long. *)
Definition element {A} (l : list A) (z : Z) : option A :=
  if (z <? Z.of_nat (length l))%Z then nth_error l (Z.to_nat z) else None.

(** The property [k] of a value other than [undefined] and [null]. Objects
    answer with their own properties, arrays and strings with [length] and
    their elements; the names the program reads are no members of the
    built-in prototypes, so nothing is inherited. *)
Definition prop (v : value) (k : jstr) : value :=
  match v with
  | VObj props => match lookup k props with Some x => x | None => VUndefined end
  | VArr items =>
      if jstr_eqb k (lit "length") then VNum (num_of_nat (length items))
      else match index_of_key k with
           | Some i => match element items i with
                       | Some x => x
                       | None => VUndefined
                       end
           | None => VUndefined
           end
  | VStr s =>
      if jstr_eqb k (lit "length") then VNum (num_of_nat (length s))
      else match index_of_key k with
           | Some i => match element s i with
                       | Some c => VStr [c]
                       | None => VUndefined
                       end
           | None => VUndefined
           end
  | _ => VUndefined
  end.

Definition nullish (v : value) : bool :=
  match v with
  | VUndefined | VNull => true
  | _ => false
  end.

(** [v.k]: reading a property of [undefined] or [null] raises. *)
Definition get (v : value) (k : string) : completion value :=
  if nullish v then Throw TypeError else Normal (prop v (lit k)).

(** [v?.k] *)
Definition opt (v : value) (k : string) : value :=
  if nullish v then VUndefined else prop v (lit k).

(** The integer a number is, when it is a non-negative one. *)
Definition integer_of_number (x : float) : option Z :=
  match Prim2SF x with
  | S754_zero _ => Some 0%Z
  | S754_finite false m e =>
      if (0 <=? e)%Z then Some (Zpos m * 2 ^ e)%Z
      else if (Zpos m mod 2 ^ (- e) =? 0)%Z then Some (Zpos m / 2 ^ (- e))%Z
      else None
  | _ => None
  end.

(** [v[i]] for a computed key, [v] neither [undefined] nor [null]. The
    key is the text of [i]; an integral number is the text of an array
    index, so on an array or a string it selects the element directly. *)
Definition get_at (v i : value) : completion value :=
  let by_name := k <- ToString i ;; Normal (prop v k) in
  match i with
  | VNum x =>
      match v, integer_of_number x with
      | VArr items, Some z =>
          Normal match element items z with
                 | Some x => x
                 | None => VUndefined
                 end
      | VStr s, Some z =>
          Normal match element s z with
                 | Some c => VStr [c]
                 | None => VUndefined
                 end
      | _, _ => by_name
      end
  | _ => by_name
  end.

(** ** JSON.parse

    A recursive-descent reader of the JSON grammar (ECMA-404). The fuel
    bounds the depth of the recursion; [JSON_parse] supplies enough of it
    for every text. *)

Inductive parsed (A : Type) : Type :=
  | Parsed (a : A) (rest : jstr)
  | Malformed
  | Exhausted.

Arguments Parsed {A} a rest.
Arguments Malformed {A}.
Arguments Exhausted {A}.

Definition isJsonSpace (c : N) : bool :=
  (N.eqb c 32 || N.eqb c 9 || N.eqb c 10 || N.eqb c 13)%bool.

Definition skip_ws (s : jstr) : jstr := dropWhile isJsonSpace s.

Definition hex4 (a b c d : N) : option N :=
  match hex_val a, hex_val b, hex_val c, hex_val d with
  | Some x, Some y, Some z, Some w =>
      Some (Z.to_N (((x * 16 + y) * 16 + z) * 16 + w))
  | _, _, _, _ => None
  end.

(** The code unit an escape letter stands for. *)
Definition escape (c : N) : option N :=
  if N.eqb c 34 then Some 34%N          (* quote *)
  else if N.eqb c 92 then Some 92%N     (* backslash *)
  else if N.eqb c 47 then Some 47%N     (* slash *)
  else if N.eqb c 98 then Some 8%N      (* b *)
  else if N.eqb c 102 then Some 12%N    (* f *)
  else if N.eqb c 110 then Some 10%N    (* n *)
  else if N.eqb c 114 then Some 13%N    (* r *)
  else if N.eqb c 116 then Some 9%N     (* t *)
  else None.

(** The rest of a string literal after its opening quote: the string it
    denotes and the text behind the closing quote. [acc] holds the code
    units read so far, last first. *)
Fixpoint json_string (s : jstr) (acc : jstr) : option (jstr * jstr) :=
  match s with
  | [] => None
  | c :: s1 =>
      if N.eqb c 34 then Some (rev acc, s1)
      else if N.eqb c 92 then
        match s1 with
        | [] => None
        | e :: s2 =>
            if N.eqb e 117 then
              match s2 with
              | h1 :: h2 :: h3 :: h4 :: s3 =>
                  match hex4 h1 h2 h3 h4 with
                  | Some u => json_string s3 (u :: acc)
                  | None => None
                  end
              | _ => None
              end
            else
              match escape e with
              | Some u => json_string s2 (u :: acc)
              | None => None
              end
        end
      else if (c <? 32)%N then None
      else json_string s1 (c :: acc)
  end.

(** A number literal at the head of [s]: its value and the text behind. *)
Definition json_number (s : jstr) : option (float * jstr) :=
  let '(neg, s1) :=
    match s with
    | c :: s1 => if N.eqb c 45 then (true, s1) else (false, s)
    | [] => (false, s)
    end in
  let '(ip, s2) := span isDigit s1 in
  let '(fp, s3, frac_ok) :=
    match s2 with
    | c :: s2' =>
        if N.eqb c 46 then
          let '(fp, s3) := span isDigit s2' in
          (fp, s3, match fp with [] => false | _ => true end)
        else ([], s2, true)
    | [] => ([], s2, true)
    end in
  let int_ok :=
    match ip with
    | [] => false
    | [_] => true
    | d :: _ :: _ => negb (N.eqb d 48)
    end in
  if int_ok && frac_ok then
    let literal e rest :=
      Some (number_of_literal neg (digits_val (ip ++ fp))
              (e - Z.of_nat (length fp)), rest) in
    match s3 with
    | c :: _ =>
        if (N.eqb c 101 || N.eqb c 69)%bool then
          match exponent_part s3 with
          | Some (e, rest) => literal e rest
          | None => None
          end
        else literal 0%Z s3
    | [] => literal 0%Z s3
    end
  else None.

(** [obj[k] = v] while an object literal is read: a repeated name keeps
    its place and takes the later value. *)
Fixpoint define (k : jstr) (v : value) (props : list (jstr * value)) :
    list (jstr * value) :=
  match props with
  | [] => [(k, v)]
  | (k', v') :: props' =>
      if jstr_eqb k k' then (k, v) :: props'
      else (k', v') :: define k v props'
  end.

Fixpoint json_value (fuel : nat) (s : jstr) : parsed value :=
  match fuel with
  | O => Exhausted
  | S fuel' =>
      match skip_ws s with
      | [] => Malformed
      | c :: s1 =>
          if N.eqb c 123 then          (* opening brace *)
            match skip_ws s1 with
            | c2 :: s2 =>
                if N.eqb c2 125 then Parsed (VObj []) s2
                else json_members fuel' s1 []
            | [] => json_members fuel' s1 []
            end
          else if N.eqb c 91 then      (* opening bracket *)
            match skip_ws s1 with
            | c2 :: s2 =>
                if N.eqb c2 93 then Parsed (VArr []) s2
                else json_elements fuel' s1 []
            | [] => json_elements fuel' s1 []
            end
          else if N.eqb c 34 then      (* quote *)
            match json_string s1 [] with
            | Some (t, s2) => Parsed (VStr t) s2
            | None => Malformed
            end
          else if startsWith (c :: s1) (lit "true") then
            Parsed (VBool true) (skipn 4 (c :: s1))
          else if startsWith (c :: s1) (lit "false") then
            Parsed (VBool false) (skipn 5 (c :: s1))
          else if startsWith (c :: s1) (lit "null") then
            Parsed VNull (skipn 4 (c :: s1))
          else
            match json_number (c :: s1) with
            | Some (x, s2) => Parsed (VNum x) s2
            | None => Malformed
            end
      end
  end

(** The elements of an array after the opening bracket or a comma; [acc]
    holds the elements read so far, last first. *)
with json_elements (fuel : nat) (s : jstr) (acc : list value) : parsed value :=
  match fuel with
  | O => Exhausted
  | S fuel' =>
      match json_value fuel' s with
      | Parsed v s1 =>
          match skip_ws s1 with
          | c :: s2 =>
              if N.eqb c 44 then json_elements fuel' s2 (v :: acc)
              else if N.eqb c 93 then Parsed (VArr (rev (v :: acc))) s2
              else Malformed
          | [] => Malformed
          end
      | Malformed => Malformed
      | Exhausted => Exhausted
      end
  end

(** The members of an object after the opening brace or a comma. *)
with json_members (fuel : nat) (s : jstr) (acc : list (jstr * value)) :
    parsed value :=
  match fuel with
  | O => Exhausted
  | S fuel' =>
      match skip_ws s with
      | q :: s1 =>
          if N.eqb q 34 then
            match json_string s1 [] with
            | Some (k, s2) =>
                match skip_ws s2 with
                | colon :: s3 =>
                    if N.eqb colon 58 then
                      match json_value fuel' s3 with
                      | Parsed v s4 =>
                          match skip_ws s4 with
                          | c :: s5 =>
                              if N.eqb c 44 then
                                json_members fuel' s5 (define k v acc)
                              else if N.eqb c 125 then
                                Parsed (VObj (define k v acc)) s5
                              else Malformed
                          | [] => Malformed
                          end
                      | Malformed => Malformed
                      | Exhausted => Exhausted
                      end
                    else Malformed
                | [] => Malformed
                end
            | None => Malformed
            end
          else Malformed
      | [] => Malformed
      end
  end.

(** [JSON.parse(text)]: one value, white space around it and nothing
    else; a [SyntaxError] otherwise. *)
Definition JSON_parse (text : jstr) : completion value :=
  match json_value (S (2 * length text)) text with
  | Parsed v rest =>
      match skip_ws rest with
      | [] => Normal v
      | _ :: _ => Throw SyntaxError
      end
  | Malformed | Exhausted => Throw SyntaxError
  end.

(** ** The program's data *)

(** The object [parseGeminiResponse] returns. *)
Record NormalizedResult : Type := {
  reps : value;
  totalReps : value;
  avgDuration : value;
  avgVelocity : value;
  fastestRep : value;
  slowestRep : value;
  velocityDropoff : value;
  coachingNotes : value
}.

(** One invocation of the Gemini model: the configuration given to
    [getGenerativeModel] and the two parts given to [generateContent]. *)
Record ai_call : Type := {
  ai_model : jstr;
  ai_responseMimeType : option jstr;
  ai_mimeType : value;
  ai_data : value;
  ai_text : jstr
}.

(** What the program takes from its environment: the Unicode upper-case
    mapping of [String.prototype.toUpperCase]; the members a lookup in an
    object literal inherits from [Object.prototype], each with the text a
    template literal renders it as; and the Gemini service, which answers
    a call with the text of its response or raises. *)
Record Host : Type := {
  toUpperCase : jstr -> jstr;
  inherited : jstr -> option jstr;
  generateContent : ai_call -> completion jstr
}.

Record request : Type := {
  method : jstr;
  body : value
}.

(** The body of a JSON response. *)
Inductive payload : Type :=
  | ErrorOnly (label : jstr)
  | ErrorMessage (label : jstr) (cause : error)
  | Results (r : NormalizedResult).

(** [res.status(code).json(body)] *)
Record response : Type := {
  status : Z;
  json : payload
}.

(** Template text is written with an apostrophe for each double quote of
    the source (the templates hold no apostrophe of their own). *)
Definition template (s : string) : jstr :=
  map (fun c => if N.eqb c 39 then 34%N else c) (lit s).

(** [items.reduce(cb, init)] *)
Fixpoint reduce (cb : value -> value -> completion value) (items : list value)
    (acc : value) : completion value :=
  match items with
  | [] => Normal acc
  | x :: rest => acc' <- cb acc x ;; reduce cb rest acc'
  end.

(** [/\{[\s\S]*\}/] on [s]: the text from the first opening brace to the
    last closing brace behind it, if there is one. *)
Definition isOpen (c : N) : bool := N.eqb c 123.
Definition isClose (c : N) : bool := N.eqb c 125.

Definition jsonMatch (s : jstr) : option jstr :=
  match dropWhile (fun c => negb (isOpen c)) s with
  | [] => None
  | c :: rest =>
      match dropWhileEnd (fun c => negb (isClose c)) rest with
      | [] => None
      | inner => Some (c :: inner)
      end
  end.

(** * api/analyze.js *)

Module Analyze.

(** ** Metrics *)

Definition calculateAvg (reps : value) (field : string) : completion value :=
  if negb (ToBoolean reps) || strict_eq (prop reps (lit "length")) (VNum 0)
  then Normal (VNum 0)
  else
    sum <- match reps with
           | VArr items =>
               reduce (fun acc rep =>
                         x <- get rep field ;;
                         y <- js_or x (Normal (VNum 0)) ;;
                         js_add acc y)
                      items (VNum 0)
           | _ => Throw TypeError     (* reps.reduce is not a function *)
           end ;;
    js_div sum (prop reps (lit "length")).

Definition calculateDropoff (reps : value) : completion value :=
  if negb (ToBoolean reps) then Normal (VNum 0)
  else
    few <- js_lt (prop reps (lit "length")) (VNum 2) ;;
    if few then Normal (VNum 0)
    else
      first <- get_at reps (VNum 0) ;;
      firstVelocity <- js_or (opt first "velocityScore") (Normal (VNum 0)) ;;
      lastIndex <- js_sub (prop reps (lit "length")) (VNum 1) ;;
      last <- get_at reps lastIndex ;;
      lastVelocity <- js_or (opt last "velocityScore") (Normal (VNum 0)) ;;
      if strict_eq firstVelocity (VNum 0) then Normal (VNum 0)
      else
        diff <- js_sub firstVelocity lastVelocity ;;
        ratio <- js_div diff firstVelocity ;;
        js_mul ratio (VNum 100).

(** ** Response normaliser *)

(** The text handed to [JSON.parse]: fences removed, the brace-delimited
    part taken when there is one. *)
Definition cleanText (text : jstr) : jstr :=
  let cleanText := trim text in
  let cleanText :=
    if startsWith cleanText (lit "```json") then slice_from 7 cleanText
    else cleanText in
  let cleanText :=
    if startsWith cleanText (lit "```") then slice_from 3 cleanText
    else cleanText in
  let cleanText :=
    if endsWith cleanText (lit "```") then slice_drop_last 3 cleanText
    else cleanText in
  let cleanText :=
    match jsonMatch cleanText with
    | Some jsonMatch0 => jsonMatch0
    | None => cleanText
    end in
  trim cleanText.

(** The object built from the parsed [data]. [data.reps] and
    [data.summary] are read once here; the source reads them again in
    later fields, with the same outcome. *)
Definition structure (data : value) : completion NormalizedResult :=
  data_reps <- get data "reps" ;;
  reps <- js_or data_reps (Normal (VArr [])) ;;
  summary <- get data "summary" ;;
  totalReps <- js_or (opt summary "totalReps")
                 (js_or (opt data_reps "length") (Normal (VNum 0))) ;;
  avgDuration <- js_or (opt summary "avgDuration")
                   (calculateAvg data_reps "duration") ;;
  avgVelocity <- js_or (opt summary "avgVelocity")
                   (calculateAvg data_reps "velocityScore") ;;
  fastestRep <- js_or (opt summary "fastestRep") (Normal (VNum 1)) ;;
  slowestRep <- js_or (opt summary "slowestRep")
                  (js_or (opt data_reps "length") (Normal (VNum 1))) ;;
  velocityDropoff <- js_or (opt summary "velocityDropPercent")
                       (calculateDropoff data_reps) ;;
  notes <- get data "coachingNotes" ;;
  coachingNotes <- js_or notes
    (Normal (str "Analysis complete. Review the rep-by-rep data for insights.")) ;;
  Normal {| reps := reps;
            totalReps := totalReps;
            avgDuration := avgDuration;
            avgVelocity := avgVelocity;
            fastestRep := fastestRep;
            slowestRep := slowestRep;
            velocityDropoff := velocityDropoff;
            coachingNotes := coachingNotes |}.

(** The [try] block. *)
Definition attempt (text : jstr) : completion NormalizedResult :=
  data <- JSON_parse (cleanText text) ;;
  structure data.

(** The object the [catch] block returns. *)
Definition fallback (text : jstr) : NormalizedResult :=
  {| reps := VArr [];
     totalReps := VNum 0;
     avgDuration := VNum 0;
     avgVelocity := VNum 0;
     fastestRep := VNum 0;
     slowestRep := VNum 0;
     velocityDropoff := VNum 0;
     coachingNotes :=
       VStr (lit "Parse error. Gemini response: " ++ substring0 300 text) |}.

Definition parseGeminiResponse (text : jstr) (protocol : value) : NormalizedResult :=
  match attempt text with
  | Normal result => result
  | Throw parseError => fallback text
  end.

(** ** Prompt compiler *)

Section Program.

Variable host : Host.

(** [protocol.startingArm.toUpperCase()]: only a string has the method. *)
Definition upper (startingArm : value) : completion jstr :=
  match startingArm with
  | VStr s => Normal (toUpperCase host s)
  | _ => Throw TypeError
  end.

Definition getArmContext (protocol : value) : completion jstr :=
  armPattern <- get protocol "armPattern" ;;
  if strict_eq armPattern (str "left-only") then
    Normal (lit "All reps are performed with the LEFT arm.")
  else if strict_eq armPattern (str "right-only") then
    Normal (lit "All reps are performed with the RIGHT arm.")
  else if strict_eq armPattern (str "alternating-sets") then
    interval <- get protocol "interval" ;;
    interval <- ToString interval ;;
    startingArm <- get protocol "startingArm" ;;
    STARTING <- upper startingArm ;;
    startingArm <- ToString startingArm ;;
    Normal (lit "Arms alternate each set (every " ++ interval
            ++ lit " seconds). Starting arm: " ++ STARTING
            ++ lit ". So sets 1,3,5... use " ++ startingArm
            ++ lit ", sets 2,4,6... use the other arm.")
  else if strict_eq armPattern (str "alternating-reps") then
    startingArm <- get protocol "startingArm" ;;
    STARTING <- upper startingArm ;;
    Normal (lit "Arms alternate each rep. Starting arm: " ++ STARTING
            ++ lit ".")
  else if strict_eq armPattern (str "both") then
    Normal (lit "This is a two-handed exercise (both arms used simultaneously).")
  else
    Normal (lit "Identify which arm is used for each rep based on visual observation.").

Definition exerciseNames : list (jstr * value) :=
  [ (lit "snatch", str "kettlebell snatch");
    (lit "swing", str "kettlebell swing");
    (lit "clean", str "kettlebell clean");
    (lit "clean-press", str "kettlebell clean and press");
    (lit "jerk", str "kettlebell jerk") ].

(** [{...}[protocol.exercise] || 'kettlebell exercise'], as the template
    renders it: an own entry of the table, else a member inherited from
    [Object.prototype] (truthy, whatever it is), else the generic name. *)
Definition exerciseName (exercise : jstr) : jstr :=
  match lookup exercise exerciseNames with
  | Some (VStr name) => name
  | _ =>
      match inherited host exercise with
      | Some text => text
      | None => lit "kettlebell exercise"
      end
  end.

Definition buildPrompt (protocol : value) : completion jstr :=
  exercise <- get protocol "exercise" ;;
  exercise <- ToString exercise ;;
  let exerciseName := exerciseName exercise in
  armContext <- getArmContext protocol ;;
  weight <- get protocol "weight" ;;
  weight <- ToString weight ;;
  repsPerSet <- get protocol "repsPerSet" ;;
  repsPerSet <- ToString repsPerSet ;;
  interval <- get protocol "interval" ;;
  interval <- ToString interval ;;
  Normal (
    template "Analyze this kettlebell video for velocity-based training metrics.

PROTOCOL:
- Exercise: "
    ++ exerciseName
    ++ template "
- Weight: "
    ++ weight
    ++ template "kg
- Expected: "
    ++ repsPerSet
    ++ template " reps every "
    ++ interval
    ++ template " seconds
- "
    ++ armContext
    ++ template "

TASK: For each rep, identify the start time (hip hinge/pull), end time (lockout), duration, and estimate velocity on a 1-10 scale.

Return this exact JSON structure:
{
    'reps': [
        {'repNumber': 1, 'arm': 'Left', 'startTime': '00:03.2', 'endTime': '00:04.1', 'duration': 0.9, 'velocityScore': 8}
    ],
    'summary': {
        'totalReps': 0,
        'avgDuration': 0.0,
        'avgVelocity': 0.0,
        'fastestRep': 1,
        'slowestRep': 1,
        'velocityDropPercent': 0.0
    },
    'coachingNotes': 'Brief observation about consistency, fatigue, technique.'
}").

(** ** Request handler *)

Definition respond (code : Z) (b : payload) : response :=
  {| status := code; json := b |}.

(** Where the [try] block stands when it reaches the Gemini call: it has
    answered already, or it is about to call with a compiled prompt. *)
Inductive step : Type :=
  | Reply (r : response)
  | Call (c : ai_call) (protocol : value).

Definition before_call (req : request) : completion step :=
  video <- get (body req) "video" ;;
  mimeType <- get (body req) "mimeType" ;;
  protocol <- get (body req) "protocol" ;;
  if negb (ToBoolean video) || negb (ToBoolean protocol) then
    Normal (Reply (respond 400 (ErrorOnly (lit "Missing video or protocol data"))))
  else
    prompt <- buildPrompt protocol ;;
    mimeType <- js_or mimeType (Normal (str "video/mp4")) ;;
    Normal (Call {| ai_model := lit "gemini-1.5-pro";
                    ai_responseMimeType := Some (lit "application/json");
                    ai_mimeType := mimeType;
                    ai_data := video;
                    ai_text := prompt |} protocol).

(** The handler's response, and the calls it made to the Gemini service. *)
Definition handler (req : request) : response * list ai_call :=
  if negb (jstr_eqb (method req) (lit "POST")) then
    (respond 405 (ErrorOnly (lit "Method not allowed")), [])
  else
    match before_call req with
    | Normal (Reply r) => (r, [])
    | Normal (Call c protocol) =>
        match generateContent host c with
        | Normal text =>
            (respond 200 (Results (parseGeminiResponse text protocol)), [c])
        | Throw error =>
            (respond 500 (ErrorMessage (lit "Analysis failed") error), [c])
        end
    | Throw error =>
        (respond 500 (ErrorMessage (lit "Analysis failed") error), [])
    end.

End Program.

End Analyze.

(** * The other revision of api/analyze.js

    No JSON mode in the model configuration, no search for a
    brace-delimited part, a longer prompt and a shorter quotation in the
    fallback note. *)

Module Part000.

(** ** Metrics *)

Definition calculateAvg (reps : value) (field : string) : completion value :=
  if negb (ToBoolean reps) || strict_eq (prop reps (lit "length")) (VNum 0)
  then Normal (VNum 0)
  else
    sum <- match reps with
           | VArr items =>
               reduce (fun acc rep =>
                         x <- get rep field ;;
                         y <- js_or x (Normal (VNum 0)) ;;
                         js_add acc y)
                      items (VNum 0)
           | _ => Throw TypeError     (* reps.reduce is not a function *)
           end ;;
    js_div sum (prop reps (lit "length")).

Definition calculateDropoff (reps : value) : completion value :=
  if negb (ToBoolean reps) then Normal (VNum 0)
  else
    few <- js_lt (prop reps (lit "length")) (VNum 2) ;;
    if few then Normal (VNum 0)
    else
      first <- get_at reps (VNum 0) ;;
      firstVelocity <- js_or (opt first "velocityScore") (Normal (VNum 0)) ;;
      lastIndex <- js_sub (prop reps (lit "length")) (VNum 1) ;;
      last <- get_at reps lastIndex ;;
      lastVelocity <- js_or (opt last "velocityScore") (Normal (VNum 0)) ;;
      if strict_eq firstVelocity (VNum 0) then Normal (VNum 0)
      else
        diff <- js_sub firstVelocity lastVelocity ;;
        ratio <- js_div diff firstVelocity ;;
        js_mul ratio (VNum 100).

(** ** Response normaliser *)

(** The text handed to [JSON.parse]: fences removed. *)
Definition cleanText (text : jstr) : jstr :=
  let cleanText := trim text in
  let cleanText :=
    if startsWith cleanText (lit "```json") then slice_from 7 cleanText
    else cleanText in
  let cleanText :=
    if startsWith cleanText (lit "```") then slice_from 3 cleanText
    else cleanText in
  let cleanText :=
    if endsWith cleanText (lit "```") then slice_drop_last 3 cleanText
    else cleanText in
  trim cleanText.

(** The object built from the parsed [data]. [data.reps] and
    [data.summary] are read once here; the source reads them again in
    later fields, with the same outcome. *)
Definition structure (data : value) : completion NormalizedResult :=
  data_reps <- get data "reps" ;;
  reps <- js_or data_reps (Normal (VArr [])) ;;
  summary <- get data "summary" ;;
  totalReps <- js_or (opt summary "totalReps")
                 (js_or (opt data_reps "length") (Normal (VNum 0))) ;;
  avgDuration <- js_or (opt summary "avgDuration")
                   (calculateAvg data_reps "duration") ;;
  avgVelocity <- js_or (opt summary "avgVelocity")
                   (calculateAvg data_reps "velocityScore") ;;
  fastestRep <- js_or (opt summary "fastestRep") (Normal (VNum 1)) ;;
  slowestRep <- js_or (opt summary "slowestRep")
                  (js_or (opt data_reps "length") (Normal (VNum 1))) ;;
  velocityDropoff <- js_or (opt summary "velocityDropPercent")
                       (calculateDropoff data_reps) ;;
  notes <- get data "coachingNotes" ;;
  coachingNotes <- js_or notes
    (Normal (str "Analysis complete. Review the rep-by-rep data for insights.")) ;;
  Normal {| reps := reps;
            totalReps := totalReps;
            avgDuration := avgDuration;
            avgVelocity := avgVelocity;
            fastestRep := fastestRep;
            slowestRep := slowestRep;
            velocityDropoff := velocityDropoff;
            coachingNotes := coachingNotes |}.

(** The [try] block. *)
Definition attempt (text : jstr) : completion NormalizedResult :=
  data <- JSON_parse (cleanText text) ;;
  structure data.

(** The object the [catch] block returns. *)
Definition fallback (text : jstr) : NormalizedResult :=
  {| reps := VArr [];
     totalReps := VNum 0;
     avgDuration := VNum 0;
     avgVelocity := VNum 0;
     fastestRep := VNum 0;
     slowestRep := VNum 0;
     velocityDropoff := VNum 0;
     coachingNotes :=
       VStr (lit "Unable to parse analysis results. Raw response: "
             ++ substring0 200 text) |}.

Definition parseGeminiResponse (text : jstr) (protocol : value) : NormalizedResult :=
  match attempt text with
  | Normal result => result
  | Throw parseError => fallback text
  end.

(** ** Prompt compiler *)

Section Program.

Variable host : Host.

(** [protocol.startingArm.toUpperCase()]: only a string has the method. *)
Definition upper (startingArm : value) : completion jstr :=
  match startingArm with
  | VStr s => Normal (toUpperCase host s)
  | _ => Throw TypeError
  end.

Definition getArmContext (protocol : value) : completion jstr :=
  armPattern <- get protocol "armPattern" ;;
  if strict_eq armPattern (str "left-only") then
    Normal (lit "All reps are performed with the LEFT arm.")
  else if strict_eq armPattern (str "right-only") then
    Normal (lit "All reps are performed with the RIGHT arm.")
  else if strict_eq armPattern (str "alternating-sets") then
    interval <- get protocol "interval" ;;
    interval <- ToString interval ;;
    startingArm <- get protocol "startingArm" ;;
    STARTING <- upper startingArm ;;
    startingArm <- ToString startingArm ;;
    Normal (lit "Arms alternate each set (every " ++ interval
            ++ lit " seconds). Starting arm: " ++ STARTING
            ++ lit ". So sets 1,3,5... use " ++ startingArm
            ++ lit ", sets 2,4,6... use the other arm.")
  else if strict_eq armPattern (str "alternating-reps") then
    startingArm <- get protocol "startingArm" ;;
    STARTING <- upper startingArm ;;
    Normal (lit "Arms alternate each rep. Starting arm: " ++ STARTING
            ++ lit ".")
  else if strict_eq armPattern (str "both") then
    Normal (lit "This is a two-handed exercise (both arms used simultaneously).")
  else
    Normal (lit "Identify which arm is used for each rep based on visual observation.").

Definition exerciseNames : list (jstr * value) :=
  [ (lit "snatch", str "kettlebell snatch");
    (lit "swing", str "kettlebell swing");
    (lit "clean", str "kettlebell clean");
    (lit "clean-press", str "kettlebell clean and press");
    (lit "jerk", str "kettlebell jerk") ].

(** [{...}[protocol.exercise] || 'kettlebell exercise'], as the template
    renders it: an own entry of the table, else a member inherited from
    [Object.prototype] (truthy, whatever it is), else the generic name. *)
Definition exerciseName (exercise : jstr) : jstr :=
  match lookup exercise exerciseNames with
  | Some (VStr name) => name
  | _ =>
      match inherited host exercise with
      | Some text => text
      | None => lit "kettlebell exercise"
      end
  end.

Definition buildPrompt (protocol : value) : completion jstr :=
  exercise <- get protocol "exercise" ;;
  exercise <- ToString exercise ;;
  let exerciseName := exerciseName exercise in
  armContext <- getArmContext protocol ;;
  weight <- get protocol "weight" ;;
  weight <- ToString weight ;;
  repsPerSet <- get protocol "repsPerSet" ;;
  repsPerSet <- ToString repsPerSet ;;
  interval <- get protocol "interval" ;;
  interval <- ToString interval ;;
  Normal (
    template "You are a velocity-based training analyzer for kettlebell exercises.

CONTEXT:
- Exercise: "
    ++ exerciseName
    ++ template "
- Kettlebell weight: "
    ++ weight
    ++ template "kg
- Protocol: "
    ++ repsPerSet
    ++ template " reps every "
    ++ interval
    ++ template " seconds
- "
    ++ armContext
    ++ template "

TASK:
Analyze this video frame-by-frame to extract velocity-based training metrics.

For EACH repetition, identify:
1. Rep number (sequential across all sets)
2. Arm used (based on the arm pattern provided above)
3. Timestamp when the explosive phase begins (hip hinge/pull initiation)
4. Timestamp when the rep is complete (lockout/catch)
5. Rep duration in seconds (end - start)
6. Estimated velocity score (1-10 scale based on movement speed, where 10 is explosive/fast and 1 is slow/grinding)

RESPOND IN THIS EXACT JSON FORMAT:
{
    'reps': [
        {
            'repNumber': 1,
            'arm': 'Left',
            'startTime': '00:03.2',
            'endTime': '00:04.1',
            'duration': 0.9,
            'velocityScore': 8
        }
    ],
    'summary': {
        'totalReps': 8,
        'avgDuration': 1.05,
        'avgVelocity': 7.5,
        'fastestRep': 1,
        'slowestRep': 8,
        'velocityDropPercent': 12.5
    },
    'coachingNotes': 'Your observations about rep consistency, velocity trends, fatigue signs, and any technique notes.'
}

IMPORTANT:
- Be precise with timestamps (use milliseconds when possible)
- Duration = endTime - startTime
- Velocity score should reflect actual movement speed, not your judgment of form
- Note any significant velocity drop-off between first and last reps
- Coaching notes should be actionable and specific to what you observe

Respond ONLY with valid JSON. No markdown, no explanation outside the JSON.").

(** ** Request handler *)

Definition respond (code : Z) (b : payload) : response :=
  {| status := code; json := b |}.

(** Where the [try] block stands when it reaches the Gemini call: it has
    answered already, or it is about to call with a compiled prompt. *)
Inductive step : Type :=
  | Reply (r : response)
  | Call (c : ai_call) (protocol : value).

Definition before_call (req : request) : completion step :=
  video <- get (body req) "video" ;;
  mimeType <- get (body req) "mimeType" ;;
  protocol <- get (body req) "protocol" ;;
  if negb (ToBoolean video) || negb (ToBoolean protocol) then
    Normal (Reply (respond 400 (ErrorOnly (lit "Missing video or protocol data"))))
  else
    prompt <- buildPrompt protocol ;;
    mimeType <- js_or mimeType (Normal (str "video/mp4")) ;;
    Normal (Call {| ai_model := lit "gemini-1.5-pro";
                    ai_responseMimeType := None;
                    ai_mimeType := mimeType;
                    ai_data := video;
                    ai_text := prompt |} protocol).

(** The handler's response, and the calls it made to the Gemini service. *)
Definition handler (req : request) : response * list ai_call :=
  if negb (jstr_eqb (method req) (lit "POST")) then
    (respond 405 (ErrorOnly (lit "Method not allowed")), [])
  else
    match before_call req with
    | Normal (Reply r) => (r, [])
    | Normal (Call c protocol) =>
        match generateContent host c with
        | Normal text =>
            (respond 200 (Results (parseGeminiResponse text protocol)), [c])
        | Throw error =>
            (respond 500 (ErrorMessage (lit "Analysis failed") error), [c])
        end
    | Throw error =>
        (respond 500 (ErrorMessage (lit "Analysis failed") error), [])
    end.

End Program.

End Part000.

(** * app.js

    The class [KettlebellVBT] of the front end, as far as its methods
    compute: the page is the field [videoFile] of the object together
    with the properties of the elements the methods write. What
    [displayResults] and [showError] draw is not part of it, nor the
    waiting of [analyzeVideo]. *)

(** [parseInt(text)] without a radix (ECMA-262, 19.2.5): white space is
    skipped, a sign and the prefix [0x] are read, and the digits up to
    the first code unit that is none give the integer; [NaN] when there
    is no digit. *)
Definition parseInt (text : jstr) : float :=
  let s := dropWhile isWhiteSpace text in
  let '(neg, s) :=
    match s with
    | c :: s' =>
        if N.eqb c 45 then (true, s')
        else if N.eqb c 43 then (false, s')
        else (false, s)
    | [] => (false, s)
    end in
  let '(radix, s) :=
    match s with
    | c :: x :: s' =>
        if N.eqb c 48 && (N.eqb x 120 || N.eqb x 88) then (16%Z, s')
        else (10%Z, s)
    | _ => (10%Z, s)
    end in
  let digits :=
    fst (span (fun c => match hex_val c with
                        | Some d => (d <? radix)%Z
                        | None => false
                        end) s) in
  match digits with
  | [] => nan
  | _ :: _ =>
      match radix_val radix digits 0 with
      | Some n => float_of_ratio neg n 1
      | None => nan
      end
  end.

Module App.

(** The values of the six controls of the protocol form. *)
Record form : Type := {
  exerciseSelect_value : jstr;
  weightInput_value : jstr;
  repsInput_value : jstr;
  intervalInput_value : jstr;
  armPatternSelect_value : jstr;
  startingArmSelect_value : jstr
}.

Definition getProtocol (f : form) : value :=
  VObj [ (lit "exercise", VStr (exerciseSelect_value f));
         (lit "weight", VNum (parseInt (weightInput_value f)));
         (lit "repsPerSet", VNum (parseInt (repsInput_value f)));
         (lit "interval", VNum (parseInt (intervalInput_value f)));
         (lit "armPattern", VStr (armPatternSelect_value f));
         (lit "startingArm", VStr (startingArmSelect_value f)) ].

(** A [File] of the browser: its MIME type and its size in bytes. *)
Record File : Type := {
  type : jstr;
  size : float
}.

Record page : Type := {
  videoFile : option File;
  startingArmGroup_display : jstr;
  previewPlayer_src : jstr;
  videoInput_value : jstr;
  uploadZone_hidden : bool;
  uploadZone_dragover : bool;
  videoPreview_hidden : bool;
  analyzeBtn_disabled : bool;
  resultsSection_hidden : bool
}.

(** What a method does to the browser besides writing the page. *)
Inductive effect : Type :=
  | alert (message : jstr)
  | createObjectURL (file : File)
  | revokeObjectURL (url : jstr)
  | click_videoInput.

(** What the user does. *)
Inductive event : Type :=
  | change_armPattern (value : jstr)
  | click_uploadZone
  | change_videoInput (file : option File)
  | dragover
  | dragleave
  | drop (file : option File)
  | click_removeVideo.

Section Browser.

(** The URL [URL.createObjectURL] hands out for a file, and what the
    [src] property of the player reads as once a text is assigned to it
    (the browser resolves it as a URL). *)
Variable objectURL : File -> jstr.
Variable resolved : jstr -> jstr.

Definition updateArmPatternVisibility (armPatternSelect_value : jstr) (p : page) :
    page :=
  let pattern := VStr armPatternSelect_value in
  let showStartingArm :=
    strict_eq pattern (str "alternating-sets")
    || strict_eq pattern (str "alternating-reps") in
  {| videoFile := videoFile p;
     startingArmGroup_display :=
       if showStartingArm then lit "flex" else lit "none";
     previewPlayer_src := previewPlayer_src p;
     videoInput_value := videoInput_value p;
     uploadZone_hidden := uploadZone_hidden p;
     uploadZone_dragover := uploadZone_dragover p;
     videoPreview_hidden := videoPreview_hidden p;
     analyzeBtn_disabled := analyzeBtn_disabled p;
     resultsSection_hidden := resultsSection_hidden p |}.

Definition handleFileSelect (file : option File) (p : page) : page * list effect :=
  match file with
  | None => (p, [])
  | Some file =>
      if negb (startsWith (type file) (lit "video/")) then
        (p, [alert (lit "Please select a video file")])
      else if PrimFloat.ltb (100 * 1024 * 1024) (size file) then
        (p, [alert (lit "Video file must be under 100MB")])
      else
        let url := objectURL file in
        ({| videoFile := Some file;
            startingArmGroup_display := startingArmGroup_display p;
            previewPlayer_src := url;
            videoInput_value := videoInput_value p;
            uploadZone_hidden := true;
            uploadZone_dragover := uploadZone_dragover p;
            videoPreview_hidden := false;
            analyzeBtn_disabled := false;
            resultsSection_hidden := resultsSection_hidden p |},
         [createObjectURL file])
  end.

(** [uploadZone.classList.add('dragover')] and [remove('dragover')]. *)
Definition dragging (over : bool) (p : page) : page :=
  {| videoFile := videoFile p;
     startingArmGroup_display := startingArmGroup_display p;
     previewPlayer_src := previewPlayer_src p;
     videoInput_value := videoInput_value p;
     uploadZone_hidden := uploadZone_hidden p;
     uploadZone_dragover := over;
     videoPreview_hidden := videoPreview_hidden p;
     analyzeBtn_disabled := analyzeBtn_disabled p;
     resultsSection_hidden := resultsSection_hidden p |}.

Definition removeVideo (p : page) : page * list effect :=
  ({| videoFile := None;
      startingArmGroup_display := startingArmGroup_display p;
      previewPlayer_src := [];
      videoInput_value := [];
      uploadZone_hidden := false;
      uploadZone_dragover := uploadZone_dragover p;
      videoPreview_hidden := true;
      analyzeBtn_disabled := true;
      resultsSection_hidden := true |},
   match resolved (previewPlayer_src p) with
   | [] => []
   | src => [revokeObjectURL src]
   end).

(** The listeners of [bindEvents], but for the click on the analyze
    button: [file] is [e.target.files[0]], or [e.dataTransfer.files[0]]
    for a drop, if there is one. *)
Definition listen (e : event) (p : page) : page * list effect :=
  match e with
  | change_armPattern value => (updateArmPatternVisibility value p, [])
  | click_uploadZone => (p, [click_videoInput])
  | change_videoInput file => handleFileSelect file p
  | dragover => (dragging true p, [])
  | dragleave => (dragging false p, [])
  | drop file =>
      let p := dragging false p in
      match file with
      | Some f =>
          if startsWith (type f) (lit "video/") then handleFileSelect (Some f) p
          else (p, [])
      | None => (p, [])
      end
  | click_removeVideo => removeVideo p
  end.

Fixpoint run (events : list event) (p : page) : page * list effect :=
  match events with
  | [] => (p, [])
  | e :: rest =>
      let (p1, out1) := listen e p in
      let (p2, out2) := run rest p1 in
      (p2, out1 ++ out2)
  end.

End Browser.

(** [text.split(',')]: the pieces between the commas. *)
Fixpoint split_comma (text : jstr) : list jstr :=
  match text with
  | [] => [[]]
  | c :: rest =>
      match split_comma rest with
      | piece :: pieces =>
          if N.eqb c 44 then [] :: piece :: pieces else (c :: piece) :: pieces
      | [] => [[c]]
      end
  end.

(** What [fileToBase64] resolves with, given the data URL the reader
    produced: [reader.result.split(',')[1]]. *)
Definition fileToBase64 (reader_result : jstr) : value :=
  match nth_error (split_comma reader_result) 1 with
  | Some base64 => VStr base64
  | None => VUndefined
  end.

(** What [analyzeVideo] does with the response of the API. *)
Inductive shown : Type :=
  | displayResults (results : value)
  | showError (message : jstr)
  | showRaised (e : error).

(** Lines 163 to 173 of [analyzeVideo]: [ok] is [response.ok], [json]
    the outcome of [response.json()]. An exception that the code does
    not construct itself reaches [showError] with the message the
    engine gave it. *)
Definition respond_to (ok : bool) (json : completion value) : shown :=
  match json with
  | Throw e => showRaised e
  | Normal parsed =>
      if negb ok then
        match (message <- get parsed "message" ;;
               text <- js_or message (Normal (str "Analysis failed")) ;;
               ToString text) with
        | Normal text => showError text
        | Throw e => showRaised e
        end
      else displayResults parsed
  end.

End App.

(** * Vocabulary of the statements *)

(** ** Reps and metrics *)

(** A rep as the prompt asks for it. *)
Definition rep (repNumber : float) (arm startTime endTime : string)
    (duration velocityScore : float) : value :=
  VObj [ (lit "repNumber", VNum repNumber);
         (lit "arm", str arm);
         (lit "startTime", str startTime);
         (lit "endTime", str endTime);
         (lit "duration", VNum duration);
         (lit "velocityScore", VNum velocityScore) ].

(** Reading [field] of [rep] gives the number [x]. *)
Definition reads (field : string) (rep : value) (x : float) : Prop :=
  get rep field = Normal (VNum x).

(** An array has fewer than [2 ^ 32] elements. *)
Definition array_sized (items : list value) : Prop :=
  (Z.of_nat (length items) < 2 ^ 32)%Z.

(** The arithmetic mean as JavaScript computes it: the sum from the
    left, starting at [0], divided by the count. *)
Definition mean (xs : list float) : float :=
  (fold_left PrimFloat.add xs 0 / num_of_nat (length xs))%float.

(** Average(field) of the specification: the mean, 0 for no reps. *)
Definition average (xs : list float) : float :=
  match xs with
  | [] => 0%float
  | _ :: _ => mean xs
  end.

(** Dropoff of the specification, on the velocity scores in array
    order. *)
Definition dropoff (scores : list float) : float :=
  match scores with
  | [] | [_] => 0%float
  | first :: rest =>
      if PrimFloat.eqb first 0 then 0%float
      else ((first - last rest 0) / first * 100)%float
  end.

Definition durations_example : list value :=
  [ rep 1 "Left" "00:03.2" "00:04.1" 0.9 8;
    rep 2 "Left" "00:05.0" "00:06.1" 1.1 7;
    rep 3 "Left" "00:07.0" "00:08.3" 1.3 6 ].

Definition scores_example : list value :=
  [ rep 1 "Left" "00:03.2" "00:04.1" 0.9 8;
    rep 2 "Right" "00:05.0" "00:06.0" 1.0 7;
    rep 3 "Left" "00:07.0" "00:08.1" 1.1 6;
    rep 4 "Right" "00:09.0" "00:10.3" 1.3 4 ].

Definition two_reps : list value :=
  [ rep 1 "Left" "00:03.2" "00:04.1" 0.9 8;
    rep 2 "Left" "00:05.0" "00:06.1" 1.1 4 ].

(** ** Responses *)

(** A summary value as the normaliser reconciles it: the reported number
    unless it is zero, the derived one then. *)
Definition reconciled (reported derived : float) : float :=
  if PrimFloat.eqb reported 0 then derived else reported.

Definition defaultNotes : jstr :=
  lit "Analysis complete. Review the rep-by-rep data for insights.".

(** The notes: the reported string unless it is empty. *)
Definition notes_or_default (notes : jstr) : jstr :=
  match notes with
  | [] => defaultNotes
  | _ :: _ => notes
  end.



(** [data] has the shape the prompt documents: an array of reps with
    numeric durations [ds] and velocity scores [vs], a summary object
    with its six numbers, and a string of coaching notes. *)
Record documented (data : value) (items : list value) (ds vs : list float)
    (t d v f s p : float) (notes : jstr) : Prop := {
  doc_reps : prop data (lit "reps") = VArr items;
  doc_sized : array_sized items;
  doc_durations : Forall2 (reads "duration") items ds;
  doc_scores : Forall2 (reads "velocityScore") items vs;
  doc_plain : Forall (fun x => plain x = true) (ds ++ vs);
  doc_summary : nullish (prop data (lit "summary")) = false;
  doc_totalReps : opt (prop data (lit "summary")) "totalReps" = VNum t;
  doc_avgDuration : opt (prop data (lit "summary")) "avgDuration" = VNum d;
  doc_avgVelocity : opt (prop data (lit "summary")) "avgVelocity" = VNum v;
  doc_fastestRep : opt (prop data (lit "summary")) "fastestRep" = VNum f;
  doc_slowestRep : opt (prop data (lit "summary")) "slowestRep" = VNum s;
  doc_velocityDrop :
    opt (prop data (lit "summary")) "velocityDropPercent" = VNum p;
  doc_numbers :
    Forall (fun x => PrimFloat.is_nan x = false) [t; d; v; f; s; p];
  doc_notes : prop data (lit "coachingNotes") = VStr notes
}.

(** What the parsed [data] reports under [summary.field]. *)
Definition reported (text : jstr) (field : string) : value :=
  match JSON_parse (Analyze.cleanText text) with
  | Normal data => opt (prop data (lit "summary")) field
  | Throw _ => VUndefined
  end.

(** A response of the documented shape. *)
Definition reported_response : jstr := template
"{
  'reps': [
    {'repNumber': 1, 'arm': 'Left', 'startTime': '00:03.2', 'endTime': '00:04.1', 'duration': 0.9, 'velocityScore': 8},
    {'repNumber': 2, 'arm': 'Left', 'startTime': '00:05.0', 'endTime': '00:06.1', 'duration': 1.1, 'velocityScore': 4}
  ],
  'summary': {
    'totalReps': 2,
    'avgDuration': 1.0,
    'avgVelocity': 6.0,
    'fastestRep': 1,
    'slowestRep': 2,
    'velocityDropPercent': 50.0
  },
  'coachingNotes': 'Velocity halves on the second rep.'
}".

(** The same response, reporting no velocity drop. *)
Definition no_drop_response : jstr := template
"{
  'reps': [
    {'repNumber': 1, 'arm': 'Left', 'startTime': '00:03.2', 'endTime': '00:04.1', 'duration': 0.9, 'velocityScore': 8},
    {'repNumber': 2, 'arm': 'Left', 'startTime': '00:05.0', 'endTime': '00:06.1', 'duration': 1.1, 'velocityScore': 4}
  ],
  'summary': {
    'totalReps': 2,
    'avgDuration': 1.0,
    'avgVelocity': 6.0,
    'fastestRep': 1,
    'slowestRep': 2,
    'velocityDropPercent': 0
  },
  'coachingNotes': 'Velocity halves on the second rep.'
}".

(** A fenced response that has reps and no summary. *)
Definition summaryless_response : jstr := template
"```json
{'reps': [
  {'repNumber': 1, 'arm': 'Left', 'startTime': '00:03.2', 'endTime': '00:04.1', 'duration': 0.9, 'velocityScore': 8},
  {'repNumber': 2, 'arm': 'Left', 'startTime': '00:05.0', 'endTime': '00:06.1', 'duration': 1.1, 'velocityScore': 4}
]}
```".


(** ** Fences *)

Definition isBrace (c : N) : bool := isOpen c || isClose c.

(** [a] holds no brace. *)
Definition braceless (a : jstr) : Prop :=
  forallb (fun c => negb (isBrace c)) a = true.

(** The text as it stands when the regular expression is applied. *)
Definition unfenced (text : jstr) : jstr :=
  let t := trim text in
  let t := if startsWith t (lit "```json") then slice_from 7 t else t in
  let t := if startsWith t (lit "```") then slice_from 3 t else t in
  if endsWith t (lit "```") then slice_drop_last 3 t else t.

(** [payload] between an opening fence, with or without the [json] tag,
    and a closing fence. *)
Definition fenced (tag : bool) (payload : jstr) : jstr :=
  (if tag then lit "```json" else lit "```") ++ payload ++ lit "```".

(** A payload with a brace-delimited part. *)
Definition fenced_payload : jstr := template
"{'reps': [{'repNumber': 1, 'arm': 'Both', 'startTime': '00:01.0', 'endTime': '00:02.0', 'duration': 1.0, 'velocityScore': 9}]}".

(** ** Protocols and requests *)

(** The arm patterns [getArmContext] has a case for. *)
Definition recognized : list string :=
  [ "left-only"; "right-only"; "alternating-sets"; "alternating-reps";
    "both" ]%string.

(** The properties of a protocol that the prompt compiler reads. *)
Definition protocol_fields : list string :=
  [ "exercise"; "weight"; "repsPerSet"; "interval"; "armPattern";
    "startingArm" ]%string.

(** Two protocol values carry the same protocol. *)
Definition same_protocol (p q : value) : Prop :=
  nullish p = nullish q
  /\ forall k : string, In k protocol_fields -> prop p (lit k) = prop q (lit k).

(** A protocol object as the client sends it. *)
Definition protocolOf (exercise : jstr) (weight repsPerSet interval : float)
    (armPattern startingArm : value) : value :=
  VObj [ (lit "exercise", VStr exercise);
         (lit "weight", VNum weight);
         (lit "repsPerSet", VNum repsPerSet);
         (lit "interval", VNum interval);
         (lit "armPattern", armPattern);
         (lit "startingArm", startingArm) ].

Definition swing_protocol : value :=
  protocolOf (lit "swing") 16 5 30 (str "alternating-sets") (str "left").

(** The same protocol, its properties in another order and a property the
    program does not read added. *)
Definition swing_protocol_reordered : value :=
  VObj [ (lit "startingArm", str "left");
         (lit "armPattern", str "alternating-sets");
         (lit "interval", VNum 30);
         (lit "repsPerSet", VNum 5);
         (lit "weight", VNum 16);
         (lit "exercise", str "swing");
         (lit "session", str "morning") ].

(** A host for the examples: upper case for ASCII letters, nothing
    inherited, a model that answers with an empty object. *)
Definition demoHost : Host :=
  {| toUpperCase :=
       map (fun c => if ((97 <=? c) && (c <=? 122))%N then (c - 32)%N else c);
     inherited := fun _ => None;
     generateContent := fun _ => Normal (lit "{}") |}.

(** A request with an alternating pattern and no starting arm. *)
Definition alternating_request : request :=
  {| method := lit "POST";
     body :=
       VObj [ (lit "video", str "AAAAIGZ0eXBpc29t");
              (lit "mimeType", str "video/mp4");
              (lit "protocol",
               VObj [ (lit "exercise", str "snatch");
                      (lit "weight", VNum 16);
                      (lit "repsPerSet", VNum 5);
                      (lit "interval", VNum 30);
                      (lit "armPattern", str "alternating-reps") ]) ] |}.

(** ** Further vocabulary: metrics and responses *)

(** What a rep adds to the sum of [field]: the number it holds there, or
    0 when what it holds is falsy (nothing, [null], 0, [NaN], the empty
    string, [false]). *)
Definition counts (field : string) (rep : value) (x : float) : Prop :=
  exists v : value,
    get rep field = Normal v
    /\ ((v = VNum x /\ plain x = true) \/ (ToBoolean v = false /\ x = 0%float)).

(** Three reps, the second without a duration. *)
Definition gap_example : list value :=
  [ rep 1 "Left" "00:03.2" "00:04.1" 1.5 8;
    VObj [ (lit "repNumber", VNum 2); (lit "velocityScore", VNum 7) ];
    rep 3 "Left" "00:07.0" "00:08.3" 3 6 ].

(** The six numbers a summary reports. *)
Definition summary_fields : list string :=
  [ "totalReps"; "avgDuration"; "avgVelocity"; "fastestRep"; "slowestRep";
    "velocityDropPercent" ]%string.

(** ** Further vocabulary: protocols and requests *)

(** A value that is neither an array nor an object. *)
Definition primitive (v : value) : bool :=
  match v with
  | VArr _ | VObj _ => false
  | _ => true
  end.

(** The arm patterns for which [getArmContext] reads the starting arm. *)
Definition alternating (armPattern : value) : bool :=
  strict_eq armPattern (str "alternating-sets")
  || strict_eq armPattern (str "alternating-reps").

(** The call [handler] of [api/analyze.js] makes for a request, once the
    prompt is compiled. *)
Definition call_of (req : request) (prompt : jstr) : ai_call :=
  {| ai_model := lit "gemini-1.5-pro";
     ai_responseMimeType := Some (lit "application/json");
     ai_mimeType :=
       (let mimeType := prop (body req) (lit "mimeType") in
        if ToBoolean mimeType then mimeType else str "video/mp4");
     ai_data := prop (body req) (lit "video");
     ai_text := prompt |}.

(** A request that carries a video and a protocol. *)
Definition swing_request : request :=
  {| method := lit "POST";
     body :=
       VObj [ (lit "video", str "AAAAIGZ0eXBpc29t");
              (lit "mimeType", str "video/quicktime");
              (lit "protocol", swing_protocol) ] |}.

(** ** The front end *)

(** A file the front end accepts: a video of at most 100 MiB. *)
Definition valid_video (f : App.File) : Prop :=
  startsWith (App.type f) (lit "video/") = true
  /\ PrimFloat.ltb 104857600 (App.size f) = false.

(** The page shows the video it holds. *)
Definition shows_video (objectURL : App.File -> jstr) (p : App.page) : Prop :=
  forall f : App.File,
    App.videoFile p = Some f ->
    valid_video f
    /\ App.previewPlayer_src p = objectURL f
    /\ App.uploadZone_hidden p = true
    /\ App.videoPreview_hidden p = false.

(** The body of an error response as the client parses it: the label
    under [error] and, for a caught exception, its message (if it has
    one) under [message]. *)
Definition error_body (label : jstr) (message : option jstr) : value :=
  VObj ((lit "error", VStr label)
        :: match message with
           | Some text => [(lit "message", VStr text)]
           | None => []
           end).

(** A clip of three megabytes, a picture, and a film of two hundred. *)
Definition clip : App.File :=
  {| App.type := lit "video/mp4"; App.size := 3145728 |}.

Definition picture : App.File :=
  {| App.type := lit "image/png"; App.size := 20480 |}.

Definition film : App.File :=
  {| App.type := lit "video/quicktime"; App.size := 209715200 |}.

(** A page without a video. *)
Definition blank_page : App.page :=
  {| App.videoFile := None;
     App.startingArmGroup_display := lit "none";
     App.previewPlayer_src := [];
     App.videoInput_value := [];
     App.uploadZone_hidden := false;
     App.uploadZone_dragover := false;
     App.videoPreview_hidden := true;
     App.analyzeBtn_disabled := true;
     App.resultsSection_hidden := true |}.

(** The form as the page offers it, with a weight of twelve and a half. *)
Definition half_weight_form : App.form :=
  {| App.exerciseSelect_value := lit "snatch";
     App.weightInput_value := lit "12.5";
     App.repsInput_value := lit "5";
     App.intervalInput_value := lit "";
     App.armPatternSelect_value := lit "both";
     App.startingArmSelect_value := lit "left" |}.

(** * Facts about numbers

    Counts (array lengths) are exact as binary64 numbers: the comparisons
    and the subtraction the program performs on [reps.length] agree with
    the arithmetic of natural numbers. *)

Section Counts.

Local Open Scope Z_scope.

Lemma iter_pos_iter {A} (f : A -> A) (p : positive) (x : A) :
  iter_pos f p x = Pos.iter f x p.
Proof.
  revert x; induction p as [p IH | p IH | ]; intros x; simpl.
  - rewrite !IH, <- !Pos.iter_swap. reflexivity.
  - rewrite !IH. reflexivity.
  - reflexivity.
Qed.

Lemma Zpos_iter_xO (m k : positive) :
  Zpos (Pos.iter xO m k) = Zpos m * 2 ^ Zpos k.
Proof.
  induction k as [|k IH] using Pos.peano_ind.
  - simpl. lia.
  - rewrite Pos.iter_succ, Pos2Z.inj_succ, Z.pow_succ_r by lia.
    rewrite Pos2Z.inj_xO, IH. ring.
Qed.

Lemma digits2_iter_xO (m k : positive) :
  Zpos (digits2_pos (Pos.iter xO m k)) = Zpos (digits2_pos m) + Zpos k.
Proof.
  induction k as [|k IH] using Pos.peano_ind.
  - simpl. lia.
  - rewrite Pos.iter_succ. simpl digits2_pos. lia.
Qed.

Lemma shr_1_iter_xO (a k : positive) :
  Pos.iter shr_1 (Build_shr_record (Zpos (Pos.iter xO a k)) false false) k
  = Build_shr_record (Zpos a) false false.
Proof.
  revert a; induction k as [|k IH] using Pos.peano_ind; intros a.
  - reflexivity.
  - rewrite Pos.iter_succ_r, Pos.iter_succ. simpl shr_1. apply IH.
Qed.

(** Rounding leaves a significand alone when it already has the width
    its exponent calls for. *)
Lemma binary_round_aux_fits (s : bool) (m : positive) (e : Z) :
  fexp prec emax (Zpos (digits2_pos m) + e) = e ->
  e <= emax - prec ->
  binary_round_aux prec emax s (Zpos m) e loc_Exact = S754_finite s m e.
Proof.
  intros Hc He. unfold binary_round_aux, shr_fexp.
  cbn [Zdigits2]. rewrite Hc, Z.sub_diag.
  cbn [shr shr_record_of_loc shr_m loc_of_shr_record round_nearest_even].
  cbn [Zdigits2]. rewrite Hc, Z.sub_diag. cbn [shr shr_m].
  apply Z.leb_le in He. rewrite He. reflexivity.
Qed.

(** A significand with [k] trailing zeros, [k] bits too wide, is shifted
    right exactly. *)
Lemma binary_round_aux_shift (s : bool) (a k : positive) (e : Z) :
  fexp prec emax (Zpos (digits2_pos a) + (e + Zpos k)) = e + Zpos k ->
  e + Zpos k <= emax - prec ->
  binary_round_aux prec emax s (Zpos (Pos.iter xO a k)) e loc_Exact
  = S754_finite s a (e + Zpos k).
Proof.
  intros Hc He. unfold binary_round_aux, shr_fexp.
  cbn [Zdigits2]. rewrite digits2_iter_xO.
  replace (Zpos (digits2_pos a) + Zpos k + e) with (Zpos (digits2_pos a) + (e + Zpos k)) by ring.
  rewrite Hc. replace (e + Zpos k - e) with (Zpos k) by ring.
  cbn [shr shr_record_of_loc]. rewrite iter_pos_iter, shr_1_iter_xO.
  cbn [shr_m loc_of_shr_record round_nearest_even Zdigits2].
  rewrite Hc, Z.sub_diag. cbn [shr shr_record_of_loc shr_m].
  apply Z.leb_le in He. rewrite He. reflexivity.
Qed.

Lemma fexp_small d : 1 <= d -> d <= 1000 -> fexp prec emax d = d - prec.
Proof. unfold fexp, emin, prec, emax. lia. Qed.

Lemma Zpos_mant p : Zpos (digits2_pos p) <= prec ->
  Zpos (mant p) = Zpos p * 2 ^ (prec - Zpos (digits2_pos p)).
Proof.
  intros Hd. unfold mant, shl_align.
  destruct (Zpos (digits2_pos p) - prec - 0) as [|q|q] eqn:E; try lia.
  - replace (prec - Zpos (digits2_pos p)) with 0 by lia. simpl fst. lia.
  - simpl fst. rewrite Zpos_iter_xO. f_equal. f_equal. lia.
Qed.

Lemma digits_mant p : Zpos (digits2_pos p) <= prec ->
  Zpos (digits2_pos (mant p)) = prec.
Proof.
  intros Hd. unfold mant, shl_align.
  destruct (Zpos (digits2_pos p) - prec - 0) as [|q|q] eqn:E; try lia.
  - simpl fst. lia.
  - simpl fst. rewrite digits2_iter_xO. lia.
Qed.

Lemma binary_round_int (p : positive) :
  Zpos (digits2_pos p) <= prec ->
  binary_round prec emax false p 0 = S754_finite false (mant p) (expo p).
Proof.
  intros Hd. unfold binary_round.
  rewrite Z.add_0_r, fexp_small by (unfold prec in *; lia).
  fold (mant p). unfold shl_align.
  destruct (Zpos (digits2_pos p) - prec - 0) as [|q|q] eqn:E; try lia.
  - unfold mant, shl_align. rewrite E. simpl fst.
    assert (Hx : expo p = 0) by (unfold expo; lia). rewrite Hx.
    apply binary_round_aux_fits.
    + rewrite fexp_small; unfold prec in *; lia.
    + unfold emax, prec; lia.
  - assert (Hm : Pos.iter xO p q = mant p). { unfold mant, shl_align. rewrite E. reflexivity. }
    rewrite Hm. apply binary_round_aux_fits.
    + rewrite digits_mant by assumption. unfold expo. rewrite fexp_small; unfold prec in *; lia.
    + unfold expo, emax, prec in *; lia.
Qed.

Lemma digits2_lower (p : positive) : 2 ^ (Zpos (digits2_pos p) - 1) <= Zpos p.
Proof.
  induction p as [p IH | p IH | ]; simpl digits2_pos.
  - rewrite Pos2Z.inj_succ. replace (Z.succ (Zpos (digits2_pos p)) - 1) with (Z.succ (Zpos (digits2_pos p) - 1)) by lia.
    rewrite Z.pow_succ_r by lia. lia.
  - rewrite Pos2Z.inj_succ. replace (Z.succ (Zpos (digits2_pos p)) - 1) with (Z.succ (Zpos (digits2_pos p) - 1)) by lia.
    rewrite Z.pow_succ_r by lia. lia.
  - simpl. lia.
Qed.

Lemma digits2_bound (p : positive) : Zpos p < 2 ^ 53 -> Zpos (digits2_pos p) <= prec.
Proof.
  intros H. unfold prec.
  destruct (Z_le_gt_dec (Zpos (digits2_pos p)) 53) as [|Hg]; [assumption|exfalso].
  pose proof (digits2_lower p) as Hl.
  assert (2 ^ 53 <= 2 ^ (Zpos (digits2_pos p) - 1)) by (apply Z.pow_le_mono_r; lia).
  lia.
Qed.

Lemma valid_canonical (p : positive) :
  Zpos (digits2_pos p) <= prec ->
  valid_binary (S754_finite false (mant p) (expo p)) = true.
Proof.
  intros Hd. unfold valid_binary, bounded, canonical_mantissa.
  rewrite digits_mant by assumption. unfold expo.
  rewrite fexp_small by (unfold prec in *; lia).
  apply andb_true_intro; split.
  - apply Z.eqb_eq. lia.
  - apply Z.leb_le. unfold emax, prec in *. lia.
Qed.

Lemma Prim2SF_num_of_pos (p : positive) :
  Zpos p < 2 ^ 53 ->
  Prim2SF (num_of_nat (Pos.to_nat p)) = S754_finite false (mant p) (expo p).
Proof.
  intros Hp. pose proof (digits2_bound p Hp) as Hd.
  unfold num_of_nat. rewrite positive_nat_Z. cbn [binary_normalize].
  rewrite binary_round_int by assumption.
  apply Prim2SF_SF2Prim, valid_canonical, Hd.
Qed.

(** A positive count is neither zero nor NaN: it is truthy. *)
Lemma num_of_nat_nonzero (n : nat) :
  (0 < n)%nat -> Z.of_nat n < 2 ^ 53 ->
  PrimFloat.eqb (num_of_nat n) 0 = false /\ PrimFloat.is_nan (num_of_nat n) = false.
Proof.
  intros Hpos Hn. destruct n as [|n]; [lia|].
  rewrite <- SuccNat2Pos.id_succ.
  assert (Hp : Zpos (Pos.of_succ_nat n) < 2 ^ 53) by lia.
  pose proof (Prim2SF_num_of_pos _ Hp) as E.
  unfold PrimFloat.is_nan. rewrite !FloatAxioms.eqb_spec, E. split.
  - reflexivity.
  - unfold SFeqb, SFcompare. rewrite Z.compare_refl, Pos.compare_cont_refl. reflexivity.
Qed.

Lemma digits2_succ (p : positive) :
  Zpos (digits2_pos p~0) = Zpos (digits2_pos p) + 1
  /\ Zpos (digits2_pos p~1) = Zpos (digits2_pos p) + 1.
Proof. cbn [digits2_pos]. rewrite Pos2Z.inj_succ. lia. Qed.

Lemma digits2_two (p : positive) :
  Zpos (digits2_pos p) = 2 -> p = 2%positive \/ p = 3%positive.
Proof.
  destruct p as [q|q|]; intros H.
  - rewrite (proj2 (digits2_succ q)) in H.
    destruct q; [rewrite (proj2 (digits2_succ q)) in H; lia
                | rewrite (proj1 (digits2_succ q)) in H; lia | auto].
  - rewrite (proj1 (digits2_succ q)) in H.
    destruct q; [rewrite (proj2 (digits2_succ q)) in H; lia
                | rewrite (proj1 (digits2_succ q)) in H; lia | auto].
  - discriminate H.
Qed.

Lemma digits2_ge_2 (p : positive) : p <> 1%positive -> 2 <= Zpos (digits2_pos p).
Proof.
  destruct p as [q|q|]; intros H; try congruence.
  - rewrite (proj2 (digits2_succ q)). lia.
  - rewrite (proj1 (digits2_succ q)). lia.
Qed.

(** [length < 2] on numbers is [length < 2] on counts. *)
Lemma num_of_nat_lt_2 (n : nat) :
  Z.of_nat n < 2 ^ 53 ->
  PrimFloat.ltb (num_of_nat n) 2 = (n <? 2)%nat.
Proof.
  intros Hn. destruct n as [|[|n]]; [reflexivity | reflexivity |].
  change (S (S n) <? 2)%nat with false.
  rewrite <- SuccNat2Pos.id_succ.
  assert (Hp : Zpos (Pos.of_succ_nat (S n)) < 2 ^ 53) by lia.
  rewrite ltb_spec, (Prim2SF_num_of_pos _ Hp).
  change (Prim2SF 2) with (S754_finite false 4503599627370496 (-51)).
  assert (H1 : Pos.of_succ_nat (S n) <> 1%positive) by lia.
  generalize dependent (Pos.of_succ_nat (S n)). intros p Hp H1.
  pose proof (digits2_bound p Hp) as Hd.
  unfold SFltb, SFcompare, expo.
  destruct (Z.compare_spec (Zpos (digits2_pos p) - prec) (-51)) as [E|E|E].
  - (* two digits: p is 2 or 3 *)
    assert (Hp2 : p = 2%positive \/ p = 3%positive)
      by (apply digits2_two; unfold prec in E; lia).
    destruct Hp2; subst p; reflexivity.
  - exfalso. pose proof (digits2_ge_2 p H1). unfold prec in E. lia.
  - reflexivity.
Qed.

Lemma Zpos_shl_align (m : positive) (e e' : Z) :
  e' <= e -> Zpos (fst (shl_align m e e')) = Zpos m * 2 ^ (e - e').
Proof.
  intros H. unfold shl_align.
  destruct (e' - e) as [|q|q] eqn:E; try lia.
  - replace (e - e') with 0 by lia. simpl. lia.
  - simpl fst. rewrite Zpos_iter_xO. f_equal. f_equal. lia.
Qed.

(** [length - 1] on numbers is the predecessor of the count. *)
Lemma num_of_nat_pred (n : nat) :
  Z.of_nat (S n) < 2 ^ 53 ->
  (num_of_nat (S n) - 1)%float = num_of_nat n.
Proof.
  intros Hn. destruct n as [|[|n]]; [reflexivity | reflexivity |].
  apply Prim2SF_inj. rewrite sub_spec.
  set (p1 := Pos.of_succ_nat (S (S n))). set (p := Pos.of_succ_nat (S n)).
  replace (S (S (S n))) with (Pos.to_nat p1) by apply SuccNat2Pos.id_succ.
  replace (S (S n)) with (Pos.to_nat p) by apply SuccNat2Pos.id_succ.
  assert (Hp1 : Zpos p1 < 2 ^ 53) by (unfold p1; lia).
  assert (Hp : Zpos p < 2 ^ 53) by (unfold p; lia).
  assert (Hpp : Zpos p1 = Zpos p + 1) by (unfold p, p1; lia).
  assert (Hp2 : 2 <= Zpos p) by (unfold p; lia).
  rewrite (Prim2SF_num_of_pos _ Hp1), (Prim2SF_num_of_pos _ Hp).
  change (Prim2SF 1) with (S754_finite false 4503599627370496 (-52)).
  pose proof (digits2_bound _ Hp1) as Hd1. pose proof (digits2_bound _ Hp) as Hd.
  assert (Hdp : 2 <= Zpos (digits2_pos p)) by (apply digits2_ge_2; lia).
  unfold SF64sub, SFsub.
  assert (Hmin : Z.min (expo p1) (-52) = -52) by (unfold expo, prec; lia).
  rewrite Hmin. cbn [cond_Zopp].
  rewrite Zpos_shl_align by (unfold expo, prec; lia).
  rewrite Zpos_shl_align by lia.
  rewrite Zpos_mant by assumption.
  set (k := Z.to_pos (Zpos (digits2_pos p) - 1)).
  assert (Hk : Zpos k = Zpos (digits2_pos p) - 1) by (unfold k; rewrite Z2Pos.id; lia).
  assert (Hq : Zpos p1 * 2 ^ (prec - Zpos (digits2_pos p1)) * 2 ^ (expo p1 - -52)
               - 4503599627370496 * 2 ^ (-52 - -52)
               = Zpos (Pos.iter xO (mant p) k)).
  { rewrite Zpos_iter_xO, Zpos_mant, Hk by assumption.
    rewrite <- Z.mul_assoc, <- Z.pow_add_r by (unfold expo, prec in *; lia).
    rewrite <- Z.mul_assoc, <- Z.pow_add_r by (unfold expo, prec in *; lia).
    replace (prec - Zpos (digits2_pos p1) + (expo p1 - -52)) with 52 by (unfold expo, prec; lia).
    replace (prec - Zpos (digits2_pos p) + (Zpos (digits2_pos p) - 1)) with 52 by (unfold prec; lia).
    rewrite Hpp. change (2 ^ (-52 - -52)) with 1. change (2 ^ 52) with 4503599627370496. lia. }
  rewrite Hq. cbn [binary_normalize]. unfold binary_round.
  rewrite digits2_iter_xO, digits_mant by assumption.
  rewrite fexp_small by (unfold prec in *; lia).
  unfold shl_align.
  replace (expo p) with (-52 + Zpos k) by (unfold expo, prec; lia).
  destruct (prec + Zpos k + -52 - prec - -52) as [|q|q] eqn:E; try lia;
    (apply binary_round_aux_shift;
     [ rewrite digits_mant by assumption; rewrite fexp_small; unfold prec in *; lia
     | unfold emax, prec in *; lia ]).
Qed.

(** A count read back as an integer is itself. *)
Lemma integer_of_num_of_nat (n : nat) :
  Z.of_nat n < 2 ^ 53 -> integer_of_number (num_of_nat n) = Some (Z.of_nat n).
Proof.
  intros Hn. destruct n as [|n]; [reflexivity|].
  rewrite <- (SuccNat2Pos.id_succ n) at 1.
  assert (Hp : Zpos (Pos.of_succ_nat n) < 2 ^ 53) by lia.
  unfold integer_of_number. rewrite (Prim2SF_num_of_pos _ Hp).
  replace (Z.of_nat (S n)) with (Zpos (Pos.of_succ_nat n)) by lia.
  generalize dependent (Pos.of_succ_nat n). intros p Hp.
  pose proof (digits2_bound p Hp) as Hd.
  rewrite Zpos_mant by assumption. unfold expo.
  destruct (Z.leb_spec 0 (Zpos (digits2_pos p) - prec)) as [H|H].
  - replace (Zpos (digits2_pos p) - prec) with 0 by lia.
    replace (prec - Zpos (digits2_pos p)) with 0 by lia.
    f_equal. simpl. lia.
  - replace (- (Zpos (digits2_pos p) - prec)) with (prec - Zpos (digits2_pos p)) by lia.
    assert (Hpow : 0 < 2 ^ (prec - Zpos (digits2_pos p))) by (apply Z.pow_pos_nonneg; lia).
    rewrite Z.mod_mul, Z.div_mul by lia. reflexivity.
Qed.

Lemma falsy_number (x : float) :
  PrimFloat.eqb x 0 = true -> x = 0%float \/ x = (-0)%float.
Proof.
  intros H. rewrite FloatAxioms.eqb_spec in H.
  rewrite <- (SF2Prim_Prim2SF x).
  change (Prim2SF 0) with (S754_zero false) in H.
  destruct (Prim2SF x) as [[|]| [|] | | [|] m e]; try discriminate H; auto.
Qed.

Lemma sub_neg_zero (f : float) :
  PrimFloat.eqb f 0 = false -> (f - (-0))%float = (f - 0)%float.
Proof.
  intros H. rewrite FloatAxioms.eqb_spec in H. apply Prim2SF_inj.
  rewrite !sub_spec.
  change (Prim2SF (-0)) with (S754_zero true).
  change (Prim2SF 0) with (S754_zero false) in *.
  destruct (Prim2SF f) as [[|]| [|] | | [|] m e]; try discriminate H; reflexivity.
Qed.

End Counts.

(** * JSON.parse never runs out of fuel *)

Section Fuel.

Lemma dropWhile_length {A} (p : A -> bool) (l : list A) :
  (length (dropWhile p l) <= length l)%nat.
Proof.
  induction l as [|x l IH]; simpl; [lia|]. destruct (p x); simpl; lia.
Qed.

Lemma skip_ws_cons (s : jstr) (c : N) (rest : jstr) :
  skip_ws s = c :: rest -> (length rest < length s)%nat.
Proof.
  intros H. pose proof (dropWhile_length isJsonSpace s) as L.
  unfold skip_ws in H. rewrite H in L. simpl in L. lia.
Qed.

Lemma span_app {A} (p : A -> bool) (l a b : list A) :
  span p l = (a, b) -> l = a ++ b.
Proof.
  revert a b; induction l as [|x l IH]; simpl; intros a b H.
  - injection H as <- <-. reflexivity.
  - destruct (p x).
    + destruct (span p l) as [a' b']. injection H as <- <-.
      simpl. f_equal. apply IH. reflexivity.
    + injection H as <- <-. reflexivity.
Qed.

Lemma span_length {A} (p : A -> bool) (l a b : list A) :
  span p l = (a, b) -> length l = (length a + length b)%nat.
Proof. intros H. rewrite (span_app p l a b H), length_app. reflexivity. Qed.

Lemma json_string_shorter (n : nat) :
  forall (s acc k rest : jstr),
    (length s <= n)%nat ->
    json_string s acc = Some (k, rest) -> (length rest < length s)%nat.
Proof.
  induction n as [|n IH]; intros s acc k rest Hn H.
  - destruct s; [discriminate H | simpl in Hn; lia].
  - destruct s as [|c s1]; [discriminate H|]. simpl in Hn.
    cbn [json_string] in H.
    destruct (N.eqb c 34).
    { injection H as _ <-. simpl. lia. }
    destruct (N.eqb c 92).
    + destruct s1 as [|e s2]; [discriminate H|].
      destruct (N.eqb e 117).
      * destruct s2 as [|h1 [|h2 [|h3 [|h4 s3]]]]; try discriminate H.
        destruct (hex4 h1 h2 h3 h4); [|discriminate H].
        apply IH in H; simpl in *; lia.
      * destruct (escape e); [|discriminate H].
        apply IH in H; simpl in *; lia.
    + destruct (c <? 32)%N; [discriminate H|].
      apply IH in H; simpl; lia.
Qed.

Lemma exponent_part_length (s : jstr) (e : Z) (rest : jstr) :
  exponent_part s = Some (e, rest) -> (length rest <= length s)%nat.
Proof.
  unfold exponent_part. destruct s as [|c s1].
  - intros H. injection H as _ <-. simpl. lia.
  - destruct (N.eqb c 101 || N.eqb c 69)%bool.
    + assert (Hs : forall (neg : bool) (s2 : jstr), (length s2 <= length s1)%nat ->
                match span isDigit s2 with
                | ([], _) => None
                | (ds, rest0) =>
                    Some (if neg then (- digits_val ds)%Z
                          else digits_val ds, rest0)
                end = Some (e, rest) -> (length rest <= length (c :: s1))%nat).
      { intros neg s2 L H. destruct (span isDigit s2) as [ds r] eqn:E.
        apply span_length in E. destruct ds; [discriminate H|].
        destruct neg; injection H as _ <-; simpl in *; lia. }
      destruct s1 as [|d s2]; [apply (Hs false []); simpl; lia|].
      destruct (N.eqb d 43); [apply (Hs false s2); simpl; lia|].
      destruct (N.eqb d 45); [apply (Hs true s2); simpl; lia|].
      apply (Hs false (d :: s2)). simpl. lia.
    + intros H. injection H as _ <-. lia.
Qed.

Lemma json_number_shorter (s : jstr) (x : float) (rest : jstr) :
  json_number s = Some (x, rest) -> (length rest < length s)%nat.
Proof.
  unfold json_number.
  set (sign := match s with
               | c :: s1 => if N.eqb c 45 then (true, s1) else (false, s)
               | [] => (false, s)
               end).
  assert (Hs1 : (length (snd sign) <= length s)%nat).
  { unfold sign. destruct s as [|c s1]; [simpl; lia|].
    destruct (N.eqb c 45); simpl; lia. }
  destruct sign as [neg s1]. cbn [snd] in Hs1.
  destruct (span isDigit s1) as [ip s2] eqn:Eip. apply span_length in Eip.
  set (frac := match s2 with
               | c :: s2' =>
                   if N.eqb c 46 then
                     let '(fp, s3) := span isDigit s2' in
                     (fp, s3, match fp with [] => false | _ => true end)
                   else ([], s2, true)
               | [] => ([], s2, true)
               end).
  assert (Hs3 : (length (snd (fst frac)) <= length s2)%nat).
  { unfold frac. destruct s2 as [|c s2']; [simpl; lia|].
    destruct (N.eqb c 46); [|simpl; lia].
    destruct (span isDigit s2') as [fp s3] eqn:Efp. apply span_length in Efp.
    simpl. lia. }
  destruct frac as [[fp s3] frac_ok]. cbn [fst snd] in Hs3.
  destruct ip as [|d more]; [discriminate|].
  simpl in Eip.
  match goal with
  | |- (if ?b then _ else _) = _ -> _ => destruct b; [|discriminate]
  end.
  destruct s3 as [|c s3'].
  - intros H. injection H as _ <-. simpl in *. lia.
  - destruct (N.eqb c 101 || N.eqb c 69)%bool.
    + destruct (exponent_part (c :: s3')) as [[e r]|] eqn:Ee; [|discriminate].
      apply exponent_part_length in Ee.
      intros H. injection H as _ <-. simpl in *. lia.
    + intros H. injection H as _ <-. simpl in *. lia.
Qed.

Lemma skipn_shorter (n : nat) (c : N) (s : jstr) :
  (length (skipn (S n) (c :: s)) <= length s)%nat.
Proof. rewrite length_skipn. simpl. lia. Qed.

(** A value read leaves less text than there was. *)
Lemma json_value_shorter (fuel : nat) :
  (forall s v rest, json_value fuel s = Parsed v rest ->
                    (length rest < length s)%nat)
  /\ (forall s acc v rest, json_elements fuel s acc = Parsed v rest ->
                           (length rest < length s)%nat)
  /\ (forall s acc v rest, json_members fuel s acc = Parsed v rest ->
                           (length rest < length s)%nat).
Proof.
  induction fuel as [|fuel (IHv & IHe & IHm)];
    [repeat split; intros; discriminate|].
  split; [|split].
  - intros s v rest. cbn [json_value].
    destruct (skip_ws s) as [|c s1] eqn:Es; [discriminate|].
    pose proof (skip_ws_cons s c s1 Es) as L.
    pose proof (dropWhile_length isJsonSpace s) as L0. fold (skip_ws s) in L0.
    rewrite Es in L0.
    destruct (N.eqb c 123).
    { destruct (skip_ws s1) as [|c2 s2] eqn:E2.
      - intros H. apply IHm in H. lia.
      - pose proof (skip_ws_cons s1 c2 s2 E2) as L1.
        destruct (N.eqb c2 125).
        + intros H. injection H as _ <-. lia.
        + intros H. apply IHm in H. lia. }
    destruct (N.eqb c 91).
    { destruct (skip_ws s1) as [|c2 s2] eqn:E2.
      - intros H. apply IHe in H. lia.
      - pose proof (skip_ws_cons s1 c2 s2 E2) as L2.
        destruct (N.eqb c2 93).
        + intros H. injection H as _ <-. lia.
        + intros H. apply IHe in H. lia. }
    destruct (N.eqb c 34).
    { destruct (json_string s1 []) as [[t s2]|] eqn:E2; [|discriminate].
      apply (json_string_shorter (length s1)) in E2; [|lia].
      intros H. injection H as _ <-. lia. }
    destruct (startsWith (c :: s1) (lit "true")).
    { intros H. assert (E : rest = skipn 4 (c :: s1)) by (injection H; auto).
      rewrite E. pose proof (skipn_shorter 3 c s1). lia. }
    destruct (startsWith (c :: s1) (lit "false")).
    { intros H. assert (E : rest = skipn 5 (c :: s1)) by (injection H; auto).
      rewrite E. pose proof (skipn_shorter 4 c s1). lia. }
    destruct (startsWith (c :: s1) (lit "null")).
    { intros H. assert (E : rest = skipn 4 (c :: s1)) by (injection H; auto).
      rewrite E. pose proof (skipn_shorter 3 c s1). lia. }
    destruct (json_number (c :: s1)) as [[x s2]|] eqn:E2; [|discriminate].
    apply json_number_shorter in E2.
    intros H. injection H as _ <-. lia.
  - intros s acc v rest. cbn [json_elements].
    destruct (json_value fuel s) as [v1 s1| |] eqn:E1; try discriminate.
    apply IHv in E1.
    destruct (skip_ws s1) as [|c s2] eqn:E2; [discriminate|].
    pose proof (skip_ws_cons s1 c s2 E2) as L6.
    destruct (N.eqb c 44).
    + intros H. apply IHe in H. lia.
    + destruct (N.eqb c 93); [|discriminate].
      intros H. injection H as _ <-. lia.
  - intros s acc v rest. cbn [json_members].
    destruct (skip_ws s) as [|q s1] eqn:Es; [discriminate|].
    pose proof (skip_ws_cons s q s1 Es) as L7.
    destruct (N.eqb q 34); [|discriminate].
    destruct (json_string s1 []) as [[k s2]|] eqn:Ek; [|discriminate].
    apply (json_string_shorter (length s1)) in Ek; [|lia].
    destruct (skip_ws s2) as [|colon s3] eqn:E3; [discriminate|].
    pose proof (skip_ws_cons s2 colon s3 E3) as L8.
    destruct (N.eqb colon 58); [|discriminate].
    destruct (json_value fuel s3) as [v1 s4| |] eqn:E4; try discriminate.
    apply IHv in E4.
    destruct (skip_ws s4) as [|c s5] eqn:E5; [discriminate|].
    pose proof (skip_ws_cons s4 c s5 E5) as L9.
    destruct (N.eqb c 44).
    + intros H. apply IHm in H. lia.
    + destruct (N.eqb c 125); [|discriminate].
      intros H. injection H as _ <-. lia.
Qed.

(** Twice the length of the text, and one more, is fuel enough. *)
Lemma json_value_fuel (fuel : nat) :
  (forall s, (2 * length s + 1 <= fuel)%nat -> json_value fuel s <> Exhausted)
  /\ (forall s acc, (2 * length s + 2 <= fuel)%nat ->
                    json_elements fuel s acc <> Exhausted)
  /\ (forall s acc, (2 * length s + 2 <= fuel)%nat ->
                    json_members fuel s acc <> Exhausted).
Proof.
  induction fuel as [|fuel (IHv & IHe & IHm)];
    [repeat split; intros; lia|].
  destruct (json_value_shorter fuel) as (Sv & _ & _).
  split; [|split].
  - intros s Hf. cbn [json_value].
    destruct (skip_ws s) as [|c s1] eqn:Es; [discriminate|].
    pose proof (skip_ws_cons s c s1 Es) as L.
    destruct (N.eqb c 123).
    { destruct (skip_ws s1) as [|c2 s2]; [apply IHm; lia|].
      destruct (N.eqb c2 125); [discriminate | apply IHm; lia]. }
    destruct (N.eqb c 91).
    { destruct (skip_ws s1) as [|c2 s2]; [apply IHe; lia|].
      destruct (N.eqb c2 93); [discriminate | apply IHe; lia]. }
    destruct (N.eqb c 34).
    { destruct (json_string s1 []) as [[t s2]|]; discriminate. }
    destruct (startsWith (c :: s1) (lit "true")); [discriminate|].
    destruct (startsWith (c :: s1) (lit "false")); [discriminate|].
    destruct (startsWith (c :: s1) (lit "null")); [discriminate|].
    destruct (json_number (c :: s1)) as [[x s2]|]; discriminate.
  - intros s acc Hf. cbn [json_elements].
    destruct (json_value fuel s) as [v1 s1| |] eqn:E1.
    + apply Sv in E1.
      destruct (skip_ws s1) as [|c s2] eqn:E2; [discriminate|].
      pose proof (skip_ws_cons s1 c s2 E2) as L.
      destruct (N.eqb c 44); [apply IHe; lia|].
      destruct (N.eqb c 93); discriminate.
    + discriminate.
    + exfalso. revert E1. apply IHv. lia.
  - intros s acc Hf. cbn [json_members].
    destruct (skip_ws s) as [|q s1] eqn:Es; [discriminate|].
    pose proof (skip_ws_cons s q s1 Es) as L1.
    destruct (N.eqb q 34); [|discriminate].
    destruct (json_string s1 []) as [[k s2]|] eqn:Ek; [|discriminate].
    apply (json_string_shorter (length s1)) in Ek; [|lia].
    destruct (skip_ws s2) as [|colon s3] eqn:E3; [discriminate|].
    pose proof (skip_ws_cons s2 colon s3 E3) as L3.
    destruct (N.eqb colon 58); [|discriminate].
    destruct (json_value fuel s3) as [v1 s4| |] eqn:E4.
    + apply Sv in E4.
      destruct (skip_ws s4) as [|c s5] eqn:E5; [discriminate|].
      pose proof (skip_ws_cons s4 c s5 E5) as L5.
      destruct (N.eqb c 44); [apply IHm; lia|].
      destruct (N.eqb c 125); discriminate.
    + discriminate.
    + exfalso. revert E4. apply IHv. lia.
Qed.

(** [JSON_parse] decides every text: the reader never stops for lack of
    fuel. *)
Lemma JSON_parse_total (text : jstr) :
  json_value (S (2 * length text)) text <> Exhausted.
Proof. apply (json_value_fuel (S (2 * length text))). lia. Qed.

End Fuel.

(** * Metrics *)

Lemma prop_length (items : list value) :
  prop (VArr items) (lit "length") = VNum (num_of_nat (length items)).
Proof. reflexivity. Qed.

Lemma array_sized_53 (items : list value) :
  array_sized items -> (Z.of_nat (length items) < 2 ^ 53)%Z.
Proof.
  unfold array_sized. intros H. eapply Z.lt_trans; [exact H | reflexivity].
Qed.

Lemma plain_not_nan (x : float) : plain x = true -> PrimFloat.is_nan x = false.
Proof.
  unfold plain. intros H. apply andb_prop in H. destruct H as [H _].
  now apply negb_true_iff in H.
Qed.

(** [x || 0] for a number that is not NaN: the number itself, or [0] for
    either zero. *)
Lemma or_zero_number (x : float) :
  PrimFloat.is_nan x = false ->
  js_or (VNum x) (Normal (VNum 0))
  = Normal (VNum (if PrimFloat.eqb x 0 then 0%float else x)).
Proof.
  intros Hn. unfold js_or, ToBoolean. rewrite Hn, orb_false_r.
  destruct (PrimFloat.eqb x 0); reflexivity.
Qed.

(** [x || 0] is [x] for a plain number. *)
Lemma or_zero_plain (x : float) :
  plain x = true -> js_or (VNum x) (Normal (VNum 0)) = Normal (VNum x).
Proof.
  intros Hp. rewrite (or_zero_number x (plain_not_nan x Hp)).
  destruct (PrimFloat.eqb x 0) eqn:E; [|reflexivity].
  destruct (falsy_number x E) as [-> | ->]; [reflexivity | discriminate Hp].
Qed.

Lemma reduce_sum (field : string) (items : list value) (xs : list float) :
  Forall2 (reads field) items xs ->
  Forall (fun x => plain x = true) xs ->
  forall a : float,
    reduce (fun acc rep =>
              x <- get rep field ;;
              y <- js_or x (Normal (VNum 0)) ;;
              js_add acc y) items (VNum a)
    = Normal (VNum (fold_left PrimFloat.add xs a)).
Proof.
  induction 1 as [|r x items xs Hr _ IH]; intros Hp a.
  - reflexivity.
  - inversion Hp as [|? ? Hx Hxs]; subst.
    cbn [reduce]. unfold reads in Hr. rewrite Hr. cbn [bind].
    rewrite (or_zero_plain x Hx). cbn [bind fold_left].
    change (js_add (VNum a) (VNum x)) with (Normal (VNum (a + x))).
    cbn [bind]. apply IH, Hxs.
Qed.

Lemma calculateAvg_array (field : string) (items : list value) (xs : list float) :
  array_sized items ->
  Forall2 (reads field) items xs ->
  Forall (fun x => plain x = true) xs ->
  Analyze.calculateAvg (VArr items) field = Normal (VNum (average xs)).
Proof.
  intros Hsz Hr Hp. destruct Hr as [|r x items xs Hr Hrs]; [reflexivity|].
  unfold Analyze.calculateAvg. rewrite prop_length.
  assert (Hlen : (0 < length (r :: items))%nat) by (simpl; lia).
  destruct (num_of_nat_nonzero _ Hlen (array_sized_53 _ Hsz)) as [Hz _].
  cbn [ToBoolean negb orb strict_eq]. rewrite Hz.
  rewrite (reduce_sum field (r :: items) (x :: xs)) by first [assumption | constructor; assumption].
  cbn [bind]. unfold average, mean.
  cbn [length]. rewrite <- (Forall2_length Hrs). reflexivity.
Qed.

Lemma get_at_count (items : list value) (i : nat) :
  array_sized items -> (i < length items)%nat ->
  get_at (VArr items) (VNum (num_of_nat i)) = Normal (nth i items VUndefined).
Proof.
  intros Hsz Hi. unfold get_at.
  assert (Hi53 : (Z.of_nat i < 2 ^ 53)%Z).
  { pose proof (array_sized_53 _ Hsz). lia. }
  rewrite (integer_of_num_of_nat i Hi53). unfold element.
  replace (Z.of_nat i <? Z.of_nat (length items))%Z with true
    by (symmetry; apply Z.ltb_lt; lia).
  rewrite Nat2Z.id, (nth_error_nth' items VUndefined Hi). reflexivity.
Qed.

Lemma nth_last (first : value) (middle : list value) (last : value) :
  nth (length (first :: middle)) (first :: middle ++ [last]) VUndefined = last.
Proof.
  change (first :: middle ++ [last]) with ((first :: middle) ++ [last]).
  rewrite app_nth2 by lia. rewrite Nat.sub_diag. reflexivity.
Qed.

(** The formula on the first and the last rep of an array of two or
    more. *)
Lemma calculateDropoff_first_last (first : value) (middle : list value)
    (last : value) (f l : float) :
  array_sized (first :: middle ++ [last]) ->
  opt first "velocityScore" = VNum f ->
  opt last "velocityScore" = VNum l ->
  PrimFloat.is_nan f = false -> PrimFloat.is_nan l = false ->
  Analyze.calculateDropoff (VArr (first :: middle ++ [last]))
  = Normal (VNum (if PrimFloat.eqb f 0 then 0 else (f - l) / f * 100)%float).
Proof.
  intros Hsz Hf Hl Hnf Hnl.
  set (items := first :: middle ++ [last]) in *.
  assert (Hlen : length items = S (S (length middle))).
  { unfold items. simpl. rewrite length_app. simpl. lia. }
  pose proof (array_sized_53 _ Hsz) as H53.
  unfold Analyze.calculateDropoff. rewrite prop_length.
  cbn [ToBoolean negb].
  change (js_lt (VNum (num_of_nat (length items))) (VNum 2))
    with (Normal (PrimFloat.ltb (num_of_nat (length items)) 2)).
  rewrite (num_of_nat_lt_2 _ H53), Hlen. cbn [Nat.ltb Nat.leb bind].
  change (VNum 0) with (VNum (num_of_nat 0)) at 1.
  rewrite (get_at_count items 0 Hsz) by lia.
  change (nth 0 items VUndefined) with first. cbn [bind].
  rewrite Hf, (or_zero_number f Hnf). cbn [bind].
  change (js_sub (VNum (num_of_nat (S (S (length middle))))) (VNum 1))
    with (Normal (VNum (num_of_nat (S (S (length middle))) - 1))).
  rewrite num_of_nat_pred by lia. cbn [bind].
  rewrite (get_at_count items (S (length middle)) Hsz) by lia.
  change (S (length middle)) with (length (first :: middle)).
  unfold items. rewrite nth_last. cbn [bind].
  rewrite Hl, (or_zero_number l Hnl). cbn [bind strict_eq].
  destruct (PrimFloat.eqb f 0) eqn:Ef; [reflexivity|].
  rewrite Ef.
  destruct (PrimFloat.eqb l 0) eqn:El; [|reflexivity].
  destruct (falsy_number l El) as [-> | ->]; [reflexivity|].
  cbn [js_sub arith ToNumber ToPrimitive bind js_div js_mul].
  rewrite (sub_neg_zero f Ef). reflexivity.
Qed.

Lemma calculateDropoff_short (items : list value) :
  (length items < 2)%nat ->
  Analyze.calculateDropoff (VArr items) = Normal (VNum 0).
Proof.
  destruct items as [|x [|y items]]; intros H;
    [reflexivity | reflexivity | simpl in H; lia].
Qed.

Lemma reads_opt (field : string) (r : value) (x : float) :
  reads field r x -> opt r field = VNum x.
Proof.
  unfold reads, get, opt. destruct (nullish r); [discriminate|].
  intros H. now injection H.
Qed.

Lemma calculateDropoff_array (items : list value) (vs : list float) :
  array_sized items ->
  Forall2 (reads "velocityScore") items vs ->
  Forall (fun x => plain x = true) vs ->
  Analyze.calculateDropoff (VArr items) = Normal (VNum (dropoff vs)).
Proof.
  intros Hsz Hr Hp.
  destruct Hr as [|r1 v1 items vs Hr1 Hrs]; [reflexivity|].
  destruct Hrs as [|r2 v2 items vs Hr2 Hrs]; [reflexivity|].
  assert (Hne : r2 :: items <> []) by discriminate.
  destruct (exists_last Hne) as (middle & rlast & E).
  assert (Hne' : v2 :: vs <> []) by discriminate.
  destruct (exists_last Hne') as (vmid & vlast & E').
  assert (Hall : Forall2 (reads "velocityScore") (r2 :: items) (v2 :: vs))
    by (constructor; assumption).
  rewrite E, E' in Hall.
  apply Forall2_app_inv_l in Hall.
  destruct Hall as (l1 & l2 & _ & Hlast & Eq).
  inversion Hlast as [|? vl ? ? Hvl Hnil]; subst l2. inversion Hnil; subst.
  apply app_inj_tail in Eq. destruct Eq as [_ <-].
  assert (Hpl : plain vlast = true).
  { rewrite Forall_forall in Hp. apply Hp. right. rewrite E'.
    apply in_or_app. right. left. reflexivity. }
  assert (Hp1 : plain v1 = true) by (inversion Hp; assumption).
  rewrite E in Hsz |- *.
  rewrite (calculateDropoff_first_last r1 middle rlast v1 vlast Hsz)
    by (auto using reads_opt, plain_not_nan).
  unfold dropoff. rewrite E', last_last. reflexivity.
Qed.

(** C7. [calculateAvg] returns the arithmetic mean of the named numeric
    field over all reps, and 0 for an empty or an absent sequence; for
    the durations 0.9, 1.1 and 1.3 it returns 1.0999999999999999, within
    1e-9 of 1.1. *)
Theorem calculateAvg_mean (field : string) :
  Analyze.calculateAvg (VArr []) field = Normal (VNum 0)
  /\ Analyze.calculateAvg VUndefined field = Normal (VNum 0)
  /\ Analyze.calculateAvg VNull field = Normal (VNum 0)
  /\ (forall (items : list value) (xs : list float),
        items <> [] -> array_sized items ->
        Forall2 (reads field) items xs ->
        Forall (fun x => plain x = true) xs ->
        Analyze.calculateAvg (VArr items) field = Normal (VNum (mean xs)))
  /\ (exists avg : float,
        Analyze.calculateAvg (VArr durations_example) "duration"
        = Normal (VNum avg)
        /\ PrimFloat.ltb (abs (avg - 1.1)) 1e-9 = true).
Proof.
  repeat split; try reflexivity.
  - intros items xs Hne Hsz Hr Hp.
    rewrite (calculateAvg_array field items xs Hsz Hr Hp).
    destruct Hr; [congruence | reflexivity].
  - exists 1.0999999999999999%float. split; vm_compute; reflexivity.
Qed.

Lemma calculateAvg_mean_witness :
  Analyze.calculateAvg (VArr durations_example) "duration"
  = Normal (VNum (mean [0.9; 1.1; 1.3]%float)).
Proof.
  apply (proj1 (proj2 (proj2 (proj2 (calculateAvg_mean "duration"))))).
  - discriminate.
  - reflexivity.
  - repeat constructor.
  - repeat constructor.
Defined.

(** C4. [calculateDropoff] returns [(first - last) / first * 100] on the
    velocity scores of the first and the last rep by position, 0 when
    there are fewer than two reps or when the first score is 0, and 50
    for the scores 8, 7, 6, 4. On an array of reps with numeric scores it
    is the function [dropoff] of the scores in array order. *)
Theorem calculateDropoff_formula :
  (forall items : list value,
      (length items < 2)%nat ->
      Analyze.calculateDropoff (VArr items) = Normal (VNum 0))
  /\ (forall (first : value) (middle : list value) (last : value)
        (f l : float),
        array_sized (first :: middle ++ [last]) ->
        opt first "velocityScore" = VNum f ->
        opt last "velocityScore" = VNum l ->
        PrimFloat.is_nan f = false -> PrimFloat.is_nan l = false ->
        Analyze.calculateDropoff (VArr (first :: middle ++ [last]))
        = Normal (VNum (if PrimFloat.eqb f 0 then 0
                        else (f - l) / f * 100)%float))
  /\ (forall (items : list value) (scores : list float),
        array_sized items ->
        Forall2 (reads "velocityScore") items scores ->
        Forall (fun x => plain x = true) scores ->
        Analyze.calculateDropoff (VArr items) = Normal (VNum (dropoff scores)))
  /\ Analyze.calculateDropoff (VArr scores_example) = Normal (VNum 50).
Proof.
  split; [|split; [|split]].
  - exact calculateDropoff_short.
  - exact calculateDropoff_first_last.
  - exact calculateDropoff_array.
  - vm_compute. reflexivity.
Qed.

Lemma calculateDropoff_formula_witness :
  Analyze.calculateDropoff (VArr scores_example)
  = Normal (VNum ((8 - 4) / 8 * 100)%float).
Proof.
  refine (proj1 (proj2 calculateDropoff_formula)
            (rep 1 "Left" "00:03.2" "00:04.1" 0.9 8)
            [ rep 2 "Right" "00:05.0" "00:06.0" 1.0 7;
              rep 3 "Left" "00:07.0" "00:08.1" 1.1 6 ]
            (rep 4 "Right" "00:09.0" "00:10.3" 1.3 4) 8%float 4%float _ _ _ _ _);
    reflexivity.
Defined.

(** * Response normaliser *)

Lemma prop_nullish (v : value) (k : jstr) : nullish v = true -> prop v k = VUndefined.
Proof. destruct v; simpl; intros H; try discriminate H; reflexivity. Qed.

Lemma prop_array_not_nullish (data : value) (k : jstr) (items : list value) :
  prop data k = VArr items -> nullish data = false.
Proof.
  intros H. destruct (nullish data) eqn:E; [|reflexivity].
  rewrite (prop_nullish data k E) in H. discriminate H.
Qed.

(** [x || c] for a number that is not NaN. *)
Lemma js_or_number (x : float) (c : completion value) :
  PrimFloat.is_nan x = false ->
  js_or (VNum x) c = if PrimFloat.eqb x 0 then c else Normal (VNum x).
Proof.
  intros Hn. unfold js_or, ToBoolean. rewrite Hn, orb_false_r.
  destruct (PrimFloat.eqb x 0); reflexivity.
Qed.

Lemma js_or_reconciled (x y : float) :
  PrimFloat.is_nan x = false ->
  js_or (VNum x) (Normal (VNum y)) = Normal (VNum (reconciled x y)).
Proof.
  intros Hn. rewrite (js_or_number x _ Hn). unfold reconciled.
  destruct (PrimFloat.eqb x 0); reflexivity.
Qed.

(** [reps?.length || fallback] on an array: its length, or the fallback
    when it is empty. *)
Lemma length_or (items : list value) (fallback : float) :
  array_sized items ->
  js_or (opt (VArr items) "length") (Normal (VNum fallback))
  = Normal (VNum (match items with
                  | [] => fallback
                  | _ :: _ => num_of_nat (length items)
                  end)).
Proof.
  intros Hsz. change (opt (VArr items) "length") with (prop (VArr items) (lit "length")).
  rewrite prop_length. destruct items as [|x items]; [reflexivity|].
  assert (Hlen : (0 < length (x :: items))%nat) by (simpl; lia).
  destruct (num_of_nat_nonzero _ Hlen (array_sized_53 _ Hsz)) as [Hz Hn].
  rewrite (js_or_number _ _ Hn), Hz. reflexivity.
Qed.

Lemma length_or_zero (items : list value) :
  array_sized items ->
  js_or (opt (VArr items) "length") (Normal (VNum 0))
  = Normal (VNum (num_of_nat (length items))).
Proof.
  intros Hsz. rewrite (length_or items 0 Hsz). destruct items; reflexivity.
Qed.

Lemma js_or_notes (notes : jstr) :
  js_or (VStr notes) (Normal (VStr defaultNotes))
  = Normal (VStr (notes_or_default notes)).
Proof. destruct notes; reflexivity. Qed.

Lemma Forall_six (P : float -> Prop) (a b c d e f : float) :
  Forall P [a; b; c; d; e; f] -> P a /\ P b /\ P c /\ P d /\ P e /\ P f.
Proof.
  intros H. repeat match goal with
                   | H : Forall _ (_ :: _) |- _ => inversion H; clear H; subst
                   end. auto 10.
Qed.

(** The normalised object of a response of the documented shape. *)
Lemma structure_documented (data : value) (items : list value)
    (ds vs : list float) (t d v f s p : float) (notes : jstr) :
  documented data items ds vs t d v f s p notes ->
  Analyze.structure data
  = Normal {| reps := VArr items;
              totalReps := VNum (reconciled t (num_of_nat (length items)));
              avgDuration := VNum (reconciled d (average ds));
              avgVelocity := VNum (reconciled v (average vs));
              fastestRep := VNum (reconciled f 1);
              slowestRep :=
                VNum (reconciled s (match items with
                                    | [] => 1%float
                                    | _ :: _ => num_of_nat (length items)
                                    end));
              velocityDropoff := VNum (reconciled p (dropoff vs));
              coachingNotes := VStr (notes_or_default notes) |}.
Proof.
  intros [Hreps Hsz Hds Hvs Hpl Hsum Ht Hd Hv Hf Hs Hp Hnum Hnotes].
  apply Forall_app in Hpl. destruct Hpl as [Hpd Hpv].
  apply Forall_six in Hnum. destruct Hnum as (Nt & Nd & Nv & Nf & Ns & Np).
  pose proof (prop_array_not_nullish _ _ _ Hreps) as Hdata.
  unfold Analyze.structure, get. rewrite Hdata, Hreps. cbn [bind js_or ToBoolean].
  rewrite Ht, Hd, Hv, Hf, Hs, Hp, Hnotes.
  rewrite (length_or_zero items Hsz), (js_or_reconciled t _ Nt). cbn [bind].
  rewrite (calculateAvg_array "duration" items ds Hsz Hds Hpd).
  rewrite (js_or_reconciled d _ Nd). cbn [bind].
  rewrite (calculateAvg_array "velocityScore" items vs Hsz Hvs Hpv).
  rewrite (js_or_reconciled v _ Nv). cbn [bind].
  rewrite (js_or_reconciled f _ Nf). cbn [bind].
  rewrite (length_or items 1 Hsz), (js_or_reconciled s _ Ns). cbn [bind].
  rewrite (calculateDropoff_array items vs Hsz Hvs Hpv).
  rewrite (js_or_reconciled p _ Np). cbn [bind].
  change (str "Analysis complete. Review the rep-by-rep data for insights.")
    with (VStr defaultNotes).
  rewrite js_or_notes. reflexivity.
Qed.

Lemma attempt_parsed (text : jstr) (data : value) :
  JSON_parse (Analyze.cleanText text) = Normal data ->
  Analyze.attempt text = Analyze.structure data.
Proof. intros H. unfold Analyze.attempt. rewrite H. reflexivity. Qed.

Lemma opt_nullish (v : value) (k : string) : nullish v = true -> opt v k = VUndefined.
Proof. unfold opt. intros ->. reflexivity. Qed.

(** The normalised object of a response that has reps and no summary. *)
Lemma structure_no_summary (data : value) (items : list value)
    (ds vs : list float) :
  prop data (lit "reps") = VArr items ->
  items <> [] -> array_sized items ->
  nullish (prop data (lit "summary")) = true ->
  Forall2 (reads "duration") items ds ->
  Forall2 (reads "velocityScore") items vs ->
  Forall (fun x => plain x = true) (ds ++ vs) ->
  Analyze.structure data
  = Normal {| reps := VArr items;
              totalReps := VNum (num_of_nat (length items));
              avgDuration := VNum (average ds);
              avgVelocity := VNum (average vs);
              fastestRep := VNum 1;
              slowestRep := VNum (num_of_nat (length items));
              velocityDropoff := VNum (dropoff vs);
              coachingNotes :=
                let notes := prop data (lit "coachingNotes") in
                if ToBoolean notes then notes else VStr defaultNotes |}.
Proof.
  intros Hreps Hne Hsz Hsum Hds Hvs Hpl.
  apply Forall_app in Hpl. destruct Hpl as [Hpd Hpv].
  pose proof (prop_array_not_nullish _ _ _ Hreps) as Hdata.
  unfold Analyze.structure, get. rewrite Hdata, Hreps. cbn [bind js_or ToBoolean].
  rewrite !(opt_nullish _ _ Hsum). cbn [bind js_or ToBoolean].
  rewrite (length_or_zero items Hsz). cbn [bind].
  rewrite (calculateAvg_array "duration" items ds Hsz Hds Hpd). cbn [bind].
  rewrite (calculateAvg_array "velocityScore" items vs Hsz Hvs Hpv). cbn [bind].
  rewrite (length_or items 1 Hsz). cbn [bind].
  rewrite (calculateDropoff_array items vs Hsz Hvs Hpv). cbn [bind].
  destruct items as [|x items]; [congruence|].
  unfold js_or. cbn zeta.
  destruct (ToBoolean (prop data (lit "coachingNotes"))); reflexivity.
Qed.





(** C2, as the claim states it, fails: a response of the documented shape
    reports [velocityDropPercent = 0] and the normaliser returns 50, the
    value recomputed from the reps. *)
Lemma reported_zero_recomputed :
  reported no_drop_response "velocityDropPercent" = VNum 0
  /\ velocityDropoff (Analyze.parseGeminiResponse no_drop_response VUndefined)
     = VNum 50
  /\ PrimFloat.eqb 50 0 = false.
Proof. repeat split; vm_compute; reflexivity. Qed.

(** C2, amended. For a response of the documented shape the normaliser
    returns the reps as given and, for each summary field, the reported
    number unless it is 0; a reported 0 counts as absent and is replaced
    by the value derived from the reps (or the default), an empty note by
    the default note. When no reported number is 0 and the note is not
    empty, every field equals the input. *)
Theorem normalizer_reconciles (text : jstr) (protocol data : value)
    (items : list value) (ds vs : list float) (t d v f s p : float)
    (notes : jstr) :
  JSON_parse (Analyze.cleanText text) = Normal data ->
  documented data items ds vs t d v f s p notes ->
  Analyze.parseGeminiResponse text protocol
  = {| reps := VArr items;
       totalReps := VNum (reconciled t (num_of_nat (length items)));
       avgDuration := VNum (reconciled d (average ds));
       avgVelocity := VNum (reconciled v (average vs));
       fastestRep := VNum (reconciled f 1);
       slowestRep :=
         VNum (reconciled s (match items with
                             | [] => 1%float
                             | _ :: _ => num_of_nat (length items)
                             end));
       velocityDropoff := VNum (reconciled p (dropoff vs));
       coachingNotes := VStr (notes_or_default notes) |}
  /\ (Forall (fun x => PrimFloat.eqb x 0 = false) [t; d; v; f; s; p] ->
      notes <> [] ->
      Analyze.parseGeminiResponse text protocol
      = {| reps := VArr items;
           totalReps := VNum t;
           avgDuration := VNum d;
           avgVelocity := VNum v;
           fastestRep := VNum f;
           slowestRep := VNum s;
           velocityDropoff := VNum p;
           coachingNotes := VStr notes |}).
Proof.
  intros Hparse Hdoc.
  assert (E : Analyze.parseGeminiResponse text protocol
              = {| reps := VArr items;
                   totalReps := VNum (reconciled t (num_of_nat (length items)));
                   avgDuration := VNum (reconciled d (average ds));
                   avgVelocity := VNum (reconciled v (average vs));
                   fastestRep := VNum (reconciled f 1);
                   slowestRep :=
                     VNum (reconciled s (match items with
                                         | [] => 1%float
                                         | _ :: _ => num_of_nat (length items)
                                         end));
                   velocityDropoff := VNum (reconciled p (dropoff vs));
                   coachingNotes := VStr (notes_or_default notes) |}).
  { unfold Analyze.parseGeminiResponse.
    rewrite (attempt_parsed text data Hparse).
    rewrite (structure_documented _ _ _ _ _ _ _ _ _ _ _ Hdoc). reflexivity. }
  split; [exact E|].
  intros Hnz Hnotes. rewrite E.
  apply Forall_six in Hnz. destruct Hnz as (Zt & Zd & Zv & Zf & Zs & Zp).
  unfold reconciled. rewrite Zt, Zd, Zv, Zf, Zs, Zp.
  destruct notes; [congruence | reflexivity].
Qed.

Lemma normalizer_reconciles_witness :
  Analyze.parseGeminiResponse reported_response VUndefined
  = {| reps := VArr two_reps;
       totalReps := VNum 2;
       avgDuration := VNum 1;
       avgVelocity := VNum 6;
       fastestRep := VNum 1;
       slowestRep := VNum 2;
       velocityDropoff := VNum 50;
       coachingNotes := str "Velocity halves on the second rep." |}.
Proof.
  refine (proj2 (normalizer_reconciles reported_response VUndefined
                   (VObj [ (lit "reps", VArr two_reps);
                           (lit "summary",
                            VObj [ (lit "totalReps", VNum 2);
                                   (lit "avgDuration", VNum 1);
                                   (lit "avgVelocity", VNum 6);
                                   (lit "fastestRep", VNum 1);
                                   (lit "slowestRep", VNum 2);
                                   (lit "velocityDropPercent", VNum 50) ]);
                           (lit "coachingNotes",
                            str "Velocity halves on the second rep.") ])
                   two_reps [0.9; 1.1]%float [8; 4]%float 2 1 6 1 2 50
                   (lit "Velocity halves on the second rep.") _ _) _ _).
  - vm_compute. reflexivity.
  - split; try reflexivity; repeat constructor.
  - repeat constructor.
  - discriminate.
Defined.

(** C5. For a parsed response with a non-empty array of reps and no
    summary, [avgDuration] and [avgVelocity] are what [calculateAvg]
    returns on the reps, the means of the two fields; [fastestRep] is 1
    and [slowestRep] the number of reps. *)
Theorem normalizer_repairs (text : jstr) (protocol data : value)
    (items : list value) (ds vs : list float) :
  JSON_parse (Analyze.cleanText text) = Normal data ->
  prop data (lit "reps") = VArr items ->
  items <> [] -> array_sized items ->
  nullish (prop data (lit "summary")) = true ->
  Forall2 (reads "duration") items ds ->
  Forall2 (reads "velocityScore") items vs ->
  Forall (fun x => plain x = true) (ds ++ vs) ->
  let r := Analyze.parseGeminiResponse text protocol in
  Analyze.calculateAvg (VArr items) "duration" = Normal (avgDuration r)
  /\ Analyze.calculateAvg (VArr items) "velocityScore" = Normal (avgVelocity r)
  /\ avgDuration r = VNum (mean ds)
  /\ avgVelocity r = VNum (mean vs)
  /\ fastestRep r = VNum 1
  /\ slowestRep r = VNum (num_of_nat (length items)).
Proof.
  intros Hparse Hreps Hne Hsz Hsum Hds Hvs Hpl r. subst r.
  unfold Analyze.parseGeminiResponse.
  rewrite (attempt_parsed text data Hparse).
  rewrite (structure_no_summary data items ds vs) by assumption.
  cbn [avgDuration avgVelocity fastestRep slowestRep].
  apply Forall_app in Hpl. destruct Hpl as [Hpd Hpv].
  rewrite (calculateAvg_array "duration" items ds) by assumption.
  rewrite (calculateAvg_array "velocityScore" items vs) by assumption.
  assert (Ed : average ds = mean ds).
  { destruct Hds; [congruence | reflexivity]. }
  assert (Ev : average vs = mean vs).
  { destruct Hvs; [congruence | reflexivity]. }
  rewrite Ed, Ev. repeat split; reflexivity.
Qed.

Lemma normalizer_repairs_witness :
  let r := Analyze.parseGeminiResponse summaryless_response VUndefined in
  Analyze.calculateAvg (VArr two_reps) "duration" = Normal (avgDuration r)
  /\ Analyze.calculateAvg (VArr two_reps) "velocityScore" = Normal (avgVelocity r)
  /\ avgDuration r = VNum (mean [0.9; 1.1]%float)
  /\ avgVelocity r = VNum (mean [8; 4]%float)
  /\ fastestRep r = VNum 1
  /\ slowestRep r = VNum (num_of_nat 2).
Proof.
  refine (normalizer_repairs summaryless_response VUndefined
            (VObj [(lit "reps", VArr two_reps)]) two_reps
            [0.9; 1.1]%float [8; 4]%float _ _ _ _ _ _ _ _).
  - vm_compute. reflexivity.
  - reflexivity.
  - discriminate.
  - reflexivity.
  - reflexivity.
  - repeat constructor.
  - repeat constructor.
  - repeat constructor.
Defined.

(** * Fences and the brace-delimited part *)

Lemma dropWhile_split {A} (p : A -> bool) (l : list A) :
  exists a, l = a ++ dropWhile p l /\ forallb p a = true.
Proof.
  induction l as [|x l IH]; simpl.
  - exists []. split; reflexivity.
  - destruct (p x) eqn:E.
    + destruct IH as (a & Ha & Hp). exists (x :: a). split.
      * simpl. f_equal. exact Ha.
      * simpl. rewrite E. exact Hp.
    + exists []. split; reflexivity.
Qed.

Lemma dropWhile_all {A} (p : A -> bool) (a l : list A) :
  forallb p a = true -> dropWhile p (a ++ l) = dropWhile p l.
Proof.
  induction a as [|x a IH]; simpl; [reflexivity|].
  intros H. apply andb_prop in H. destruct H as [-> H]. apply IH, H.
Qed.

Lemma dropWhile_keeps {A} (p : A -> bool) (l b : list A) :
  dropWhile p l <> [] -> dropWhile p (l ++ b) = dropWhile p l ++ b.
Proof.
  induction l as [|x l IH]; simpl; [congruence|].
  destruct (p x); [exact IH | reflexivity].
Qed.

Lemma dropWhileEnd_split {A} (p : A -> bool) (l : list A) :
  exists b, l = dropWhileEnd p l ++ b /\ forallb p b = true.
Proof.
  unfold dropWhileEnd. destruct (dropWhile_split p (rev l)) as (a & Ha & Hp).
  exists (rev a). split.
  - rewrite <- rev_app_distr, <- Ha, rev_involutive. reflexivity.
  - rewrite forallb_forall in *. intros x Hx. apply Hp, in_rev, Hx.
Qed.

Lemma dropWhileEnd_all {A} (p : A -> bool) (l b : list A) :
  forallb p b = true -> dropWhileEnd p (l ++ b) = dropWhileEnd p l.
Proof.
  intros H. unfold dropWhileEnd. rewrite rev_app_distr, dropWhile_all; [reflexivity|].
  rewrite forallb_forall in *. intros x Hx. apply H, in_rev, Hx.
Qed.

Lemma forallb_weaken {A} (p q : A -> bool) (l : list A) :
  (forall x, p x = true -> q x = true) -> forallb p l = true -> forallb q l = true.
Proof.
  intros Hpq. rewrite !forallb_forall. intros H x Hx. apply Hpq, H, Hx.
Qed.

Lemma not_brace (c : N) :
  isBrace c = false -> negb (isOpen c) = true /\ negb (isClose c) = true.
Proof.
  unfold isBrace. intros H. apply orb_false_elim in H. destruct H as [-> ->].
  split; reflexivity.
Qed.

Lemma whitespace_not_brace (c : N) : isWhiteSpace c = true -> isBrace c = false.
Proof.
  unfold isBrace, isOpen, isClose. intros H.
  destruct (N.eqb_spec c 123) as [-> | _]; [discriminate H|].
  destruct (N.eqb_spec c 125) as [-> | _]; [discriminate H|].
  reflexivity.
Qed.

Lemma braceless_open (a : jstr) :
  braceless a -> forallb (fun c => negb (isOpen c)) a = true.
Proof.
  apply forallb_weaken. intros c H. apply negb_true_iff in H.
  apply (not_brace c H).
Qed.

Lemma braceless_close (a : jstr) :
  braceless a -> forallb (fun c => negb (isClose c)) a = true.
Proof.
  apply forallb_weaken. intros c H. apply negb_true_iff in H.
  apply (not_brace c H).
Qed.

Lemma whitespace_braceless (a : jstr) :
  forallb isWhiteSpace a = true -> braceless a.
Proof.
  apply forallb_weaken. intros c H. rewrite (whitespace_not_brace c H). reflexivity.
Qed.

Lemma dropWhile_nil {A} (p : A -> bool) (l : list A) :
  forallb p l = true -> dropWhile p l = [].
Proof.
  intros H. rewrite <- (app_nil_r l). rewrite dropWhile_all by exact H. reflexivity.
Qed.

(** The match ignores a prefix and a suffix that hold no brace. *)
Lemma jsonMatch_prefix (a s : jstr) :
  braceless a -> jsonMatch (a ++ s) = jsonMatch s.
Proof.
  intros H. unfold jsonMatch. rewrite dropWhile_all by (apply braceless_open, H).
  reflexivity.
Qed.

Lemma jsonMatch_suffix (s b : jstr) :
  braceless b -> jsonMatch (s ++ b) = jsonMatch s.
Proof.
  intros H. unfold jsonMatch.
  destruct (dropWhile (fun c => negb (isOpen c)) s) as [|c rest] eqn:E.
  - destruct (dropWhile_split (fun c => negb (isOpen c)) s) as (a & Ha & Hp).
    rewrite E, app_nil_r in Ha. subst a.
    rewrite dropWhile_all by exact Hp.
    rewrite dropWhile_nil by (apply braceless_open, H). reflexivity.
  - rewrite dropWhile_keeps by (rewrite E; discriminate). rewrite E.
    cbn [app]. rewrite dropWhileEnd_all by (apply braceless_close, H).
    reflexivity.
Qed.

Lemma jsonMatch_trim (s : jstr) : jsonMatch (trim s) = jsonMatch s.
Proof.
  unfold trim.
  destruct (dropWhile_split isWhiteSpace s) as (a & Ha & Hpa).
  destruct (dropWhileEnd_split isWhiteSpace (dropWhile isWhiteSpace s))
    as (b & Hb & Hpb).
  rewrite Ha at 2. rewrite jsonMatch_prefix by (apply whitespace_braceless, Hpa).
  rewrite Hb at 2. rewrite jsonMatch_suffix by (apply whitespace_braceless, Hpb).
  reflexivity.
Qed.

Lemma startsWith_split (s p : jstr) :
  startsWith s p = true -> s = p ++ skipn (length p) s.
Proof.
  revert s; induction p as [|d p IH]; intros s H; [reflexivity|].
  destruct s as [|c s]; [discriminate H|]. simpl in H.
  apply andb_prop in H. destruct H as [Hc H].
  apply N.eqb_eq in Hc. subst d. simpl. f_equal. apply IH, H.
Qed.

Lemma endsWith_split (s p : jstr) :
  endsWith s p = true -> s = slice_drop_last (length p) s ++ p.
Proof.
  unfold endsWith, slice_drop_last. intros H.
  apply startsWith_split in H. rewrite length_rev in H.
  rewrite <- (rev_involutive s) at 1. rewrite H, rev_app_distr, rev_involutive.
  f_equal. rewrite skipn_rev, rev_involutive. reflexivity.
Qed.

Lemma jsonMatch_unfenced (text : jstr) : jsonMatch (unfenced text) = jsonMatch text.
Proof.
  unfold unfenced. rewrite <- (jsonMatch_trim text).
  generalize (trim text) as t. intros t.
  assert (S1 : forall (u : jstr) (p : string),
             braceless (lit p) ->
             jsonMatch (if startsWith u (lit p)
                        then slice_from (length (lit p)) u else u)
             = jsonMatch u).
  { intros u p Hp. destruct (startsWith u (lit p)) eqn:E; [|reflexivity].
    rewrite (startsWith_split u (lit p) E) at 2.
    rewrite jsonMatch_prefix by exact Hp. reflexivity. }
  set (t1 := if startsWith t (lit "```json") then slice_from 7 t else t).
  set (t2 := if startsWith t1 (lit "```") then slice_from 3 t1 else t1).
  transitivity (jsonMatch t2).
  - destruct (endsWith t2 (lit "```")) eqn:E; [|reflexivity].
    rewrite (endsWith_split t2 (lit "```") E) at 2.
    rewrite jsonMatch_suffix by reflexivity. reflexivity.
  - transitivity (jsonMatch t1).
    + apply (S1 t1 "```"%string). reflexivity.
    + apply (S1 t "```json"%string). reflexivity.
Qed.

Lemma cleanText_unfenced (text : jstr) :
  Analyze.cleanText text
  = trim (match jsonMatch (unfenced text) with
          | Some m => m
          | None => unfenced text
          end).
Proof. reflexivity. Qed.

(** Text around a brace-delimited part does not reach [JSON.parse]. *)
Lemma cleanText_match (text m : jstr) :
  jsonMatch text = Some m -> Analyze.cleanText text = trim m.
Proof.
  intros H. rewrite cleanText_unfenced, jsonMatch_unfenced, H. reflexivity.
Qed.





(** * Prompt compiler and handler *)

Lemma join_raises (element : value -> completion jstr) (items : list value) :
  Forall (fun x => forall e, element x = Throw e -> e = TypeError) items ->
  forall e, join element items = Throw e -> e = TypeError.
Proof.
  induction 1 as [|x rest Hx _ IH]; intros e; [discriminate|].
  destruct rest as [|y rest]; [apply Hx|].
  change (join element (x :: y :: rest))
    with (a <- element x ;; b <- join element (y :: rest) ;;
          Normal (a ++ lit "," ++ b)).
  destruct (element x) as [a|e1] eqn:Ex; cbn [bind].
  - destruct (join element (y :: rest)) as [b|e2] eqn:Er; cbn [bind].
    + discriminate.
    + intros H. injection H as <-. apply IH. reflexivity.
  - intros H. injection H as <-. apply Hx. reflexivity.
Qed.

(** A conversion to text raises nothing but a [TypeError]. *)
Lemma ToString_raises :
  forall (v : value) (e : error), ToString v = Throw e -> e = TypeError.
Proof.
  fix IH 1. intros v e.
  destruct v as [| |b|x|s|items|props]; simpl; try discriminate.
  - destruct b; discriminate.
  - apply join_raises.
    induction items as [|x rest IHrest]; constructor; [|exact IHrest].
    intros e' H. apply (IH x e').
    destruct x; try discriminate H; exact H.
  - destruct (lookup (lit "toString") props); intros H; [|discriminate H].
    now injection H.
Qed.

Lemma jstr_eqb_eq (s t : jstr) : jstr_eqb s t = true -> s = t.
Proof.
  revert t; induction s as [|c s IH]; intros [|d t] H; try discriminate H.
  - reflexivity.
  - simpl in H. apply andb_prop in H. destruct H as [Hc H].
    apply N.eqb_eq in Hc. subst d. f_equal. apply IH, H.
Qed.

Lemma strict_eq_other (v : value) (name : string) :
  v <> str name -> strict_eq v (str name) = false.
Proof.
  intros H. destruct v; try reflexivity. simpl.
  destruct (jstr_eqb s (lit name)) eqn:E; [|reflexivity].
  apply jstr_eqb_eq in E. subst s. exfalso. apply H. reflexivity.
Qed.

Lemma truthy_not_nullish (v : value) : ToBoolean v = true -> nullish v = false.
Proof. destruct v; simpl; intros H; try discriminate H; reflexivity. Qed.

Section PromptFacts.

Variable host : Host.

(** Without a starting arm, an alternating pattern raises. *)
Lemma getArmContext_missing_arm (protocol : value) :
  nullish protocol = false ->
  prop protocol (lit "armPattern") = str "alternating-sets"
  \/ prop protocol (lit "armPattern") = str "alternating-reps" ->
  nullish (prop protocol (lit "startingArm")) = true ->
  Analyze.getArmContext host protocol = Throw TypeError.
Proof.
  intros Hn Hpat Harm. unfold Analyze.getArmContext, get. rewrite Hn. cbn [bind].
  assert (Hup : Analyze.upper host (prop protocol (lit "startingArm")) = Throw TypeError).
  { destruct (prop protocol (lit "startingArm")); try discriminate Harm; reflexivity. }
  destruct Hpat as [-> | ->].
  - change (strict_eq (str "alternating-sets") (str "left-only")) with false.
    change (strict_eq (str "alternating-sets") (str "right-only")) with false.
    change (strict_eq (str "alternating-sets") (str "alternating-sets")) with true.
    cbv iota.
    destruct (ToString (prop protocol (lit "interval"))) as [i|e] eqn:Ei; cbn [bind].
    + rewrite Hup. reflexivity.
    + rewrite (ToString_raises _ _ Ei). reflexivity.
  - change (strict_eq (str "alternating-reps") (str "left-only")) with false.
    change (strict_eq (str "alternating-reps") (str "right-only")) with false.
    change (strict_eq (str "alternating-reps") (str "alternating-sets")) with false.
    change (strict_eq (str "alternating-reps") (str "alternating-reps")) with true.
    cbv iota. rewrite Hup. reflexivity.
Qed.

Lemma buildPrompt_missing_arm (protocol : value) :
  nullish protocol = false ->
  prop protocol (lit "armPattern") = str "alternating-sets"
  \/ prop protocol (lit "armPattern") = str "alternating-reps" ->
  nullish (prop protocol (lit "startingArm")) = true ->
  Analyze.buildPrompt host protocol = Throw TypeError.
Proof.
  intros Hn Hpat Harm. unfold Analyze.buildPrompt.
  rewrite (getArmContext_missing_arm protocol Hn Hpat Harm).
  unfold get. rewrite Hn. cbn [bind].
  destruct (ToString (prop protocol (lit "exercise"))) as [x|e] eqn:Ex; cbn [bind].
  - reflexivity.
  - rewrite (ToString_raises _ _ Ex). reflexivity.
Qed.

End PromptFacts.

(** C9. For an arm pattern that is none of the five recognised ones, a
    missing one included, [getArmContext] raises nothing and returns the
    instruction to infer the arm from what is seen. *)
Theorem getArmContext_default (host : Host) (protocol : value) :
  nullish protocol = false ->
  (forall name : string,
      In name recognized -> prop protocol (lit "armPattern") <> str name) ->
  Analyze.getArmContext host protocol
  = Normal (lit "Identify which arm is used for each rep based on visual observation.").
Proof.
  intros Hn Hother. unfold Analyze.getArmContext, get. rewrite Hn. cbn [bind].
  rewrite !strict_eq_other by (apply Hother; simpl; auto 6). reflexivity.
Qed.

Lemma getArmContext_default_witness :
  Analyze.getArmContext demoHost (VObj [(lit "exercise", str "swing")])
  = Normal (lit "Identify which arm is used for each rep based on visual observation.").
Proof.
  apply (getArmContext_default demoHost (VObj [(lit "exercise", str "swing")])).
  - reflexivity.
  - intros name H. vm_compute. discriminate.
Defined.

(** C3, as the claim states it, fails: a request with an alternating
    pattern and no starting arm passes the validation, and the handler
    answers 500, not 400. *)
Lemma missing_starting_arm_not_rejected :
  Analyze.handler demoHost alternating_request
  = (Analyze.respond 500 (ErrorMessage (lit "Analysis failed") TypeError), [])
  /\ status (fst (Analyze.handler demoHost alternating_request)) <> 400%Z.
Proof. split; [reflexivity | vm_compute; discriminate]. Qed.

(** C3, amended. A request with video and protocol, an alternating arm
    pattern and no starting arm is not rejected by validation: the prompt
    compiler runs and raises while it resolves the arm rule, so no prompt
    is compiled and the model is not called, and the handler reports the
    failure as a 500 response. *)
Theorem missing_starting_arm_raises (host : Host) (req : request) :
  method req = lit "POST" ->
  nullish (body req) = false ->
  ToBoolean (prop (body req) (lit "video")) = true ->
  ToBoolean (prop (body req) (lit "protocol")) = true ->
  (let protocol := prop (body req) (lit "protocol") in
   (prop protocol (lit "armPattern") = str "alternating-sets"
    \/ prop protocol (lit "armPattern") = str "alternating-reps")
   /\ nullish (prop protocol (lit "startingArm")) = true) ->
  Analyze.buildPrompt host (prop (body req) (lit "protocol")) = Throw TypeError
  /\ Analyze.handler host req
     = (Analyze.respond 500 (ErrorMessage (lit "Analysis failed") TypeError), []).
Proof.
  intros Hm Hb Hv Hp [Hpat Harm].
  pose proof (buildPrompt_missing_arm host _ (truthy_not_nullish _ Hp) Hpat Harm) as E.
  split; [exact E|].
  unfold Analyze.handler, Analyze.before_call, get. rewrite Hm, Hb. cbn [bind].
  change (jstr_eqb (lit "POST") (lit "POST")) with true. cbn [negb].
  rewrite Hv, Hp, E. reflexivity.
Qed.

Lemma missing_starting_arm_raises_witness :
  Analyze.buildPrompt demoHost (prop (body alternating_request) (lit "protocol"))
  = Throw TypeError
  /\ Analyze.handler demoHost alternating_request
     = (Analyze.respond 500 (ErrorMessage (lit "Analysis failed") TypeError), []).
Proof.
  apply (missing_starting_arm_raises demoHost alternating_request);
    try reflexivity.
  split; [right|]; reflexivity.
Defined.

Lemma prop_protocolOf (exercise : jstr) (weight repsPerSet interval : float)
    (armPattern startingArm : value) :
  let p := protocolOf exercise weight repsPerSet interval armPattern startingArm in
  prop p (lit "exercise") = VStr exercise
  /\ prop p (lit "weight") = VNum weight
  /\ prop p (lit "repsPerSet") = VNum repsPerSet
  /\ prop p (lit "interval") = VNum interval
  /\ prop p (lit "armPattern") = armPattern
  /\ prop p (lit "startingArm") = startingArm.
Proof. repeat split; reflexivity. Qed.

(** C8. The prompt is a function of the protocol alone: two protocol
    values that agree on the six properties read give the same prompt,
    code unit for code unit, or raise alike; and every protocol with
    numeric weight, reps and interval and a string for the starting arm,
    whatever its exercise and arm pattern, does give a prompt. *)
Theorem buildPrompt_deterministic (host : Host) :
  (forall p q : value,
      same_protocol p q ->
      Analyze.buildPrompt host p = Analyze.buildPrompt host q)
  /\ (forall (exercise : jstr) (weight repsPerSet interval : float)
         (armPattern : value) (startingArm : jstr),
         exists text : jstr,
           Analyze.buildPrompt host
             (protocolOf exercise weight repsPerSet interval armPattern
                (VStr startingArm))
           = Normal text).
Proof.
  split.
  - intros p q [Hn Hk].
    unfold Analyze.buildPrompt, Analyze.getArmContext, get. rewrite Hn.
    rewrite !Hk by (simpl; auto 7). reflexivity.
  - intros exercise weight repsPerSet interval armPattern startingArm.
    destruct (prop_protocolOf exercise weight repsPerSet interval armPattern
                (VStr startingArm)) as (E1 & E2 & E3 & E4 & E5 & E6).
    unfold Analyze.buildPrompt, Analyze.getArmContext, get.
    change (nullish (protocolOf exercise weight repsPerSet interval armPattern
                       (VStr startingArm))) with false.
    cbv iota. rewrite E1, E2, E3, E4, E5, E6. cbn [bind ToString Analyze.upper].
    repeat match goal with
           | |- context [strict_eq armPattern ?v] => destruct (strict_eq armPattern v)
           end; cbn [bind]; eexists; reflexivity.
Qed.

Lemma buildPrompt_deterministic_witness :
  Analyze.buildPrompt demoHost swing_protocol
  = Analyze.buildPrompt demoHost swing_protocol_reordered.
Proof.
  apply (proj1 (buildPrompt_deterministic demoHost)).
  split; [reflexivity|].
  intros k H. simpl in H.
  repeat (destruct H as [<- | H]; [reflexivity|]). contradiction.
Defined.

(** C10. The two revisions compute the same metrics: [calculateAvg] and
    [calculateDropoff] of [api/analyze.js] and of the other revision
    return the same completion on every argument. *)
Theorem metrics_agree :
  (forall (reps : value) (field : string),
      Analyze.calculateAvg reps field = Part000.calculateAvg reps field)
  /\ (forall reps : value,
        Analyze.calculateDropoff reps = Part000.calculateDropoff reps).
Proof.
  split.
  - intros reps field. unfold Analyze.calculateAvg, Part000.calculateAvg.
    destruct reps; reflexivity.
  - intros reps. unfold Analyze.calculateDropoff, Part000.calculateDropoff.
    destruct (ToBoolean reps); reflexivity.
Qed.

(** * What the prompt compiler raises *)

Lemma jstr_eqb_refl (s : jstr) : jstr_eqb s s = true.
Proof. induction s as [|c s IH]; simpl; [reflexivity|]. now rewrite N.eqb_refl. Qed.

Lemma jstr_eqb_iff (s t : jstr) : jstr_eqb s t = true <-> s = t.
Proof. split; [apply jstr_eqb_eq | intros ->; apply jstr_eqb_refl]. Qed.

Lemma getArmContext_raises (host : Host) (protocol : value) (e : error) :
  Analyze.getArmContext host protocol = Throw e -> e = TypeError.
Proof.
  unfold Analyze.getArmContext, get.
  destruct (nullish protocol); cbn [bind]; [intros H; now injection H|].
  repeat match goal with
         | |- context [if strict_eq ?a ?b then _ else _] => destruct (strict_eq a b)
         end; try discriminate.
  - destruct (ToString (prop protocol (lit "interval"))) as [i|e1] eqn:Ei; cbn [bind].
    + destruct (prop protocol (lit "startingArm")) as [| |b|x|s|items|props] eqn:Es;
        cbn [Analyze.upper bind ToString]; try (intros H; now injection H).
      discriminate.
    + intros H. injection H as <-. apply (ToString_raises _ _ Ei).
  - destruct (prop protocol (lit "startingArm")); cbn [Analyze.upper bind];
      try (intros H; now injection H). discriminate.
Qed.

Lemma buildPrompt_raises (host : Host) (protocol : value) (e : error) :
  Analyze.buildPrompt host protocol = Throw e -> e = TypeError.
Proof.
  unfold Analyze.buildPrompt, get.
  destruct (nullish protocol); cbn [bind]; [intros H; now injection H|].
  intros H.
  repeat match type of H with
         | (x <- ?c ;; _) = Throw _ =>
             let a := fresh "a" in let E := fresh "E" in
             destruct c as [a|?] eqn:E; cbn [bind] in H;
             [| injection H as <-;
                first [ apply (ToString_raises _ _ E)
                      | apply (getArmContext_raises _ _ _ E) ] ]
         end.
  discriminate H.
Qed.

(** * Request handler *)

(** The handler, case by case. *)
Lemma handler_cases (host : Host) (req : request) :
  Analyze.handler host req
  = if negb (jstr_eqb (method req) (lit "POST")) then
      (Analyze.respond 405 (ErrorOnly (lit "Method not allowed")), [])
    else if nullish (body req) then
      (Analyze.respond 500 (ErrorMessage (lit "Analysis failed") TypeError), [])
    else if negb (ToBoolean (prop (body req) (lit "video")))
            || negb (ToBoolean (prop (body req) (lit "protocol"))) then
      (Analyze.respond 400 (ErrorOnly (lit "Missing video or protocol data")), [])
    else
      match Analyze.buildPrompt host (prop (body req) (lit "protocol")) with
      | Throw e =>
          (Analyze.respond 500 (ErrorMessage (lit "Analysis failed") e), [])
      | Normal prompt =>
          match generateContent host (call_of req prompt) with
          | Normal text =>
              (Analyze.respond 200
                 (Results (Analyze.parseGeminiResponse text
                             (prop (body req) (lit "protocol")))),
               [call_of req prompt])
          | Throw e =>
              (Analyze.respond 500 (ErrorMessage (lit "Analysis failed") e),
               [call_of req prompt])
          end
      end.
Proof.
  unfold Analyze.handler, Analyze.before_call, get.
  destruct (negb (jstr_eqb (method req) (lit "POST"))); [reflexivity|].
  destruct (nullish (body req)); [reflexivity|]. cbn [bind].
  destruct (negb (ToBoolean (prop (body req) (lit "video")))
            || negb (ToBoolean (prop (body req) (lit "protocol")))); [reflexivity|].
  destruct (Analyze.buildPrompt host (prop (body req) (lit "protocol")));
    [|reflexivity].
  cbn [bind]. unfold js_or, call_of. cbn zeta.
  destruct (ToBoolean (prop (body req) (lit "mimeType"))); reflexivity.
Qed.

Lemma not_post (req : request) :
  negb (jstr_eqb (method req) (lit "POST")) = true <-> method req <> lit "POST".
Proof.
  rewrite negb_true_iff. split.
  - intros H E. rewrite E, jstr_eqb_refl in H. discriminate H.
  - intros H. destruct (jstr_eqb (method req) (lit "POST")) eqn:E; [|reflexivity].
    exfalso. apply H, jstr_eqb_eq, E.
Qed.

Lemma is_post (req : request) :
  negb (jstr_eqb (method req) (lit "POST")) = false <-> method req = lit "POST".
Proof. rewrite negb_false_iff. apply jstr_eqb_iff. Qed.

Lemma falsy_either (a b : value) :
  negb (ToBoolean a) || negb (ToBoolean b) = true
  <-> ToBoolean a = false \/ ToBoolean b = false.
Proof. destruct (ToBoolean a), (ToBoolean b); simpl; intuition congruence. Qed.

Lemma truthy_both (a b : value) :
  negb (ToBoolean a) || negb (ToBoolean b) = false
  <-> ToBoolean a = true /\ ToBoolean b = true.
Proof. destruct (ToBoolean a), (ToBoolean b); simpl; intuition congruence. Qed.

(** X1. The handler calls the model at most once, and only for a [POST]
    request that carries a video and a protocol whose prompt compiles:
    the call then holds that prompt, the video as sent, the MIME type of
    the request or [video/mp4] in its absence, and asks [gemini-1.5-pro]
    for JSON. *)
Theorem model_called_at_most_once (host : Host) (req : request) :
  match snd (Analyze.handler host req) with
  | [] => True
  | [c] =>
      method req = lit "POST"
      /\ ToBoolean (prop (body req) (lit "video")) = true
      /\ ToBoolean (prop (body req) (lit "protocol")) = true
      /\ Analyze.buildPrompt host (prop (body req) (lit "protocol"))
         = Normal (ai_text c)
      /\ ai_data c = prop (body req) (lit "video")
      /\ ai_mimeType c
         = (let mimeType := prop (body req) (lit "mimeType") in
            if ToBoolean mimeType then mimeType else str "video/mp4")
      /\ ai_model c = lit "gemini-1.5-pro"
      /\ ai_responseMimeType c = Some (lit "application/json")
  | _ :: _ :: _ => False
  end.
Proof.
  rewrite handler_cases.
  destruct (negb (jstr_eqb (method req) (lit "POST"))) eqn:Em; [exact I|].
  destruct (nullish (body req)); [exact I|].
  destruct (negb (ToBoolean (prop (body req) (lit "video")))
            || negb (ToBoolean (prop (body req) (lit "protocol")))) eqn:Ev;
    [exact I|].
  apply is_post in Em. apply truthy_both in Ev. destruct Ev as [Hv Hp].
  destruct (Analyze.buildPrompt host (prop (body req) (lit "protocol")))
    as [prompt|e] eqn:Eb; [|exact I].
  destruct (generateContent host (call_of req prompt)); cbn [snd];
    repeat split; assumption.
Qed.

(** X2. The handler answers 200 exactly when it has called the model and the
    model has answered; the body is then the normalised reply, whatever
    the reply is. *)
Theorem handler_ok (host : Host) (req : request) :
  (status (fst (Analyze.handler host req)) = 200%Z
   <-> exists (c : ai_call) (text : jstr),
         snd (Analyze.handler host req) = [c]
         /\ generateContent host c = Normal text)
  /\ (forall (c : ai_call) (text : jstr),
        snd (Analyze.handler host req) = [c] ->
        generateContent host c = Normal text ->
        fst (Analyze.handler host req)
        = Analyze.respond 200
            (Results (Analyze.parseGeminiResponse text
                        (prop (body req) (lit "protocol"))))).
Proof.
  rewrite handler_cases.
  destruct (negb (jstr_eqb (method req) (lit "POST")));
    [split; [split; [discriminate | intros (c & t & H & _); discriminate H]
            | intros c t H; discriminate H]|].
  destruct (nullish (body req));
    [split; [split; [discriminate | intros (c & t & H & _); discriminate H]
            | intros c t H; discriminate H]|].
  destruct (negb (ToBoolean (prop (body req) (lit "video")))
            || negb (ToBoolean (prop (body req) (lit "protocol"))));
    [split; [split; [discriminate | intros (c & t & H & _); discriminate H]
            | intros c t H; discriminate H]|].
  destruct (Analyze.buildPrompt host (prop (body req) (lit "protocol")))
    as [prompt|e];
    [|split; [split; [discriminate | intros (c & t & H & _); discriminate H]
             | intros c t H; discriminate H]].
  destruct (generateContent host (call_of req prompt)) as [text|e] eqn:Eg;
    cbn [fst snd].
  - split.
    + split; [intros _; exists (call_of req prompt), text; split; [reflexivity | exact Eg]
             | reflexivity].
    + intros c t H Ht. injection H as <-. rewrite Eg in Ht. injection Ht as <-.
      reflexivity.
  - split.
    + split; [discriminate|]. intros (c & t & H & Ht). injection H as <-.
      rewrite Eg in Ht. discriminate Ht.
    + intros c t H Ht. injection H as <-. rewrite Eg in Ht. discriminate Ht.
Qed.

Lemma handler_ok_witness :
  status (fst (Analyze.handler demoHost swing_request)) = 200%Z.
Proof.
  apply (proj1 (handler_ok demoHost swing_request)).
  eexists. exists (lit "{}"). split; reflexivity.
Defined.

(** X3. Requests the handler turns away before it compiles a prompt: any
    method but [POST] is answered 405, a [POST] whose body lacks a video
    or a protocol (absent, [null], empty, 0 or [false]) is answered 400;
    no other request gets these answers, and the model is not called. *)
Theorem handler_turns_away (host : Host) (req : request) :
  (method req <> lit "POST" ->
   Analyze.handler host req
   = (Analyze.respond 405 (ErrorOnly (lit "Method not allowed")), []))
  /\ (method req = lit "POST" -> nullish (body req) = false ->
      ToBoolean (prop (body req) (lit "video")) = false
      \/ ToBoolean (prop (body req) (lit "protocol")) = false ->
      Analyze.handler host req
      = (Analyze.respond 400 (ErrorOnly (lit "Missing video or protocol data")),
         []))
  /\ (status (fst (Analyze.handler host req)) = 405%Z ->
      method req <> lit "POST")
  /\ (status (fst (Analyze.handler host req)) = 400%Z ->
      method req = lit "POST" /\ nullish (body req) = false
      /\ (ToBoolean (prop (body req) (lit "video")) = false
          \/ ToBoolean (prop (body req) (lit "protocol")) = false)).
Proof.
  rewrite handler_cases.
  destruct (negb (jstr_eqb (method req) (lit "POST"))) eqn:Em.
  { apply not_post in Em. split; [reflexivity|]. split; [contradiction|].
    split; [intros _; exact Em | discriminate]. }
  apply is_post in Em.
  destruct (nullish (body req)) eqn:Eb.
  { split; [contradiction|]. split; [discriminate|].
    split; discriminate. }
  destruct (negb (ToBoolean (prop (body req) (lit "video")))
            || negb (ToBoolean (prop (body req) (lit "protocol")))) eqn:Ev.
  { apply falsy_either in Ev. split; [contradiction|]. split; [reflexivity|].
    split; [discriminate | auto]. }
  apply truthy_both in Ev. destruct Ev as [Hv Hp].
  assert (Hno : ~ (ToBoolean (prop (body req) (lit "video")) = false
                   \/ ToBoolean (prop (body req) (lit "protocol")) = false)).
  { rewrite Hv, Hp. intros [H|H]; discriminate H. }
  split; [contradiction|]. split; [intros _ _ H; contradiction|].
  destruct (Analyze.buildPrompt host (prop (body req) (lit "protocol")))
    as [prompt|e];
    [destruct (generateContent host (call_of req prompt))|];
    split; discriminate.
Qed.

Lemma handler_turns_away_witness :
  Analyze.handler demoHost
    {| method := lit "POST"; body := VObj [(lit "video", str "")] |}
  = (Analyze.respond 400 (ErrorOnly (lit "Missing video or protocol data")), []).
Proof.
  apply (proj1 (proj2 (handler_turns_away demoHost
           {| method := lit "POST"; body := VObj [(lit "video", str "")] |}))).
  - reflexivity.
  - reflexivity.
  - left. reflexivity.
Defined.

(** X4. A 500 answer always reads [Analysis failed] and carries the exception:
    a [TypeError] raised before any call (the request has no body, or the
    prompt compiler raised), or what the one call to the model raised. *)
Theorem handler_failure (host : Host) (req : request) :
  (status (fst (Analyze.handler host req)) = 500%Z ->
   exists e : error,
     json (fst (Analyze.handler host req))
     = ErrorMessage (lit "Analysis failed") e
     /\ ((snd (Analyze.handler host req) = [] /\ e = TypeError
          /\ (nullish (body req) = true
              \/ Analyze.buildPrompt host (prop (body req) (lit "protocol"))
                 = Throw TypeError))
         \/ exists c : ai_call,
              snd (Analyze.handler host req) = [c]
              /\ generateContent host c = Throw e))
  /\ (method req = lit "POST" -> nullish (body req) = true ->
      Analyze.handler host req
      = (Analyze.respond 500 (ErrorMessage (lit "Analysis failed") TypeError),
         []))
  /\ (forall (c : ai_call) (e : error),
        snd (Analyze.handler host req) = [c] ->
        generateContent host c = Throw e ->
        fst (Analyze.handler host req)
        = Analyze.respond 500 (ErrorMessage (lit "Analysis failed") e)).
Proof.
  rewrite handler_cases.
  destruct (negb (jstr_eqb (method req) (lit "POST"))) eqn:Em.
  { apply not_post in Em. repeat split; try discriminate.
    intros H. contradiction. }
  destruct (nullish (body req)) eqn:Eb.
  { repeat split; try discriminate.
    intros _. exists TypeError. split; [reflexivity|]. left. auto. }
  destruct (negb (ToBoolean (prop (body req) (lit "video")))
            || negb (ToBoolean (prop (body req) (lit "protocol")))).
  { repeat split; discriminate. }
  destruct (Analyze.buildPrompt host (prop (body req) (lit "protocol")))
    as [prompt|e] eqn:Ep.
  - destruct (generateContent host (call_of req prompt)) as [text|e] eqn:Eg;
      cbn [fst snd].
    + repeat split; try discriminate.
      intros c e H He. injection H as <-. rewrite Eg in He. discriminate He.
    + repeat split; try discriminate.
      * intros _. exists e. split; [reflexivity|]. right.
        exists (call_of req prompt). split; [reflexivity | exact Eg].
      * intros c e' H He. injection H as <-. rewrite Eg in He.
        injection He as <-. reflexivity.
  - pose proof (buildPrompt_raises _ _ _ Ep) as ->.
    repeat split; try discriminate.
    intros _. exists TypeError. split; [reflexivity|]. left. auto.
Qed.

Lemma handler_failure_witness :
  Analyze.handler demoHost {| method := lit "POST"; body := VUndefined |}
  = (Analyze.respond 500 (ErrorMessage (lit "Analysis failed") TypeError), []).
Proof.
  apply (proj1 (proj2 (handler_failure demoHost
           {| method := lit "POST"; body := VUndefined |})));
    reflexivity.
Defined.

(** * The two revisions *)

(** The two prompt compilers read the same properties in the same order:
    they compile or raise together. *)
Lemma buildPrompt_revisions (host : Host) (protocol : value) :
  match Analyze.buildPrompt host protocol, Part000.buildPrompt host protocol with
  | Normal _, Normal _ => True
  | Throw e, Throw e' => e = e'
  | _, _ => False
  end.
Proof.
  unfold Analyze.buildPrompt, Part000.buildPrompt.
  change (Part000.getArmContext host protocol)
    with (Analyze.getArmContext host protocol).
  destruct (get protocol "exercise") as [x|e]; cbn [bind]; [|reflexivity].
  destruct (ToString x); cbn [bind]; [|reflexivity].
  destruct (Analyze.getArmContext host protocol); cbn [bind]; [|reflexivity].
  destruct (get protocol "weight") as [w|e]; cbn [bind]; [|reflexivity].
  destruct (ToString w); cbn [bind]; [|reflexivity].
  destruct (get protocol "repsPerSet") as [r|e]; cbn [bind]; [|reflexivity].
  destruct (ToString r); cbn [bind]; [|reflexivity].
  destruct (get protocol "interval") as [i|e]; cbn [bind]; [|reflexivity].
  destruct (ToString i); cbn [bind]; [exact I | reflexivity].
Qed.

Lemma handler_cases_000 (host : Host) (req : request) :
  Part000.handler host req
  = if negb (jstr_eqb (method req) (lit "POST")) then
      (Part000.respond 405 (ErrorOnly (lit "Method not allowed")), [])
    else if nullish (body req) then
      (Part000.respond 500 (ErrorMessage (lit "Analysis failed") TypeError), [])
    else if negb (ToBoolean (prop (body req) (lit "video")))
            || negb (ToBoolean (prop (body req) (lit "protocol"))) then
      (Part000.respond 400 (ErrorOnly (lit "Missing video or protocol data")), [])
    else
      match Part000.buildPrompt host (prop (body req) (lit "protocol")) with
      | Throw e =>
          (Part000.respond 500 (ErrorMessage (lit "Analysis failed") e), [])
      | Normal prompt =>
          let c := {| ai_model := ai_model (call_of req prompt);
                      ai_responseMimeType := None;
                      ai_mimeType := ai_mimeType (call_of req prompt);
                      ai_data := ai_data (call_of req prompt);
                      ai_text := prompt |} in
          match generateContent host c with
          | Normal text =>
              (Part000.respond 200
                 (Results (Part000.parseGeminiResponse text
                             (prop (body req) (lit "protocol")))),
               [c])
          | Throw e =>
              (Part000.respond 500 (ErrorMessage (lit "Analysis failed") e), [c])
          end
      end.
Proof.
  unfold Part000.handler, Part000.before_call, get.
  destruct (negb (jstr_eqb (method req) (lit "POST"))); [reflexivity|].
  destruct (nullish (body req)); [reflexivity|]. cbn [bind].
  destruct (negb (ToBoolean (prop (body req) (lit "video")))
            || negb (ToBoolean (prop (body req) (lit "protocol")))); [reflexivity|].
  destruct (Part000.buildPrompt host (prop (body req) (lit "protocol")));
    [|reflexivity].
  cbn [bind]. unfold js_or, call_of. cbn zeta.
  destruct (ToBoolean (prop (body req) (lit "mimeType"))); reflexivity.
Qed.

(** X5. The two revisions of the handler treat a request alike up to the call
    to the model: one calls exactly when the other does, with the same
    model name, video and MIME type (JSON mode is asked for by
    [api/analyze.js] alone), and a request that is answered without a
    call gets the same answer from both. *)
Theorem revisions_agree_before_call (host : Host) (req : request) :
  (snd (Analyze.handler host req) = [] <-> snd (Part000.handler host req) = [])
  /\ (snd (Analyze.handler host req) = [] ->
      Part000.handler host req = Analyze.handler host req)
  /\ (forall c : ai_call,
        snd (Analyze.handler host req) = [c] ->
        exists c' : ai_call,
          snd (Part000.handler host req) = [c']
          /\ ai_model c' = ai_model c
          /\ ai_data c' = ai_data c
          /\ ai_mimeType c' = ai_mimeType c
          /\ ai_responseMimeType c = Some (lit "application/json")
          /\ ai_responseMimeType c' = None).
Proof.
  rewrite handler_cases, handler_cases_000.
  destruct (negb (jstr_eqb (method req) (lit "POST")));
    [split; [tauto | split; [reflexivity | discriminate]]|].
  destruct (nullish (body req));
    [split; [tauto | split; [reflexivity | discriminate]]|].
  destruct (negb (ToBoolean (prop (body req) (lit "video")))
            || negb (ToBoolean (prop (body req) (lit "protocol"))));
    [split; [tauto | split; [reflexivity | discriminate]]|].
  pose proof (buildPrompt_revisions host (prop (body req) (lit "protocol"))) as H.
  destruct (Analyze.buildPrompt host (prop (body req) (lit "protocol")))
    as [prompt|e],
    (Part000.buildPrompt host (prop (body req) (lit "protocol")))
    as [prompt'|e']; try contradiction.
  - cbv zeta.
    set (c' := {| ai_model := ai_model (call_of req prompt');
                  ai_responseMimeType := None;
                  ai_mimeType := ai_mimeType (call_of req prompt');
                  ai_data := ai_data (call_of req prompt');
                  ai_text := prompt' |}).
    assert (Hc : forall l : list ai_call, l = [c'] -> exists c0 : ai_call,
                   l = [c0]
                   /\ ai_model c0 = ai_model (call_of req prompt)
                   /\ ai_data c0 = ai_data (call_of req prompt)
                   /\ ai_mimeType c0 = ai_mimeType (call_of req prompt)
                   /\ ai_responseMimeType (call_of req prompt)
                      = Some (lit "application/json")
                   /\ ai_responseMimeType c0 = None).
    { intros l ->. exists c'. repeat split; reflexivity. }
    destruct (generateContent host (call_of req prompt)),
      (generateContent host c'); cbn [snd];
      (split; [split; discriminate|]); (split; [discriminate|]);
      intros c E; injection E as <-; apply Hc; reflexivity.
  - subst e'. split; [tauto | split; [reflexivity | discriminate]].
Qed.

(** * When the prompt compiles *)

Lemma ToString_primitive (v : value) :
  primitive v = true -> exists s : jstr, ToString v = Normal s.
Proof.
  destruct v as [| |[|]|x|s|items|props]; try discriminate; intros _;
    eexists; reflexivity.
Qed.

Lemma strict_eq_str (v : value) (name : string) :
  strict_eq v (str name) = true -> v = str name.
Proof.
  destruct v; try discriminate. simpl. intros H.
  apply jstr_eqb_eq in H. now subst.
Qed.

Section Compiles.

Variable host : Host.

(** The arm rule raises only where it needs the starting arm in upper
    case and the protocol holds no string there. *)
Lemma getArmContext_compiles (protocol : value) :
  nullish protocol = false ->
  primitive (prop protocol (lit "interval")) = true ->
  (exists text, Analyze.getArmContext host protocol = Normal text)
  <-> ~ (alternating (prop protocol (lit "armPattern")) = true
         /\ forall s : jstr, prop protocol (lit "startingArm") <> VStr s).
Proof.
  intros Hn Hi. unfold Analyze.getArmContext, alternating, get. rewrite Hn.
  cbn [bind].
  destruct (ToString_primitive _ Hi) as (i & Ei).
  destruct (strict_eq (prop protocol (lit "armPattern")) (str "left-only")) eqn:E1.
  { apply strict_eq_str in E1. rewrite E1. split; [|eauto].
    intros _ [H _]. discriminate H. }
  destruct (strict_eq (prop protocol (lit "armPattern")) (str "right-only")) eqn:E2.
  { apply strict_eq_str in E2. rewrite E2. split; [|eauto].
    intros _ [H _]. discriminate H. }
  destruct (strict_eq (prop protocol (lit "armPattern")) (str "alternating-sets")) eqn:E3.
  { rewrite Ei. cbn [bind orb].
    destruct (prop protocol (lit "startingArm")) as [| |b|x|s|items|props];
      cbn [Analyze.upper bind ToString];
      try (split; [intros (t & H); discriminate H
                  | intros H; exfalso; apply H; split;
                    [reflexivity | intros s0; discriminate]]).
    split; [|eauto]. intros _ [_ H]. apply (H s). reflexivity. }
  destruct (strict_eq (prop protocol (lit "armPattern")) (str "alternating-reps")) eqn:E4.
  { cbn [orb].
    destruct (prop protocol (lit "startingArm")) as [| |b|x|s|items|props];
      cbn [Analyze.upper bind];
      try (split; [intros (t & H); discriminate H
                  | intros H; exfalso; apply H; split;
                    [reflexivity | intros s0; discriminate]]).
    split; [|eauto]. intros _ [_ H]. apply (H s). reflexivity. }
  cbn [orb].
  destruct (strict_eq (prop protocol (lit "armPattern")) (str "both"));
    (split; [intros _ [H _]; discriminate H | eauto]).
Qed.

End Compiles.

(** X6. For a protocol whose exercise, weight, reps and interval are neither
    arrays nor objects, [buildPrompt] raises exactly when the arm pattern
    is one of the two alternating ones and the starting arm is not a
    string; it raises a [TypeError] then, and compiles a prompt
    otherwise. *)
Theorem buildPrompt_raises_iff (host : Host) (protocol : value) :
  nullish protocol = false ->
  Forall (fun k : string => primitive (prop protocol (lit k)) = true)
    ["exercise"; "weight"; "repsPerSet"; "interval"]%string ->
  (Analyze.buildPrompt host protocol = Throw TypeError
   <-> alternating (prop protocol (lit "armPattern")) = true
       /\ forall s : jstr, prop protocol (lit "startingArm") <> VStr s)
  /\ ((exists prompt : jstr, Analyze.buildPrompt host protocol = Normal prompt)
      <-> ~ (alternating (prop protocol (lit "armPattern")) = true
             /\ forall s : jstr, prop protocol (lit "startingArm") <> VStr s)).
Proof.
  intros Hn Hp.
  inversion Hp as [|? ? He Hp1]; subst. inversion Hp1 as [|? ? Hw Hp2]; subst.
  inversion Hp2 as [|? ? Hr Hp3]; subst. inversion Hp3 as [|? ? Hi _]; subst.
  pose proof (getArmContext_compiles host protocol Hn Hi) as Hc.
  destruct (ToString_primitive _ He) as (e & Ee).
  destruct (ToString_primitive _ Hw) as (w & Ew).
  destruct (ToString_primitive _ Hr) as (r & Er).
  destruct (ToString_primitive _ Hi) as (i & Ei).
  assert (Hb : Analyze.buildPrompt host protocol
               = match Analyze.getArmContext host protocol with
                 | Normal ctx => Analyze.buildPrompt host protocol
                 | Throw e => Throw e
                 end).
  { unfold Analyze.buildPrompt, get. rewrite Hn. cbn [bind]. rewrite Ee. cbn [bind].
    destruct (Analyze.getArmContext host protocol); reflexivity. }
  assert (Hok : forall ctx, Analyze.getArmContext host protocol = Normal ctx ->
                exists prompt, Analyze.buildPrompt host protocol = Normal prompt).
  { intros ctx E. unfold Analyze.buildPrompt, get. rewrite Hn. cbn [bind].
    rewrite Ee. cbn [bind]. rewrite E. cbn [bind].
    rewrite Ew. cbn [bind]. rewrite Er. cbn [bind]. rewrite Ei. cbn [bind].
    eexists. reflexivity. }
  destruct (Analyze.getArmContext host protocol) as [ctx|e0] eqn:Eg.
  - destruct (Hok ctx eq_refl) as (prompt & Eprompt). rewrite Eprompt.
    assert (Hnot : ~ (alternating (prop protocol (lit "armPattern")) = true
                      /\ forall s : jstr, prop protocol (lit "startingArm") <> VStr s)).
    { apply Hc. eauto. }
    split; split; try discriminate; try tauto. eauto.
  - rewrite Hb. pose proof (getArmContext_raises _ _ _ Eg) as ->.
    split; split; try reflexivity.
    + intros _. destruct Hc as [_ Hc].
      assert (Hnn : ~ ~ (alternating (prop protocol (lit "armPattern")) = true
                         /\ forall s : jstr,
                              prop protocol (lit "startingArm") <> VStr s)).
      { intros Hnot. destruct (Hc Hnot) as (t & Ht). discriminate Ht. }
      split.
      * destruct (alternating (prop protocol (lit "armPattern")));
          [reflexivity|]. exfalso. apply Hnn. intros [H _]. discriminate H.
      * intros s Es. apply Hnn. intros [_ H]. apply (H s Es).
    + intros (t & Ht). discriminate Ht.
    + intros Hnot. exfalso. destruct Hc as [_ Hc].
      destruct (Hc Hnot) as (t & Ht). discriminate Ht.
Qed.

Lemma buildPrompt_raises_iff_witness :
  exists prompt : jstr, Analyze.buildPrompt demoHost swing_protocol = Normal prompt.
Proof.
  apply (proj2 (buildPrompt_raises_iff demoHost swing_protocol eq_refl
                  ltac:(repeat constructor))).
  intros [_ H]. apply (H (lit "left")). reflexivity.
Defined.

(** * Exercises the table does not name *)



(** * What every normalised result has *)

Lemma js_or_default (a b : value) :
  js_or a (Normal b) = Normal (if ToBoolean a then a else b).
Proof. unfold js_or. destruct (ToBoolean a); reflexivity. Qed.

Lemma js_or_falsy (a : value) (c : completion value) :
  ToBoolean a = false -> js_or a c = c.
Proof. unfold js_or. intros ->. reflexivity. Qed.

Lemma js_or_truthy_left (a : value) (c : completion value) :
  ToBoolean a = true -> js_or a c = Normal a.
Proof. unfold js_or. intros ->. reflexivity. Qed.

Lemma js_or_truthy (a : value) (c : completion value) (v : value) :
  js_or a c = Normal v ->
  (forall w : value, c = Normal w -> ToBoolean w = true) ->
  ToBoolean v = true.
Proof.
  unfold js_or. destruct (ToBoolean a) eqn:E; intros H Hc.
  - injection H as <-. exact E.
  - apply Hc, H.
Qed.

(** What the [try] block returns has reps, notes and both rep numbers
    truthy. *)
Lemma structure_truthy (data : value) (r : NormalizedResult) :
  Analyze.structure data = Normal r ->
  ToBoolean (reps r) = true /\ ToBoolean (coachingNotes r) = true
  /\ ToBoolean (fastestRep r) = true /\ ToBoolean (slowestRep r) = true.
Proof.
  unfold Analyze.structure. intros H.
  destruct (get data "reps") as [data_reps|] eqn:E0; cbn [bind] in H;
    [|discriminate H].
  rewrite js_or_default in H. cbn [bind] in H.
  destruct (get data "summary") as [summary|]; cbn [bind] in H; [|discriminate H].
  destruct (js_or (opt summary "totalReps") _) as [t|]; cbn [bind] in H;
    [|discriminate H].
  destruct (js_or (opt summary "avgDuration") _) as [d|]; cbn [bind] in H;
    [|discriminate H].
  destruct (js_or (opt summary "avgVelocity") _) as [v|]; cbn [bind] in H;
    [|discriminate H].
  rewrite js_or_default in H. cbn [bind] in H.
  destruct (js_or (opt summary "slowestRep") _) as [s|] eqn:Es; cbn [bind] in H;
    [|discriminate H].
  destruct (js_or (opt summary "velocityDropPercent") _) as [p|]; cbn [bind] in H;
    [|discriminate H].
  destruct (get data "coachingNotes") as [notes|]; cbn [bind] in H;
    [|discriminate H].
  rewrite js_or_default in H. cbn [bind] in H. injection H as <-.
  cbn [reps coachingNotes fastestRep slowestRep]. repeat split.
  - destruct (ToBoolean data_reps) eqn:E; [exact E | reflexivity].
  - destruct (ToBoolean notes) eqn:E; [exact E | reflexivity].
  - destruct (ToBoolean (opt summary "fastestRep")) eqn:E; [exact E | reflexivity].
  - apply (js_or_truthy _ _ _ Es). intros w Hw.
    apply (js_or_truthy _ _ _ Hw). intros w' Hw'. injection Hw' as <-. reflexivity.
Qed.

(** X8. Whatever the model replies, the normalised result has truthy [reps]
    and notes; and its [fastestRep] (as its [slowestRep]) is 0 exactly
    when the [try] block raised and the fallback was returned. Both
    revisions. *)
Theorem fallback_is_recognisable (text : jstr) (protocol : value) :
  (let r := Analyze.parseGeminiResponse text protocol in
   ToBoolean (reps r) = true /\ ToBoolean (coachingNotes r) = true
   /\ ((exists e : error, Analyze.attempt text = Throw e)
       <-> fastestRep r = VNum 0)
   /\ (fastestRep r = VNum 0 <-> slowestRep r = VNum 0)
   /\ (fastestRep r = VNum 0 -> r = Analyze.fallback text))
  /\ (let r := Part000.parseGeminiResponse text protocol in
      ToBoolean (reps r) = true /\ ToBoolean (coachingNotes r) = true
      /\ ((exists e : error, Part000.attempt text = Throw e)
          <-> fastestRep r = VNum 0)
      /\ (fastestRep r = VNum 0 <-> slowestRep r = VNum 0)
      /\ (fastestRep r = VNum 0 -> r = Part000.fallback text)).
Proof.
  assert (Hgen : forall (attempt : completion NormalizedResult)
                        (fallback : NormalizedResult),
             (forall r, attempt = Normal r ->
                        ToBoolean (reps r) = true /\ ToBoolean (coachingNotes r) = true
                        /\ ToBoolean (fastestRep r) = true
                        /\ ToBoolean (slowestRep r) = true) ->
             ToBoolean (reps fallback) = true ->
             ToBoolean (coachingNotes fallback) = true ->
             fastestRep fallback = VNum 0 -> slowestRep fallback = VNum 0 ->
             let r := match attempt with Normal r => r | Throw _ => fallback end in
             ToBoolean (reps r) = true /\ ToBoolean (coachingNotes r) = true
             /\ ((exists e : error, attempt = Throw e) <-> fastestRep r = VNum 0)
             /\ (fastestRep r = VNum 0 <-> slowestRep r = VNum 0)
             /\ (fastestRep r = VNum 0 -> r = fallback)).
  { intros attempt fallback Hok Hr Hn Hf Hs. destruct attempt as [r|e]; cbn zeta.
    - destruct (Hok r eq_refl) as (H1 & H2 & H3 & H4).
      repeat split; try assumption.
      + intros (e & He). discriminate He.
      + intros E. rewrite E in H3. discriminate H3.
      + intros E. rewrite E in H3. discriminate H3.
      + intros E. rewrite E in H4. discriminate H4.
      + intros E. rewrite E in H3. discriminate H3.
    - repeat split; try assumption; eauto. }
  split.
  - apply (Hgen (Analyze.attempt text) (Analyze.fallback text)); try reflexivity.
    intros r. unfold Analyze.attempt.
    destruct (JSON_parse (Analyze.cleanText text)) as [data|]; cbn [bind];
      [apply structure_truthy | discriminate].
  - apply (Hgen (Part000.attempt text) (Part000.fallback text)); try reflexivity.
    intros r. unfold Part000.attempt.
    destruct (JSON_parse (Part000.cleanText text)) as [data|]; cbn [bind];
      [apply structure_truthy | discriminate].
Qed.

(** X9. A parsed response without reps (absent, [null] or an empty array)
    and without a reported number normalises to the defaults: no reps,
    0 for the count, the averages and the dropoff, 1 for both rep
    numbers. *)
Theorem normalizer_defaults (text : jstr) (protocol data : value) :
  JSON_parse (Analyze.cleanText text) = Normal data ->
  nullish data = false ->
  prop data (lit "reps") = VUndefined \/ prop data (lit "reps") = VNull
  \/ prop data (lit "reps") = VArr [] ->
  Forall (fun field : string =>
            ToBoolean (opt (prop data (lit "summary")) field) = false)
    summary_fields ->
  Analyze.parseGeminiResponse text protocol
  = {| reps := VArr [];
       totalReps := VNum 0;
       avgDuration := VNum 0;
       avgVelocity := VNum 0;
       fastestRep := VNum 1;
       slowestRep := VNum 1;
       velocityDropoff := VNum 0;
       coachingNotes :=
         (let notes := prop data (lit "coachingNotes") in
          if ToBoolean notes then notes else VStr defaultNotes) |}.
Proof.
  intros Hparse Hn Hreps Hsum.
  unfold Analyze.parseGeminiResponse, Analyze.attempt. rewrite Hparse. cbn [bind].
  unfold Analyze.structure, get. rewrite Hn. cbn [bind].
  unfold summary_fields in Hsum.
  repeat match goal with
         | H : Forall _ (_ :: _) |- _ => inversion H; clear H; subst
         end.
  repeat match goal with
         | H : ToBoolean ?a = false |- _ => rewrite (js_or_falsy a _ H); clear H
         end.
  rewrite (js_or_default (prop data (lit "coachingNotes"))).
  destruct Hreps as [-> | [-> | ->]]; reflexivity.
Qed.

Lemma normalizer_defaults_witness :
  Analyze.parseGeminiResponse (lit "{}") VUndefined
  = {| reps := VArr [];
       totalReps := VNum 0;
       avgDuration := VNum 0;
       avgVelocity := VNum 0;
       fastestRep := VNum 1;
       slowestRep := VNum 1;
       velocityDropoff := VNum 0;
       coachingNotes := VStr defaultNotes |}.
Proof.
  apply (normalizer_defaults (lit "{}") VUndefined (VObj [])).
  - vm_compute. reflexivity.
  - reflexivity.
  - left. reflexivity.
  - repeat constructor.
Defined.

(** X10. When the summary reports all six numbers (none of them 0), the
    normaliser returns them as reported and does not look into the reps:
    whatever [data.reps] holds is passed on when truthy, an empty array
    otherwise. *)
Theorem complete_summary_trusted (text : jstr) (protocol data : value) :
  JSON_parse (Analyze.cleanText text) = Normal data ->
  nullish data = false ->
  Forall (fun field : string =>
            ToBoolean (opt (prop data (lit "summary")) field) = true)
    summary_fields ->
  let summary := prop data (lit "summary") in
  Analyze.parseGeminiResponse text protocol
  = {| reps :=
         (let reps := prop data (lit "reps") in
          if ToBoolean reps then reps else VArr []);
       totalReps := opt summary "totalReps";
       avgDuration := opt summary "avgDuration";
       avgVelocity := opt summary "avgVelocity";
       fastestRep := opt summary "fastestRep";
       slowestRep := opt summary "slowestRep";
       velocityDropoff := opt summary "velocityDropPercent";
       coachingNotes :=
         (let notes := prop data (lit "coachingNotes") in
          if ToBoolean notes then notes else VStr defaultNotes) |}.
Proof.
  intros Hparse Hn Hsum. cbv zeta.
  unfold Analyze.parseGeminiResponse, Analyze.attempt. rewrite Hparse. cbn [bind].
  unfold Analyze.structure, get. rewrite Hn. cbn [bind].
  unfold summary_fields in Hsum.
  repeat match goal with
         | H : Forall _ (_ :: _) |- _ => inversion H; clear H; subst
         end.
  repeat match goal with
         | H : ToBoolean ?a = true |- _ => rewrite (js_or_truthy_left a _ H); clear H
         end.
  rewrite !js_or_default. reflexivity.
Qed.

Lemma complete_summary_trusted_witness :
  reps (Analyze.parseGeminiResponse
          (template "{'reps': 'none', 'summary': {'totalReps': 3, 'avgDuration': 1.2, 'avgVelocity': 7, 'fastestRep': 1, 'slowestRep': 3, 'velocityDropPercent': 12.5}}")
          VUndefined)
  = str "none".
Proof.
  refine (f_equal reps
            (complete_summary_trusted _ VUndefined
               (VObj [ (lit "reps", str "none");
                       (lit "summary",
                        VObj [ (lit "totalReps", VNum 3);
                               (lit "avgDuration", VNum 1.2);
                               (lit "avgVelocity", VNum 7);
                               (lit "fastestRep", VNum 1);
                               (lit "slowestRep", VNum 3);
                               (lit "velocityDropPercent", VNum 12.5) ]) ])
               _ _ _)).
  - vm_compute. reflexivity.
  - reflexivity.
  - repeat constructor.
Defined.

(** * The text handed to JSON.parse *)

Lemma dropWhileEnd_last {A} (p : A -> bool) (l : list A) (d : A) :
  p d = false -> dropWhileEnd p (l ++ [d]) = l ++ [d].
Proof.
  intros H. unfold dropWhileEnd. rewrite rev_app_distr. simpl. rewrite H.
  simpl. rewrite rev_involutive. reflexivity.
Qed.

(** [trim] leaves a text that neither begins nor ends with white space. *)
Lemma trim_fixed (c : N) (middle : jstr) (d : N) :
  isWhiteSpace c = false -> isWhiteSpace d = false ->
  trim (c :: middle ++ [d]) = c :: middle ++ [d].
Proof.
  intros Hc Hd. unfold trim. simpl. rewrite Hc.
  apply (dropWhileEnd_last isWhiteSpace (c :: middle) d Hd).
Qed.

Lemma jsonMatch_object (inner : jstr) :
  jsonMatch (lit "{" ++ inner ++ lit "}") = Some (lit "{" ++ inner ++ lit "}").
Proof.
  unfold jsonMatch.
  change (lit "{" ++ inner ++ lit "}") with (123%N :: inner ++ [125%N]).
  cbn [dropWhile isOpen N.eqb Pos.eqb negb].
  rewrite dropWhileEnd_last by reflexivity.
  destruct inner; reflexivity.
Qed.

Lemma trim_object (inner : jstr) :
  trim (lit "{" ++ inner ++ lit "}") = lit "{" ++ inner ++ lit "}".
Proof. apply (trim_fixed 123 inner 125); reflexivity. Qed.

(** X11. [api/analyze.js] hands to [JSON.parse] the text between the first
    opening and the last closing brace: text before and after an object,
    if it holds no brace, is discarded, and the response normalises as
    the object alone does. *)
Theorem surrounding_text_discarded (a inner b : jstr) (protocol : value) :
  braceless a -> braceless b ->
  let object := lit "{" ++ inner ++ lit "}" in
  Analyze.cleanText (a ++ object ++ b) = object
  /\ Analyze.attempt (a ++ object ++ b) = Analyze.attempt object
  /\ (forall r : NormalizedResult,
        Analyze.attempt object = Normal r ->
        Analyze.parseGeminiResponse (a ++ object ++ b) protocol = r).
Proof.
  intros Ha Hb. cbv zeta. set (object := lit "{" ++ inner ++ lit "}").
  assert (Hm : jsonMatch (a ++ object ++ b) = Some object).
  { rewrite (jsonMatch_prefix a _ Ha), (jsonMatch_suffix object b Hb).
    apply jsonMatch_object. }
  assert (Hc : Analyze.cleanText (a ++ object ++ b) = object).
  { rewrite (cleanText_match _ _ Hm). apply trim_object. }
  assert (Ho : Analyze.cleanText object = object).
  { unfold object. rewrite (cleanText_match _ _ (jsonMatch_object inner)).
    apply trim_object. }
  assert (Hat : Analyze.attempt (a ++ object ++ b) = Analyze.attempt object).
  { unfold Analyze.attempt. rewrite Hc, Ho. reflexivity. }
  split; [exact Hc|]. split; [exact Hat|].
  intros r Hr. unfold Analyze.parseGeminiResponse. rewrite Hat, Hr. reflexivity.
Qed.

Lemma surrounding_text_discarded_witness :
  Analyze.cleanText
    (lit "Here is the analysis: " ++ (lit "{" ++ lit "" ++ lit "}")
     ++ lit " Let me know if you need more.")
  = lit "{" ++ lit "" ++ lit "}".
Proof.
  apply (surrounding_text_discarded (lit "Here is the analysis: ") (lit "")
           (lit " Let me know if you need more.") VUndefined);
    reflexivity.
Defined.

Lemma cleanText_000 (text : jstr) : Part000.cleanText text = trim (unfenced text).
Proof. reflexivity. Qed.

(** X12. Where the other revision hands an object to [JSON.parse] (a text
    from an opening to a closing brace), [api/analyze.js] hands over the
    same text, and the two normalise the response alike. *)
Theorem revisions_agree_on_objects (text inner : jstr) (protocol : value) :
  Part000.cleanText text = lit "{" ++ inner ++ lit "}" ->
  Analyze.cleanText text = Part000.cleanText text
  /\ Analyze.attempt text = Part000.attempt text
  /\ (forall r : NormalizedResult,
        Part000.attempt text = Normal r ->
        Analyze.parseGeminiResponse text protocol = r
        /\ Part000.parseGeminiResponse text protocol = r).
Proof.
  intros H.
  assert (Hc : Analyze.cleanText text = Part000.cleanText text).
  { rewrite H. rewrite cleanText_000 in H.
    rewrite cleanText_unfenced, <- (jsonMatch_trim (unfenced text)), H.
    rewrite jsonMatch_object. apply trim_object. }
  assert (Ha : Analyze.attempt text = Part000.attempt text).
  { unfold Analyze.attempt, Part000.attempt. rewrite Hc. reflexivity. }
  split; [exact Hc|]. split; [exact Ha|].
  intros r Hr. unfold Analyze.parseGeminiResponse, Part000.parseGeminiResponse.
  rewrite Ha, Hr. split; reflexivity.
Qed.

Lemma revisions_agree_on_objects_witness :
  Analyze.cleanText (fenced true fenced_payload)
  = Part000.cleanText (fenced true fenced_payload).
Proof.
  refine (proj1 (revisions_agree_on_objects (fenced true fenced_payload)
                   (removelast (tl fenced_payload)) VUndefined _)).
  vm_compute. reflexivity.
Defined.

(** * Fences in the other revision *)

Lemma startsWith_prefix (p s : jstr) : startsWith (p ++ s) p = true.
Proof.
  induction p as [|c p IH]; simpl; [destruct s; reflexivity|].
  now rewrite N.eqb_refl.
Qed.

(** A prefix test on [s ++ t] succeeds on [s] already, or [s] is a proper
    prefix of the pattern and [t] begins with the rest of it. *)
Lemma startsWith_app_cases (s t p : jstr) :
  startsWith (s ++ t) p = true ->
  startsWith s p = true
  \/ exists k : nat,
       (k < length p)%nat /\ s = firstn k p /\ startsWith t (skipn k p) = true.
Proof.
  revert p; induction s as [|c s IH]; intros p H.
  - destruct p as [|d p]; [left; reflexivity|].
    right. exists 0%nat. simpl. split; [lia|]. split; [reflexivity | exact H].
  - destruct p as [|d p]; [left; reflexivity|].
    simpl in H. apply andb_prop in H. destruct H as [Hc H].
    destruct (IH p H) as [Hs | (k & Hk & Es & Ht)].
    + left. simpl. now rewrite Hc.
    + right. exists (S k). simpl. split; [lia|]. split; [|exact Ht].
      apply N.eqb_eq in Hc. subst d. now rewrite <- Es.
Qed.

Lemma endsWith_suffix (s p : jstr) : endsWith (s ++ p) p = true.
Proof. unfold endsWith. rewrite rev_app_distr. apply startsWith_prefix. Qed.

Lemma slice_drop_last_app (s p : jstr) :
  slice_drop_last (length p) (s ++ p) = s.
Proof.
  unfold slice_drop_last. rewrite length_app.
  replace (length s + length p - length p)%nat with (length s + 0)%nat by lia.
  rewrite firstn_app_2. simpl. apply app_nil_r.
Qed.

Lemma trim_fence (tag : bool) (payload : jstr) :
  trim (fenced tag payload) = fenced tag payload.
Proof.
  unfold fenced.
  change (lit "```") with ([96; 96]%N ++ [96%N]).
  rewrite !app_assoc.
  destruct tag.
  - change (lit "```json") with (96%N :: lit "``json").
    apply (trim_fixed 96 ((lit "``json" ++ payload) ++ [96; 96]%N) 96);
      reflexivity.
  - change (([96; 96]%N ++ [96%N]) ++ payload)
      with (96%N :: ([96; 96]%N ++ payload)).
    apply (trim_fixed 96 (([96; 96]%N ++ payload) ++ [96; 96]%N) 96);
      reflexivity.
Qed.

(** X13. The other revision removes a fence around a payload: tagged, unless
    the payload itself begins with three backticks; untagged, unless the
    payload begins with the letters [json]. What [JSON.parse] then gets
    is the trimmed payload. *)
Theorem fence_removed_other_revision (tag : bool) (payload : jstr) :
  startsWith payload (if tag then lit "```" else lit "json") = false ->
  Part000.cleanText (fenced tag payload) = trim payload
  /\ Part000.attempt (fenced tag payload)
     = (data <- JSON_parse (trim payload) ;; Part000.structure data).
Proof.
  intros H.
  assert (Hc : Part000.cleanText (fenced tag payload) = trim payload).
  { unfold Part000.cleanText. rewrite trim_fence. cbv zeta.
    assert (Hend : forall s : jstr,
               (if endsWith (s ++ lit "```") (lit "```")
                then slice_drop_last 3 (s ++ lit "```") else s ++ lit "```") = s).
    { intros s. rewrite endsWith_suffix.
      apply (slice_drop_last_app s (lit "```")). }
    destruct tag; unfold fenced.
    - rewrite startsWith_prefix.
      change (slice_from 7 (lit "```json" ++ payload ++ lit "```"))
        with (payload ++ lit "```").
      destruct (startsWith (payload ++ lit "```") (lit "```")) eqn:E.
      + apply startsWith_app_cases in E.
        destruct E as [E | (k & Hk & -> & _)]; [congruence|].
        destruct k as [|[|[|k]]]; [reflexivity | reflexivity | reflexivity|].
        simpl in Hk. lia.
      + rewrite Hend. reflexivity.
    - destruct (startsWith (lit "```" ++ payload ++ lit "```") (lit "```json")) eqn:E.
      + exfalso.
        change (lit "```json") with (lit "```" ++ lit "json") in E.
        assert (E' : startsWith (payload ++ lit "```") (lit "json") = true).
        { exact E. }
        apply startsWith_app_cases in E'.
        destruct E' as [E' | (k & Hk & _ & Ht)]; [congruence|].
        destruct k as [|[|[|[|k]]]]; try discriminate Ht. simpl in Hk. lia.
      + rewrite startsWith_prefix.
        change (slice_from 3 (lit "```" ++ payload ++ lit "```"))
          with (payload ++ lit "```").
        rewrite Hend. reflexivity. }
  split; [exact Hc|]. unfold Part000.attempt. rewrite Hc. reflexivity.
Qed.

Lemma fence_removed_other_revision_witness :
  Part000.cleanText (fenced true fenced_payload) = trim fenced_payload.
Proof.
  apply (fence_removed_other_revision true fenced_payload). reflexivity.
Defined.

Lemma trim_white (a s b : jstr) :
  forallb isWhiteSpace a = true -> forallb isWhiteSpace b = true ->
  trim (a ++ s ++ b) = trim s.
Proof.
  intros Ha Hb. unfold trim. rewrite (dropWhile_all _ a _ Ha).
  destruct (dropWhile isWhiteSpace s) as [|c rest] eqn:E.
  - destruct (dropWhile_split isWhiteSpace s) as (a' & Hs & Ha').
    rewrite E, app_nil_r in Hs. subst a'.
    rewrite (dropWhile_all _ s _ Ha'), (dropWhile_nil _ b Hb). reflexivity.
  - rewrite dropWhile_keeps by (rewrite E; discriminate). rewrite E.
    apply dropWhileEnd_all, Hb.
Qed.

(** X14. White space around the reply of the model (blanks, line breaks) never
    matters to the outcome of the [try] block, in either revision. *)
Theorem white_space_ignored (a text b : jstr) :
  forallb isWhiteSpace a = true -> forallb isWhiteSpace b = true ->
  Analyze.cleanText (a ++ text ++ b) = Analyze.cleanText text
  /\ Analyze.attempt (a ++ text ++ b) = Analyze.attempt text
  /\ Part000.cleanText (a ++ text ++ b) = Part000.cleanText text
  /\ Part000.attempt (a ++ text ++ b) = Part000.attempt text.
Proof.
  intros Ha Hb.
  assert (Hu : unfenced (a ++ text ++ b) = unfenced text).
  { unfold unfenced. rewrite (trim_white a text b Ha Hb). reflexivity. }
  assert (H1 : Analyze.cleanText (a ++ text ++ b) = Analyze.cleanText text).
  { rewrite !cleanText_unfenced, Hu. reflexivity. }
  assert (H2 : Part000.cleanText (a ++ text ++ b) = Part000.cleanText text).
  { rewrite !cleanText_000, Hu. reflexivity. }
  unfold Analyze.attempt, Part000.attempt. rewrite H1, H2. auto.
Qed.

Lemma white_space_ignored_witness :
  Analyze.cleanText (lit "  " ++ fenced_payload ++ lit " ")
  = Analyze.cleanText fenced_payload.
Proof.
  apply (white_space_ignored (lit "  ") fenced_payload (lit " "));
    reflexivity.
Defined.

(** * Reps that lack a field, and reps that are no objects *)

Lemma reduce_counts (field : string) (items : list value) (xs : list float) :
  Forall2 (counts field) items xs ->
  forall a : float,
    reduce (fun acc rep =>
              x <- get rep field ;;
              y <- js_or x (Normal (VNum 0)) ;;
              js_add acc y) items (VNum a)
    = Normal (VNum (fold_left PrimFloat.add xs a)).
Proof.
  induction 1 as [|r x items xs Hr _ IH]; intros a; [reflexivity|].
  cbn [reduce]. destruct Hr as (v & Hv & [[-> Hp] | [Hf ->]]); rewrite Hv;
    cbn [bind].
  - rewrite (or_zero_plain x Hp). cbn [bind fold_left].
    change (js_add (VNum a) (VNum x)) with (Normal (VNum (a + x))).
    cbn [bind]. apply IH.
  - rewrite (js_or_falsy v _ Hf). cbn [bind fold_left].
    change (js_add (VNum a) (VNum 0)) with (Normal (VNum (a + 0))).
    cbn [bind]. apply IH.
Qed.

(** X15. For the two fields the program averages, [duration] and
    [velocityScore]: a rep that lacks the field, or holds something
    falsy there, adds 0 to the sum and still counts in the divisor, so
    the average is the mean over all reps of what each one [counts]. *)
Theorem calculateAvg_missing_field (field : string) :
  field = "duration"%string \/ field = "velocityScore"%string ->
  (forall props : list (jstr * value),
      lookup (lit field) props = None -> counts field (VObj props) 0)
  /\ (forall (items : list value) (xs : list float),
        items <> [] -> array_sized items ->
        Forall2 (counts field) items xs ->
        Analyze.calculateAvg (VArr items) field = Normal (VNum (mean xs))).
Proof.
  intros _. split.
  - intros props H. exists VUndefined. split; [|right; split; reflexivity].
    unfold get. cbn [nullish prop]. rewrite H. reflexivity.
  - intros items xs Hne Hsz Hc.
    destruct Hc as [|r x items xs Hr Hrs]; [congruence|].
    assert (Hall : Forall2 (counts field) (r :: items) (x :: xs))
      by (constructor; assumption).
    unfold Analyze.calculateAvg. rewrite prop_length.
    assert (Hlen : (0 < length (r :: items))%nat) by (simpl; lia).
    destruct (num_of_nat_nonzero _ Hlen (array_sized_53 _ Hsz)) as [Hz _].
    cbn [ToBoolean negb orb strict_eq]. rewrite Hz.
    rewrite (reduce_counts field _ _ Hall). cbn [bind]. unfold mean.
    rewrite <- (Forall2_length Hall). reflexivity.
Qed.

Lemma calculateAvg_missing_field_witness :
  Analyze.calculateAvg (VArr gap_example) "duration"
  = Normal (VNum (mean [1.5; 0; 3]%float)).
Proof.
  apply (proj2 (calculateAvg_missing_field "duration" (or_introl eq_refl))).
  - discriminate.
  - reflexivity.
  - repeat constructor.
    + exists (VNum 1.5). split; [reflexivity | left; split; reflexivity].
    + apply (proj1 (calculateAvg_missing_field "duration" (or_introl eq_refl))).
      reflexivity.
    + exists (VNum 3). split; [reflexivity | left; split; reflexivity].
Defined.

Lemma ToPrimitive_raises (v : value) (e : error) :
  ToPrimitive v = Throw e -> e = TypeError.
Proof.
  destruct v; try discriminate; unfold ToPrimitive; intros H.
  - destruct (ToString (VArr items)) eqn:E; cbn [bind] in H; [discriminate H|].
    injection H as <-. apply (ToString_raises _ _ E).
  - destruct (ToString (VObj props)) eqn:E; cbn [bind] in H; [discriminate H|].
    injection H as <-. apply (ToString_raises _ _ E).
Qed.

Lemma ToNumber_raises (v : value) (e : error) :
  ToNumber v = Throw e -> e = TypeError.
Proof.
  unfold ToNumber. destruct (ToPrimitive v) eqn:E; cbn [bind]; [discriminate|].
  intros H. injection H as <-. apply (ToPrimitive_raises _ _ E).
Qed.

Lemma js_add_raises (a b : value) (e : error) :
  js_add a b = Throw e -> e = TypeError.
Proof.
  unfold js_add.
  destruct (ToPrimitive a) as [pa|e1] eqn:Ea; cbn [bind];
    [|intros H; injection H as <-; apply (ToPrimitive_raises _ _ Ea)].
  destruct (ToPrimitive b) as [pb|e2] eqn:Eb; cbn [bind];
    [|intros H; injection H as <-; apply (ToPrimitive_raises _ _ Eb)].
  assert (Hs : forall e0, (sa <- ToString pa ;; sb <- ToString pb ;;
                           Normal (VStr (sa ++ sb))) = Throw e0 -> e0 = TypeError).
  { intros e0. destruct (ToString pa) eqn:E1; cbn [bind];
      [|intros H; injection H as <-; apply (ToString_raises _ _ E1)].
    destruct (ToString pb) eqn:E2; cbn [bind]; [discriminate|].
    intros H; injection H as <-; apply (ToString_raises _ _ E2). }
  assert (Hn : forall e0, (x <- ToNumber pa ;; y <- ToNumber pb ;;
                           Normal (VNum (x + y))) = Throw e0 -> e0 = TypeError).
  { intros e0. destruct (ToNumber pa) eqn:E1; cbn [bind];
      [|intros H; injection H as <-; apply (ToNumber_raises _ _ E1)].
    destruct (ToNumber pb) eqn:E2; cbn [bind]; [discriminate|].
    intros H; injection H as <-; apply (ToNumber_raises _ _ E2). }
  destruct pa, pb; first [apply Hs | apply Hn].
Qed.

Lemma arith_raises (op : float -> float -> float) (a b : value) (e : error) :
  arith op a b = Throw e -> e = TypeError.
Proof.
  unfold arith.
  destruct (ToNumber a) eqn:E1; cbn [bind];
    [|intros H; injection H as <-; apply (ToNumber_raises _ _ E1)].
  destruct (ToNumber b) eqn:E2; cbn [bind]; [discriminate|].
  intros H; injection H as <-; apply (ToNumber_raises _ _ E2).
Qed.

Lemma summand_raises (field : string) (acc rep : value) (e : error) :
  (x <- get rep field ;; y <- js_or x (Normal (VNum 0)) ;; js_add acc y) = Throw e ->
  e = TypeError.
Proof.
  unfold get. destruct (nullish rep); cbn [bind]; [intros H; now injection H|].
  rewrite js_or_default. cbn [bind]. apply js_add_raises.
Qed.

Lemma reduce_raises (field : string) (items : list value) :
  forall (acc : value) (e : error),
    reduce (fun acc rep =>
              x <- get rep field ;;
              y <- js_or x (Normal (VNum 0)) ;;
              js_add acc y) items acc = Throw e ->
    e = TypeError.
Proof.
  induction items as [|r items IH]; intros acc e; cbn [reduce]; [discriminate|].
  destruct (x <- get r field ;; y <- js_or x (Normal (VNum 0)) ;; js_add acc y)
    as [acc'|e1] eqn:E; cbn [bind].
  - apply IH.
  - intros H. injection H as <-. apply (summand_raises _ _ _ _ E).
Qed.

Lemma reduce_nullish (field : string) (items : list value) :
  Exists (fun rep => nullish rep = true) items ->
  forall acc : value,
    reduce (fun acc rep =>
              x <- get rep field ;;
              y <- js_or x (Normal (VNum 0)) ;;
              js_add acc y) items acc = Throw TypeError.
Proof.
  induction 1 as [r items Hr | r items _ IH]; intros acc; cbn [reduce].
  - unfold get. rewrite Hr. reflexivity.
  - destruct (x <- get r field ;; y <- js_or x (Normal (VNum 0)) ;; js_add acc y)
      as [acc'|e1] eqn:E; cbn [bind].
    + apply IH.
    + rewrite (summand_raises _ _ _ _ E). reflexivity.
Qed.

Lemma calculateAvg_nullish_rep (field : string) (items : list value) :
  array_sized items ->
  Exists (fun rep => nullish rep = true) items ->
  Analyze.calculateAvg (VArr items) field = Throw TypeError.
Proof.
  intros Hsz Hex. unfold Analyze.calculateAvg. rewrite prop_length.
  assert (Hlen : (0 < length items)%nat).
  { destruct Hex; simpl; lia. }
  destruct (num_of_nat_nonzero _ Hlen (array_sized_53 _ Hsz)) as [Hz _].
  cbn [ToBoolean negb orb strict_eq]. rewrite Hz.
  rewrite (reduce_nullish field items Hex). reflexivity.
Qed.

(** X16. [calculateAvg] raises nothing but a [TypeError], and raises one when
    a rep is [null] (or absent), and when the reps are truthy and no
    array (a string, a number, an object), unless their [length] is 0. *)
Theorem calculateAvg_raises (field : string) :
  (forall (reps : value) (e : error),
      Analyze.calculateAvg reps field = Throw e -> e = TypeError)
  /\ (forall items : list value,
        array_sized items ->
        Exists (fun rep => nullish rep = true) items ->
        Analyze.calculateAvg (VArr items) field = Throw TypeError)
  /\ (forall reps : value,
        ToBoolean reps = true ->
        (forall items : list value, reps <> VArr items) ->
        strict_eq (prop reps (lit "length")) (VNum 0) = false ->
        Analyze.calculateAvg reps field = Throw TypeError).
Proof.
  split; [|split].
  - intros reps e. unfold Analyze.calculateAvg.
    destruct (negb (ToBoolean reps)
              || strict_eq (prop reps (lit "length")) (VNum 0)); [discriminate|].
    destruct reps; cbn [bind]; try (intros H; now injection H).
    destruct (reduce _ items (VNum 0)) as [sum|e1] eqn:E; cbn [bind].
    + apply arith_raises.
    + intros H. injection H as <-. apply (reduce_raises _ _ _ _ E).
  - apply calculateAvg_nullish_rep.
  - intros reps Ht Hna Hl. unfold Analyze.calculateAvg. rewrite Ht, Hl.
    cbn [negb orb]. destruct reps; try reflexivity.
    exfalso. apply (Hna items). reflexivity.
Qed.

Lemma calculateAvg_raises_witness :
  Analyze.calculateAvg (VArr [rep 1 "Left" "00:03.2" "00:04.1" 0.9 8; VNull])
    "duration"
  = Throw TypeError.
Proof.
  apply (proj1 (proj2 (calculateAvg_raises "duration"))).
  - reflexivity.
  - right. left. reflexivity.
Defined.

(** X17. One [null] among the reps sends the whole response to the fallback,
    unless the summary reports both averages. *)
Theorem null_rep_falls_back (text : jstr) (protocol data : value)
    (items : list value) :
  JSON_parse (Analyze.cleanText text) = Normal data ->
  prop data (lit "reps") = VArr items ->
  array_sized items ->
  In VNull items ->
  ToBoolean (opt (prop data (lit "summary")) "avgDuration") = false
  \/ ToBoolean (opt (prop data (lit "summary")) "avgVelocity") = false ->
  Analyze.parseGeminiResponse text protocol = Analyze.fallback text.
Proof.
  intros Hparse Hreps Hsz Hin Hsum.
  assert (Hex : Exists (fun rep => nullish rep = true) items).
  { apply Exists_exists. exists VNull. split; [exact Hin | reflexivity]. }
  assert (Hd : Analyze.calculateAvg (VArr items) "duration" = Throw TypeError)
    by (apply calculateAvg_nullish_rep; assumption).
  assert (Hv : Analyze.calculateAvg (VArr items) "velocityScore" = Throw TypeError)
    by (apply calculateAvg_nullish_rep; assumption).
  pose proof (prop_array_not_nullish _ _ _ Hreps) as Hdata.
  unfold Analyze.parseGeminiResponse, Analyze.attempt. rewrite Hparse. cbn [bind].
  unfold Analyze.structure, get. rewrite Hdata, Hreps. cbn [bind js_or ToBoolean].
  rewrite (length_or_zero items Hsz).
  set (summary := prop data (lit "summary")) in *.
  rewrite js_or_default. cbn [bind].
  destruct Hsum as [Hs | Hs].
  - rewrite (js_or_falsy _ _ Hs), Hd. reflexivity.
  - destruct (js_or (opt summary "avgDuration")
                (Analyze.calculateAvg (VArr items) "duration"));
      cbn [bind]; [|reflexivity].
    rewrite (js_or_falsy _ _ Hs), Hv. reflexivity.
Qed.

Lemma null_rep_falls_back_witness :
  Analyze.parseGeminiResponse (template "{'reps': [null]}") VUndefined
  = Analyze.fallback (template "{'reps': [null]}").
Proof.
  apply (null_rep_falls_back (template "{'reps': [null]}") VUndefined
           (VObj [(lit "reps", VArr [VNull])]) [VNull]).
  - vm_compute. reflexivity.
  - reflexivity.
  - reflexivity.
  - left. reflexivity.
  - left. reflexivity.
Defined.

(** * The ends of the rep sequence *)

(** On two reps or more, [calculateDropoff] reads the velocity score of
    the first and of the last rep, each 0 when falsy, and nothing else. *)
Lemma calculateDropoff_ends (first : value) (middle : list value) (last : value) :
  array_sized (first :: middle ++ [last]) ->
  Analyze.calculateDropoff (VArr (first :: middle ++ [last]))
  = (firstVelocity <- js_or (opt first "velocityScore") (Normal (VNum 0)) ;;
     lastVelocity <- js_or (opt last "velocityScore") (Normal (VNum 0)) ;;
     if strict_eq firstVelocity (VNum 0) then Normal (VNum 0)
     else
       diff <- js_sub firstVelocity lastVelocity ;;
       ratio <- js_div diff firstVelocity ;;
       js_mul ratio (VNum 100)).
Proof.
  intros Hsz.
  set (items := first :: middle ++ [last]) in *.
  assert (Hlen : length items = S (S (length middle))).
  { unfold items. simpl. rewrite length_app. simpl. lia. }
  pose proof (array_sized_53 _ Hsz) as H53.
  unfold Analyze.calculateDropoff. rewrite prop_length.
  cbn [ToBoolean negb].
  change (js_lt (VNum (num_of_nat (length items))) (VNum 2))
    with (Normal (PrimFloat.ltb (num_of_nat (length items)) 2)).
  rewrite (num_of_nat_lt_2 _ H53), Hlen. cbn [Nat.ltb Nat.leb bind].
  change (VNum 0) with (VNum (num_of_nat 0)) at 1.
  rewrite (get_at_count items 0 Hsz) by lia.
  change (nth 0 items VUndefined) with first. cbn [bind].
  rewrite !js_or_default. cbn [bind].
  change (js_sub (VNum (num_of_nat (S (S (length middle))))) (VNum 1))
    with (Normal (VNum (num_of_nat (S (S (length middle))) - 1))).
  rewrite num_of_nat_pred by lia. cbn [bind].
  rewrite (get_at_count items (S (length middle)) Hsz) by lia.
  change (S (length middle)) with (length (first :: middle)).
  unfold items. rewrite nth_last. cbn [bind].
  rewrite !js_or_default. reflexivity.
Qed.

(** X18. A first rep that is [null], or has no velocity score, gives a
    dropoff of 0 whatever the other reps are; and the reps between the
    first and the last never matter. *)
Theorem calculateDropoff_tolerates (first : value) (middle : list value)
    (last : value) :
  array_sized (first :: middle ++ [last]) ->
  (ToBoolean (opt first "velocityScore") = false ->
   Analyze.calculateDropoff (VArr (first :: middle ++ [last])) = Normal (VNum 0))
  /\ Analyze.calculateDropoff (VArr (first :: middle ++ [last]))
     = Analyze.calculateDropoff (VArr [first; last]).
Proof.
  intros Hsz. split.
  - intros Hf. rewrite (calculateDropoff_ends first middle last Hsz).
    rewrite (js_or_falsy _ _ Hf). cbn [bind]. rewrite js_or_default. reflexivity.
  - rewrite (calculateDropoff_ends first middle last Hsz).
    symmetry. apply (calculateDropoff_ends first [] last). reflexivity.
Qed.

Lemma calculateDropoff_tolerates_witness :
  Analyze.calculateDropoff
    (VArr (VNull :: [rep 2 "Left" "00:05.0" "00:06.1" 1.1 7]
           ++ [rep 3 "Left" "00:07.0" "00:08.3" 1.3 6]))
  = Normal (VNum 0).
Proof.
  apply (calculateDropoff_tolerates VNull
           [rep 2 "Left" "00:05.0" "00:06.1" 1.1 7]
           (rep 3 "Left" "00:07.0" "00:08.3" 1.3 6));
    reflexivity.
Defined.

Section Steady.

Local Open Scope float_scope.

(** A positive finite number less itself is [0], and so is that
    difference divided by the number and scaled. *)
Lemma steady_zero (x : float) :
  PrimFloat.ltb 0 x = true -> PrimFloat.ltb x infinity = true ->
  (x - x) / x * 100 = 0.
Proof.
  intros Hpos Hfin. apply Prim2SF_inj.
  rewrite mul_spec, div_spec, sub_spec.
  rewrite ltb_spec in Hpos, Hfin.
  change (Prim2SF 0) with (S754_zero false) in *.
  change (Prim2SF infinity) with (S754_infinity false) in Hfin.
  destruct (Prim2SF x) as [[|]| [|] | | [|] m e]; try discriminate Hpos;
    try discriminate Hfin.
  unfold SF64mul, SF64div, SF64sub. cbn [SFsub]. rewrite Z.sub_diag.
  reflexivity.
Qed.

Lemma positive_truthy (x : float) :
  PrimFloat.ltb 0 x = true ->
  PrimFloat.eqb x 0 = false /\ PrimFloat.is_nan x = false.
Proof.
  intros Hpos. unfold PrimFloat.is_nan.
  rewrite ltb_spec in Hpos. rewrite !FloatAxioms.eqb_spec.
  change (Prim2SF 0) with (S754_zero false) in *.
  destruct (Prim2SF x) as [[|]| [|] | | [|] m e]; try discriminate Hpos.
  - split; reflexivity.
  - split; [reflexivity|]. unfold SFeqb, SFcompare.
    rewrite Z.compare_refl, Pos.compare_cont_refl. reflexivity.
Qed.

Lemma div_eucl_exact (m : positive) (k : Z) :
  (0 <= k)%Z ->
  Z.div_eucl (Z.shiftl (Zpos m) k) (Zpos m) = (2 ^ k, 0)%Z.
Proof.
  intros Hk. rewrite Z.shiftl_mul_pow2 by exact Hk.
  pose proof (Z.div_mul (2 ^ k) (Zpos m) ltac:(lia)) as Hq.
  pose proof (Z.mod_mul (2 ^ k) (Zpos m) ltac:(lia)) as Hr.
  rewrite (Z.mul_comm (Zpos m)).
  unfold Z.div, Z.modulo in Hq, Hr.
  destruct (Z.div_eucl (2 ^ k * Zpos m) (Zpos m)) as [q r]. now subst.
Qed.

(** A positive finite number less nothing, divided by itself and scaled,
    is [100]. *)
Lemma whole_hundred (x : float) :
  PrimFloat.ltb 0 x = true -> PrimFloat.ltb x infinity = true ->
  (x - 0) / x * 100 = 100.
Proof.
  intros Hpos Hfin. apply Prim2SF_inj.
  rewrite mul_spec, div_spec, sub_spec.
  rewrite ltb_spec in Hpos, Hfin.
  change (Prim2SF 0) with (S754_zero false) in *.
  change (Prim2SF infinity) with (S754_infinity false) in Hfin.
  destruct (Prim2SF x) as [[|]| [|] | | [|] m e]; try discriminate Hpos;
    try discriminate Hfin.
  unfold SF64mul, SF64div, SF64sub. cbn [SFsub SFdiv].
  unfold SFdiv_core_binary.
  replace (Zdigits2 (Zpos m) + e - (Zdigits2 (Zpos m) + e))%Z with 0%Z by lia.
  rewrite Z.sub_diag.
  change (Z.min (fexp prec emax 0) 0) with (-53)%Z.
  change (0 - -53)%Z with 53%Z. cbv iota zeta.
  rewrite (div_eucl_exact m 53) by lia.
  assert (Hloc : new_location (Zpos m) 0 = loc_Exact).
  { unfold new_location.
    destruct (Z.even (Zpos m)); [unfold new_location_even | unfold new_location_odd];
      reflexivity. }
  rewrite Hloc. vm_compute. reflexivity.
Qed.

End Steady.

(** X19. The two ends of the scale. With a positive first velocity score,
    the dropoff is exactly 0 when the last rep has the same score, and
    exactly 100 when the last rep has none (or 0). *)
Theorem calculateDropoff_scale (first : value) (middle : list value)
    (last : value) (x : float) :
  array_sized (first :: middle ++ [last]) ->
  opt first "velocityScore" = VNum x ->
  PrimFloat.ltb 0 x = true -> PrimFloat.ltb x infinity = true ->
  (opt last "velocityScore" = VNum x ->
   Analyze.calculateDropoff (VArr (first :: middle ++ [last])) = Normal (VNum 0))
  /\ (ToBoolean (opt last "velocityScore") = false ->
      Analyze.calculateDropoff (VArr (first :: middle ++ [last]))
      = Normal (VNum 100)).
Proof.
  intros Hsz Hf Hpos Hfin.
  destruct (positive_truthy x Hpos) as [Hz Hn].
  rewrite (calculateDropoff_ends first middle last Hsz), Hf.
  rewrite (or_zero_number x Hn), Hz. cbn [bind]. split.
  - intros Hl. rewrite Hl, (or_zero_number x Hn), Hz. cbn [bind strict_eq].
    rewrite Hz. cbn [js_sub js_div js_mul arith ToNumber ToPrimitive bind].
    rewrite (steady_zero x Hpos Hfin). reflexivity.
  - intros Hl. rewrite (js_or_falsy _ _ Hl). cbn [bind strict_eq].
    rewrite Hz. cbn [js_sub js_div js_mul arith ToNumber ToPrimitive bind].
    rewrite (whole_hundred x Hpos Hfin). reflexivity.
Qed.

Lemma calculateDropoff_scale_witness :
  Analyze.calculateDropoff
    (VArr (rep 1 "Left" "00:03.2" "00:04.1" 0.9 7
           :: [rep 2 "Left" "00:05.0" "00:06.1" 1.1 9]
           ++ [VObj [(lit "repNumber", VNum 3)]]))
  = Normal (VNum 100).
Proof.
  apply (calculateDropoff_scale (rep 1 "Left" "00:03.2" "00:04.1" 0.9 7)
           [rep 2 "Left" "00:05.0" "00:06.1" 1.1 9]
           (VObj [(lit "repNumber", VNum 3)]) 7%float);
    reflexivity.
Defined.

(** * The front end *)

(** X20. The starting-arm selector is shown exactly for the two alternating
    patterns, and these are the patterns for which the arm rule of the
    server reads the starting arm: for any other pattern the rule does
    not depend on it, for these two it states it in upper case. *)
Theorem starting_arm_shown_when_read (host : Host) (pattern : jstr)
    (p : App.page) :
  let display :=
    App.startingArmGroup_display (App.updateArmPatternVisibility pattern p) in
  (display = lit "flex" \/ display = lit "none")
  /\ (display = lit "flex" <-> alternating (VStr pattern) = true)
  /\ (display = lit "none" ->
      forall (exercise : jstr) (weight repsPerSet interval : float)
             (a b : value),
        Analyze.getArmContext host
          (protocolOf exercise weight repsPerSet interval (VStr pattern) a)
        = Analyze.getArmContext host
            (protocolOf exercise weight repsPerSet interval (VStr pattern) b))
  /\ (display = lit "flex" ->
      forall (exercise : jstr) (weight repsPerSet interval : float)
             (arm : jstr),
      exists before after : jstr,
        Analyze.getArmContext host
          (protocolOf exercise weight repsPerSet interval (VStr pattern)
             (VStr arm))
        = Normal (before ++ toUpperCase host arm ++ after)).
Proof.
  cbv zeta. unfold App.updateArmPatternVisibility, alternating.
  cbn [App.startingArmGroup_display].
  assert (Hget : forall (exercise : jstr) (weight repsPerSet interval : float)
                        (arm : value),
             Analyze.getArmContext host
               (protocolOf exercise weight repsPerSet interval (VStr pattern) arm)
             = if strict_eq (VStr pattern) (str "left-only") then
                 Normal (lit "All reps are performed with the LEFT arm.")
               else if strict_eq (VStr pattern) (str "right-only") then
                 Normal (lit "All reps are performed with the RIGHT arm.")
               else if strict_eq (VStr pattern) (str "alternating-sets") then
                 STARTING <- Analyze.upper host arm ;;
                 startingArm <- ToString arm ;;
                 Normal (lit "Arms alternate each set (every "
                         ++ NumberToString interval
                         ++ lit " seconds). Starting arm: " ++ STARTING
                         ++ lit ". So sets 1,3,5... use " ++ startingArm
                         ++ lit ", sets 2,4,6... use the other arm.")
               else if strict_eq (VStr pattern) (str "alternating-reps") then
                 STARTING <- Analyze.upper host arm ;;
                 Normal (lit "Arms alternate each rep. Starting arm: " ++ STARTING
                         ++ lit ".")
               else if strict_eq (VStr pattern) (str "both") then
                 Normal (lit "This is a two-handed exercise (both arms used simultaneously).")
               else
                 Normal (lit "Identify which arm is used for each rep based on visual observation.")).
  { reflexivity. }
  destruct (strict_eq (VStr pattern) (str "alternating-sets")) eqn:E3.
  { split; [left; reflexivity|]. split; [split; reflexivity|].
    split; [discriminate|]. intros _ exercise weight repsPerSet interval arm.
    rewrite Hget. apply strict_eq_str in E3. injection E3 as ->.
    exists (lit "Arms alternate each set (every " ++ NumberToString interval
            ++ lit " seconds). Starting arm: ").
    exists (lit ". So sets 1,3,5... use " ++ arm
            ++ lit ", sets 2,4,6... use the other arm.").
    cbn [strict_eq str jstr_eqb Analyze.upper ToString bind].
    change (jstr_eqb (lit "alternating-sets") (lit "left-only")) with false.
    change (jstr_eqb (lit "alternating-sets") (lit "right-only")) with false.
    cbv iota. rewrite <- !app_assoc. reflexivity. }
  destruct (strict_eq (VStr pattern) (str "alternating-reps")) eqn:E4.
  { split; [left; reflexivity|]. split; [split; reflexivity|].
    split; [discriminate|]. intros _ exercise weight repsPerSet interval arm.
    rewrite Hget. apply strict_eq_str in E4. injection E4 as ->.
    exists (lit "Arms alternate each rep. Starting arm: "), (lit ".").
    change (strict_eq (VStr (lit "alternating-reps")) (str "left-only")) with false.
    change (strict_eq (VStr (lit "alternating-reps")) (str "right-only")) with false.
    reflexivity. }
  cbn [orb]. split; [right; reflexivity|].
  split; [split; discriminate|]. split; [|discriminate].
  intros _ exercise weight repsPerSet interval a b.
  rewrite !Hget. reflexivity.
Qed.

Section Pages.

Variable objectURL : App.File -> jstr.
Variable resolved : jstr -> jstr.

Lemma hundred_mebibytes : (100 * 1024 * 1024)%float = 104857600%float.
Proof. reflexivity. Qed.

(** A file is taken exactly when it is valid; a file that is not leaves
    the page as it was. *)
Lemma handleFileSelect_cases (f : App.File) (p : App.page) :
  (valid_video f
   /\ App.videoFile (fst (App.handleFileSelect objectURL (Some f) p)) = Some f
   /\ shows_video objectURL (fst (App.handleFileSelect objectURL (Some f) p)))
  \/ (~ valid_video f
      /\ fst (App.handleFileSelect objectURL (Some f) p) = p
      /\ exists message : jstr,
           snd (App.handleFileSelect objectURL (Some f) p) = [App.alert message]).
Proof.
  unfold App.handleFileSelect, valid_video. rewrite hundred_mebibytes.
  destruct (startsWith (App.type f) (lit "video/")) eqn:Et; cbn [negb].
  - destruct (PrimFloat.ltb 104857600 (App.size f)) eqn:Es.
    + right. split; [intros [_ H]; discriminate H|]. split; [reflexivity|].
      eexists. reflexivity.
    + left. split; [split; reflexivity|]. split; [reflexivity|].
      intros g Hg. cbn in Hg. injection Hg as <-.
      repeat split; try reflexivity; assumption.
  - right. split; [intros [H _]; discriminate H|]. split; [reflexivity|].
    eexists. reflexivity.
Qed.

Lemma handleFileSelect_keeps (file : option App.File) (p : App.page) :
  shows_video objectURL p ->
  shows_video objectURL (fst (App.handleFileSelect objectURL file p)).
Proof.
  intros Hp. destruct file as [f|]; [|exact Hp].
  destruct (handleFileSelect_cases f p) as [(_ & _ & H) | (_ & -> & _)];
    assumption.
Qed.

Lemma dragging_keeps (over : bool) (p : App.page) :
  shows_video objectURL p -> shows_video objectURL (App.dragging over p).
Proof. intros Hp f Hf. apply (Hp f Hf). Qed.

Lemma listen_keeps (e : App.event) (p : App.page) :
  shows_video objectURL p ->
  shows_video objectURL (fst (App.listen objectURL resolved e p)).
Proof.
  intros Hp. destruct e as [value| |file| | |file|]; cbn [App.listen fst].
  - intros f Hf. apply (Hp f Hf).
  - exact Hp.
  - apply handleFileSelect_keeps, Hp.
  - apply dragging_keeps, Hp.
  - apply dragging_keeps, Hp.
  - destruct file as [f|]; [|apply dragging_keeps, Hp].
    destruct (startsWith (App.type f) (lit "video/"));
      [apply handleFileSelect_keeps|]; apply dragging_keeps, Hp.
  - intros f Hf. discriminate Hf.
Qed.

Lemma run_keeps (events : list App.event) :
  forall p : App.page,
    shows_video objectURL p ->
    shows_video objectURL (fst (App.run objectURL resolved events p)).
Proof.
  induction events as [|e events IH]; intros p Hp; [exact Hp|].
  cbn [App.run].
  pose proof (listen_keeps e p Hp) as H1.
  destruct (App.listen objectURL resolved e p) as [p1 out1].
  pose proof (IH p1 H1) as H2.
  destruct (App.run objectURL resolved events p1) as [p2 out2]. exact H2.
Qed.

End Pages.

(** X21. Whatever the user chooses, drops or removes, starting from a page
    without a video: the video the page holds, if any, is a file whose
    type begins with [video/] and whose size is at most 104857600 bytes,
    the player shows it, the upload zone is hidden and the preview
    visible. A file that is not such a video is not taken: the page stays
    as it was and one alert is raised. *)
Theorem selected_video_is_valid (objectURL : App.File -> jstr)
    (resolved : jstr -> jstr) :
  (forall (events : list App.event) (p : App.page),
      App.videoFile p = None ->
      shows_video objectURL (fst (App.run objectURL resolved events p)))
  /\ (forall (f : App.File) (p : App.page),
        ~ valid_video f ->
        fst (App.handleFileSelect objectURL (Some f) p) = p
        /\ exists message : jstr,
             snd (App.handleFileSelect objectURL (Some f) p)
             = [App.alert message])
  /\ (forall (f : App.File) (p : App.page),
        valid_video f ->
        App.videoFile (fst (App.handleFileSelect objectURL (Some f) p))
        = Some f).
Proof.
  split; [|split].
  - intros events p Hp. apply run_keeps. intros f Hf. congruence.
  - intros f p Hf.
    destruct (handleFileSelect_cases objectURL f p) as [(H & _) | (_ & H)];
      [contradiction | exact H].
  - intros f p Hf.
    destruct (handleFileSelect_cases objectURL f p) as [(_ & H & _) | (H & _)];
      [exact H | contradiction].
Qed.

Lemma selected_video_is_valid_witness :
  App.videoFile
    (fst (App.run (fun _ => lit "blob:1") (fun url => url)
            [ App.change_videoInput (Some picture); App.drop (Some clip);
              App.change_videoInput (Some film) ]
            blank_page))
  = Some clip
  /\ valid_video clip.
Proof.
  split; [reflexivity|].
  apply (proj1 (selected_video_is_valid (fun _ => lit "blob:1") (fun url => url))
           [ App.change_videoInput (Some picture); App.drop (Some clip);
             App.change_videoInput (Some film) ]
           blank_page eq_refl clip eq_refl).
Defined.

Lemma comma_free (text : jstr) :
  forallb (fun c => negb (N.eqb c 44)) text = true -> ~ In 44%N text.
Proof.
  rewrite forallb_forall. intros H Hin. specialize (H _ Hin). discriminate H.
Qed.

Lemma split_comma_plain (text : jstr) :
  ~ In 44%N text -> App.split_comma text = [text].
Proof.
  induction text as [|c text IH]; intros H; [reflexivity|].
  cbn [App.split_comma]. rewrite IH by (intros Hin; apply H; right; exact Hin).
  destruct (N.eqb_spec c 44) as [-> | _]; [|reflexivity].
  exfalso. apply H. left. reflexivity.
Qed.

Lemma split_comma_app (header rest : jstr) :
  ~ In 44%N header ->
  App.split_comma (header ++ 44%N :: rest) = header :: App.split_comma rest.
Proof.
  induction header as [|c header IH]; intros H.
  - cbn [app App.split_comma N.eqb Pos.eqb].
    destruct (App.split_comma rest) eqn:E; [|reflexivity].
    destruct rest; cbn in E; [discriminate E|].
    destruct (App.split_comma rest); [discriminate E|].
    destruct (N.eqb n 44); discriminate E.
  - cbn [app App.split_comma].
    rewrite IH by (intros Hin; apply H; right; exact Hin).
    destruct (N.eqb_spec c 44) as [-> | _]; [|reflexivity].
    exfalso. apply H. left. reflexivity.
Qed.

(** X22. From a data URL, [fileToBase64] takes what follows the first comma:
    the whole payload, as base64 text holds no comma. A text without a
    comma gives [undefined]. *)
Theorem fileToBase64_payload (header data : jstr) :
  ~ In 44%N header ->
  (~ In 44%N data -> App.fileToBase64 (header ++ lit "," ++ data) = VStr data)
  /\ App.fileToBase64 header = VUndefined.
Proof.
  intros Hh. split.
  - intros Hd. unfold App.fileToBase64.
    change (header ++ lit "," ++ data) with (header ++ 44%N :: data).
    rewrite (split_comma_app header data Hh), (split_comma_plain data Hd).
    reflexivity.
  - unfold App.fileToBase64. rewrite (split_comma_plain header Hh). reflexivity.
Qed.

Lemma fileToBase64_payload_witness :
  App.fileToBase64 (lit "data:video/mp4;base64" ++ lit "," ++ lit "AAAAIGZ0eXBpc29t")
  = str "AAAAIGZ0eXBpc29t".
Proof.
  apply (proj1 (fileToBase64_payload (lit "data:video/mp4;base64")
                  (lit "AAAAIGZ0eXBpc29t")
                  (comma_free (lit "data:video/mp4;base64") eq_refl))).
  apply comma_free. reflexivity.
Defined.

(** X23. What the user is shown when the API does not answer 200: the
    message of the exception the handler caught, and [Analysis failed]
    when the response has none, as for the answers 405 and 400, whose
    own label is never shown. *)
Theorem client_shows_message (host : Host) (req : request)
    (message_of : error -> option jstr) :
  match json (fst (Analyze.handler host req)) with
  | ErrorOnly label =>
      (status (fst (Analyze.handler host req)) = 405%Z
       \/ status (fst (Analyze.handler host req)) = 400%Z)
      /\ App.respond_to false (Normal (error_body label None))
         = App.showError (lit "Analysis failed")
  | ErrorMessage label e =>
      status (fst (Analyze.handler host req)) = 500%Z
      /\ App.respond_to false (Normal (error_body label (message_of e)))
         = App.showError
             match message_of e with
             | Some (c :: text) => c :: text
             | _ => lit "Analysis failed"
             end
  | Results _ => status (fst (Analyze.handler host req)) = 200%Z
  end.
Proof.
  assert (Hm : forall (label : jstr) (e : error),
             App.respond_to false (Normal (error_body label (message_of e)))
             = App.showError
                 match message_of e with
                 | Some (c :: text) => c :: text
                 | _ => lit "Analysis failed"
                 end).
  { intros label e. destruct (message_of e) as [[|c text]|]; reflexivity. }
  rewrite handler_cases.
  destruct (negb (jstr_eqb (method req) (lit "POST")));
    [split; [left; reflexivity | reflexivity]|].
  destruct (nullish (body req)); [split; [reflexivity | apply Hm]|].
  destruct (negb (ToBoolean (prop (body req) (lit "video")))
            || negb (ToBoolean (prop (body req) (lit "protocol"))));
    [split; [right; reflexivity | reflexivity]|].
  destruct (Analyze.buildPrompt host (prop (body req) (lit "protocol")))
    as [prompt|e]; [|split; [reflexivity | apply Hm]].
  destruct (generateContent host (call_of req prompt));
    [reflexivity | split; [reflexivity | apply Hm]].
Qed.

(** * The protocol form *)

Lemma digit_not_space (c : N) : isDigit c = true -> isWhiteSpace c = false.
Proof.
  unfold isDigit. intros H. apply andb_prop in H. destruct H as [Hlo Hhi].
  apply N.leb_le in Hlo, Hhi. unfold isWhiteSpace. cbn [existsb].
  repeat match goal with
         | |- context [N.eqb c ?k] =>
             destruct (N.eqb_spec c k) as [E|_]; [exfalso; subst c; lia|]
         end.
  reflexivity.
Qed.

Lemma digit_is_decimal (c : N) :
  isDigit c = true ->
  hex_val c = Some (digit_val c) /\ (digit_val c <? 10)%Z = true.
Proof.
  intros H. unfold hex_val. rewrite H. split; [reflexivity|].
  unfold isDigit in H. apply andb_prop in H. destruct H as [Hlo Hhi].
  apply N.leb_le in Hlo, Hhi. unfold digit_val. apply Z.ltb_lt. lia.
Qed.

Lemma span_digits (ds rest : jstr) :
  forallb isDigit ds = true ->
  match rest with
  | [] => True
  | c :: _ => match hex_val c with
              | Some d => (d <? 10)%Z = false
              | None => True
              end
  end ->
  span (fun c => match hex_val c with
                 | Some d => (d <? 10)%Z
                 | None => false
                 end) (ds ++ rest) = (ds, rest).
Proof.
  intros Hd Hr. induction ds as [|c ds IH]; cbn [app].
  - destruct rest as [|c rest]; [reflexivity|]. cbn [span].
    destruct (hex_val c) as [d|]; [rewrite Hr|]; reflexivity.
  - cbn [forallb] in Hd. apply andb_prop in Hd. destruct Hd as [Hc Hd].
    cbn [span]. destruct (digit_is_decimal c Hc) as [-> ->].
    rewrite (IH Hd). reflexivity.
Qed.

Lemma radix_val_digits (ds : jstr) :
  forallb isDigit ds = true ->
  forall acc : Z,
    radix_val 10 ds acc
    = Some (fold_left (fun acc c => (acc * 10 + digit_val c)%Z) ds acc).
Proof.
  induction ds as [|c ds IH]; intros Hd acc; [reflexivity|].
  cbn [forallb] in Hd. apply andb_prop in Hd. destruct Hd as [Hc Hd].
  cbn [radix_val fold_left]. destruct (digit_is_decimal c Hc) as [-> ->].
  apply IH, Hd.
Qed.

(** [parseInt] on decimal digits followed by nothing or by a code unit
    that is no digit (and not the [x] of a prefix): the integer the
    digits denote. *)
Lemma parseInt_digits (ds rest : jstr) :
  ds <> [] -> forallb isDigit ds = true ->
  match rest with
  | [] => True
  | c :: _ => hex_val c = None /\ c <> 120%N /\ c <> 88%N
  end ->
  parseInt (ds ++ rest) = float_of_ratio false (digits_val ds) 1.
Proof.
  intros Hne Hd Hr. destruct ds as [|c ds]; [congruence|]. clear Hne.
  pose proof Hd as Hall.
  cbn [forallb] in Hd. apply andb_prop in Hd. destruct Hd as [Hc Hd].
  unfold parseInt. cbn [app dropWhile]. rewrite (digit_not_space c Hc).
  assert (Hrange : (48 <= c <= 57)%N).
  { unfold isDigit in Hc. apply andb_prop in Hc. destruct Hc as [Hlo Hhi].
    apply N.leb_le in Hlo, Hhi. lia. }
  destruct (N.eqb_spec c 45) as [E|_]; [lia|].
  destruct (N.eqb_spec c 43) as [E|_]; [lia|].
  assert (Hprefix :
            match ds ++ rest with
            | x :: s' =>
                if N.eqb c 48 && (N.eqb x 120 || N.eqb x 88)
                then (16%Z, s') else (10%Z, c :: ds ++ rest)
            | [] => (10%Z, c :: ds ++ rest)
            end = (10%Z, c :: ds ++ rest)).
  { destruct ds as [|x ds]; cbn [app].
    - destruct rest as [|x rest]; [reflexivity|].
      destruct Hr as (_ & H1 & H2).
      destruct (N.eqb_spec x 120) as [E|_]; [contradiction|].
      destruct (N.eqb_spec x 88) as [E|_]; [contradiction|].
      rewrite andb_false_r. reflexivity.
    - cbn [forallb] in Hd. apply andb_prop in Hd. destruct Hd as [Hx _].
      unfold isDigit in Hx. apply andb_prop in Hx. destruct Hx as [Hlo Hhi].
      apply N.leb_le in Hlo, Hhi.
      destruct (N.eqb_spec x 120) as [E|_]; [lia|].
      destruct (N.eqb_spec x 88) as [E|_]; [lia|].
      rewrite andb_false_r. reflexivity. }
  rewrite Hprefix.
  change (c :: ds ++ rest) with ((c :: ds) ++ rest).
  rewrite (span_digits (c :: ds) rest Hall).
  - cbn [fst]. rewrite (radix_val_digits (c :: ds) Hall 0). reflexivity.
  - destruct rest as [|x rest]; [exact I|]. destruct Hr as (-> & _). exact I.
Qed.

(** X24. [getProtocol] reads weight, reps and interval with [parseInt]: a
    run of digits is read as the integer it denotes, a decimal fraction
    behind it is dropped, and an empty field gives [NaN]. *)
Theorem getProtocol_reads_whole_numbers (f : App.form) (ds frac : jstr) :
  ds <> [] -> forallb isDigit ds = true ->
  (App.weightInput_value f = ds \/ App.weightInput_value f = ds ++ lit "." ++ frac ->
   prop (App.getProtocol f) (lit "weight")
   = VNum (float_of_ratio false (digits_val ds) 1))
  /\ (App.repsInput_value f = ds \/ App.repsInput_value f = ds ++ lit "." ++ frac ->
      prop (App.getProtocol f) (lit "repsPerSet")
      = VNum (float_of_ratio false (digits_val ds) 1))
  /\ (App.intervalInput_value f = ds
      \/ App.intervalInput_value f = ds ++ lit "." ++ frac ->
      prop (App.getProtocol f) (lit "interval")
      = VNum (float_of_ratio false (digits_val ds) 1))
  /\ (App.weightInput_value f = [] ->
      prop (App.getProtocol f) (lit "weight") = VNum nan)
  /\ (App.repsInput_value f = [] ->
      prop (App.getProtocol f) (lit "repsPerSet") = VNum nan)
  /\ (App.intervalInput_value f = [] ->
      prop (App.getProtocol f) (lit "interval") = VNum nan).
Proof.
  intros Hne Hd.
  assert (Hint : forall text : jstr,
             text = ds \/ text = ds ++ lit "." ++ frac ->
             parseInt text = float_of_ratio false (digits_val ds) 1).
  { intros text [-> | ->].
    - rewrite <- (app_nil_r ds) at 1. apply parseInt_digits; auto.
    - apply parseInt_digits; auto. cbn. repeat split; discriminate. }
  repeat split; intros H;
    first [ apply (f_equal VNum), Hint, H
          | cbn [App.getProtocol prop lookup]; rewrite H; reflexivity ].
Qed.

Lemma getProtocol_reads_whole_numbers_witness :
  prop (App.getProtocol half_weight_form) (lit "weight") = VNum 12.
Proof.
  refine (proj1 (getProtocol_reads_whole_numbers half_weight_form
                   (lit "12") (lit "5") _ _) _).
  - discriminate.
  - reflexivity.
  - right. reflexivity.
Defined.
